(** * Student management service: record store, binding and controllers

    A shallow embedding of the Go sources

      - [models/student.go]                  (the [Student] model and its tags),
      - [config/database.go]                 (the SQLite-backed GORM handle),
      - [controllers/student_controller.go]  (the six HTTP handlers),

    followed by the properties of the CRUD and search operations.

    The handlers talk to two libraries.  Their behaviour is written out
    here as far as the handlers depend on it:

      - Gin's [ShouldBindJSON] decodes the body with [encoding/json] and then
        checks the [binding:"..."] tags of the model with the validator;
      - GORM over SQLite runs [First], [Find], [Create], [Updates] and
        [Delete] on the [students] table, with the soft-delete clause of
        [gorm.DeletedAt], the primary key [id] (AUTOINCREMENT) and the
        unique index on [email].

    The global handle [config.DB] becomes an explicit store value that
    every handler receives and, when it writes, returns.  [time.Now] is an
    input of the writing handlers.  The store is assumed reachable: a
    handler never sees a connection or I/O error; the errors of the store
    that remain are those of its constraints, of LIKE, and of reading a
    key back into [uint]. *)

From Stdlib Require Import ZArith NArith String Ascii List Bool Sorted
  Permutation Lia.
Import ListNotations.

Open Scope string_scope.

(** ** Strings *)

(** Go strings are byte sequences; [string] holds one byte per [ascii]. *)

Definition byte (c : ascii) : N := N_of_ascii c.

(** ASCII-only lower-casing of a byte. *)
Definition toLower (c : ascii) : ascii :=
  if ((65 <=? byte c) && (byte c <=? 90))%N
  then ascii_of_N (byte c + 32)
  else c.

Fixpoint lower (s : string) : string :=
  match s with
  | EmptyString => EmptyString
  | String c s' => String (toLower c) (lower s')
  end.

(** A UTF-8 continuation byte, [10xxxxxx]. *)
Definition is_cont (c : ascii) : bool :=
  ((128 <=? byte c) && (byte c <? 192))%N.

(** *** Text as SQLite reads it *)

(** SQLite takes the pattern and the text of LIKE as C strings, which end
    at the first NUL byte, and reads them character by character with
    [sqlite3Utf8Read]: a byte below [0xC0] is a character by itself; a lead
    byte from [0xC0] on takes every continuation byte that follows with it,
    and a result below [0x80], a surrogate, [0xFFFE] or [0xFFFF] is read as
    [0xFFFD].  The value is kept in 32 bits. *)

(** [sqlite3Utf8Trans1]: the payload bits of a lead byte. *)
Definition utf8_lead (b : N) : N :=
  (if b <? 224 then b - 192
   else if b <? 240 then b - 224
   else if b <? 248 then b - 240
   else if b <? 252 then b - 248
   else if b <? 254 then b - 252
   else 0)%N.

Definition utf8_fix (c : N) : N :=
  (if (c <? 128) || ((55296 <=? c) && (c <=? 57343))
      || (c =? 65534) || (c =? 65535)
   then 65533 else c)%N.

(** The characters of a C string; [cur] holds the value of a multi-byte
    character whose continuation bytes are being read. *)
Fixpoint chars_from (cur : option N) (s : string) : list N :=
  match s with
  | EmptyString =>
      match cur with Some c => [utf8_fix c] | None => [] end
  | String a s' =>
      let rest :=
        if (byte a =? 0)%N then []
        else if (byte a <? 192)%N then byte a :: chars_from None s'
        else chars_from (Some (utf8_lead (byte a))) s' in
      match cur with
      | Some c =>
          if is_cont a
          then chars_from (Some ((c * 64 + byte a mod 64) mod 2 ^ 32)%N) s'
          else utf8_fix c :: rest
      | None => rest
      end
  end.

Definition chars (s : string) : list N := chars_from None s.

(** ASCII-only lower-casing of a character. *)
Definition lowerN (c : N) : N :=
  if ((65 <=? c) && (c <=? 90))%N then (c + 32)%N else c.

(** Two characters match: they are equal, or both are ASCII and equal
    without regard to case. *)
Definition eq_char (c d : N) : bool :=
  ((c =? d) || ((c <? 128) && (d <? 128) && (lowerN c =? lowerN d)))%N.

(** [patternCompare] for LIKE without an ESCAPE clause: [%] (37) matches
    any run of characters, [_] (95) exactly one character, every other
    character itself. *)
Fixpoint like_chars (p : list N) : list N -> bool :=
  match p with
  | [] => fun s => match s with [] => true | _ :: _ => false end
  | c :: p' =>
      if (c =? 37)%N then
        fix star (s : list N) : bool :=
          like_chars p' s
          || match s with
             | [] => false
             | _ :: s' => star s'
             end
      else if (c =? 95)%N then
        fun s =>
          match s with
          | [] => false
          | _ :: s' => like_chars p' s'
          end
      else
        fun s =>
          match s with
          | [] => false
          | d :: s' => eq_char c d && like_chars p' s'
          end
  end.

(** Whether the text [s] matches the pattern [p]. *)
Definition like (p s : string) : bool := like_chars (chars p) (chars s).

(** SQLITE_LIMIT_LIKE_PATTERN_LENGTH, in bytes. *)
Definition likeLimit : N := 50000%N.

(** ** strconv.ParseUint(s, 10, 32) *)

Definition digit (c : ascii) : option N :=
  if ((48 <=? byte c) && (byte c <=? 57))%N then Some (byte c - 48)%N else None.

Fixpoint digits (s : string) (acc : N) : option N :=
  match s with
  | EmptyString => Some acc
  | String c s' =>
      match digit c with
      | Some d => digits s' (10 * acc + d)%N
      | None => None
      end
  end.

(** Base 10, no sign, no underscore; the empty string and any value above
    [2^32 - 1] are errors. *)
Definition ParseUint (s : string) : option N :=
  match s with
  | EmptyString => None
  | _ =>
      match digits s 0%N with
      | Some n => if (n <? 2 ^ 32)%N then Some n else None
      | None => None
      end
  end.

(** The decimal numeral of [n], as a client writes an id into a path. *)
Fixpoint decimal_digits (fuel : nat) (n : N) (acc : string) : string :=
  match fuel with
  | O => acc
  | S fuel' =>
      let acc' := String (ascii_of_N (48 + n mod 10)) acc in
      if (n / 10 =? 0)%N then acc' else decimal_digits fuel' (n / 10) acc'
  end.

Definition decimal (n : N) : string := decimal_digits 20 n "".

(** ** models/student.go *)

(** [time.Time] as an instant; [0] is the zero time ([IsZero]). *)
Definition Time := N.

Record Student := mkStudent {
  ID : N;                       (* uint, primaryKey *)
  Name : string;                (* not null;size:100 / required *)
  Age : Z;                      (* not null / required,min=1,max=150 *)
  Gender : string;              (* not null;size:10 / required,oneof *)
  Email : string;               (* uniqueIndex;size:100 / required,email *)
  Phone : string;               (* size:20 / required *)
  Major : string;               (* size:100 / required *)
  Grade : string;               (* size:50 / required *)
  CreatedAt : Time;
  UpdatedAt : Time;
  DeletedAt : option Time       (* gorm.DeletedAt, json:"-" *)
}.

Definition TableName : string := "students".

(** The zero value of the struct, what [var student models.Student] holds. *)
Definition zeroStudent : Student :=
  mkStudent 0 "" 0 "" "" "" "" "" 0%N 0%N None.

(** ** Errors *)

(** One entry of [validator.ValidationErrors]: the struct field and the tag
    that failed. *)
Record FieldError := mkFieldError { Field : string; Tag : string }.

Inductive error :=
| ErrJSON                                   (* encoding/json could not decode *)
| ErrValidation (errs : list FieldError)    (* validator.ValidationErrors *)
| ErrRecordNotFound                         (* gorm.ErrRecordNotFound *)
| ErrMissingWhereClause                     (* gorm.ErrMissingWhereClause *)
| ErrUniqueConstraint (column : string)     (* UNIQUE constraint failed *)
| ErrLikePattern                            (* LIKE or GLOB pattern too complex *)
| ErrScan                                   (* stored keys do not fit uint *)
| ErrDatabaseFull.                          (* no rowid left *)

(** ** Request bodies and binding *)

(** The members of a JSON object that the [json:"..."] tags of [Student]
    read; a member that is absent or [null] is [None].  [deleted_at] is
    tagged [json:"-"] and is never read. *)
Record JSONBody := mkBody {
  j_id : option N;
  j_name : option string;
  j_age : option Z;
  j_gender : option string;
  j_email : option string;
  j_phone : option string;
  j_major : option string;
  j_grade : option string;
  j_created_at : option Time;
  j_updated_at : option Time
}.

Definition emptyBody : JSONBody :=
  mkBody None None None None None None None None None None.

Definition opt {A} (d : A) (o : option A) : A :=
  match o with Some a => a | None => d end.

(** [json.Unmarshal] into a zero [Student]: absent members leave the zero
    value; a number that does not fit [uint] or [int] (64 bits) is an
    error. *)
Definition unmarshal (b : JSONBody) : error + Student :=
  if (2 ^ 64 <=? opt 0%N (j_id b))%N then inl ErrJSON
  else if ((opt 0 (j_age b) <? - 2 ^ 63) || (2 ^ 63 <=? opt 0 (j_age b)))%Z
  then inl ErrJSON
  else inr (mkStudent (opt 0%N (j_id b)) (opt "" (j_name b)) (opt 0%Z (j_age b))
              (opt "" (j_gender b)) (opt "" (j_email b)) (opt "" (j_phone b))
              (opt "" (j_major b)) (opt "" (j_grade b))
              (opt 0%N (j_created_at b)) (opt 0%N (j_updated_at b)) None).

Section Binding.

(** The validator's [email] tag is a regular expression of the library;
    the handlers only need it as a predicate on strings. *)
Variable isEmail : string -> bool.

(** The [binding] tags, field by field in declaration order.  For one
    field the tags are tried left to right and the first failure is
    reported; [required] fails on the zero value. *)

Definition required_string (field v : string) : list FieldError :=
  if String.eqb v "" then [mkFieldError field "required"] else [].

Definition check_Name (s : Student) : list FieldError :=
  required_string "Name" (Name s).

Definition check_Age (s : Student) : list FieldError :=
  if (Age s =? 0)%Z then [mkFieldError "Age" "required"]
  else if (Age s <? 1)%Z then [mkFieldError "Age" "min"]
  else if (150 <? Age s)%Z then [mkFieldError "Age" "max"]
  else [].

Definition check_Gender (s : Student) : list FieldError :=
  if String.eqb (Gender s) "" then [mkFieldError "Gender" "required"]
  else if String.eqb (Gender s) "男" || String.eqb (Gender s) "女" then []
  else [mkFieldError "Gender" "oneof"].

Definition check_Email (s : Student) : list FieldError :=
  if String.eqb (Email s) "" then [mkFieldError "Email" "required"]
  else if isEmail (Email s) then []
  else [mkFieldError "Email" "email"].

Definition check_Phone (s : Student) : list FieldError :=
  required_string "Phone" (Phone s).

Definition check_Major (s : Student) : list FieldError :=
  required_string "Major" (Major s).

Definition check_Grade (s : Student) : list FieldError :=
  required_string "Grade" (Grade s).

Definition validate (s : Student) : list FieldError :=
  check_Name s ++ check_Age s ++ check_Gender s ++ check_Email s
  ++ check_Phone s ++ check_Major s ++ check_Grade s.

(** [c.ShouldBindJSON(&student)]: the body is [None] when it is not a JSON
    object that decodes (syntax error, wrong member type, empty body). *)
Definition ShouldBindJSON (body : option JSONBody) : error + Student :=
  match body with
  | None => inl ErrJSON
  | Some b =>
      match unmarshal b with
      | inl e => inl e
      | inr s =>
          match validate s with
          | [] => inr s
          | errs => inl (ErrValidation errs)
          end
      end
  end.

End Binding.

(** ** config/database.go: the store behind [config.GetDB()] *)

(** The [students] table in SQLite: its rows in the order of their rowid,
    as the table is scanned, and the counter that AUTOINCREMENT keeps in
    [sqlite_sequence]. *)
Record DB := mkDB { rows : list Student; seq : N }.

(** A fresh [students.db] after [AutoMigrate]. *)
Definition InitDatabase : DB := mkDB [] 0%N.

(** [deleted_at IS NULL] *)
Definition live (r : Student) : bool :=
  match DeletedAt r with None => true | Some _ => false end.

(** *** Keys *)

(** The largest rowid of SQLite, [2^63 - 1]. *)
Definition maxRowid : N := (2 ^ 63 - 1)%N.

(** The rowid under which an [ID] is stored: the driver passes a [uint] as
    an [int64] of the same 64 bits, so [2^63] and above wrap to negative
    keys. *)
Definition rowid (id : N) : Z :=
  ((Z.of_N id + 2 ^ 63) mod 2 ^ 64 - 2 ^ 63)%Z.

(** A row can be read back into the struct when its key is not negative;
    a negative key does not convert to [uint]. *)
Definition scans (r : Student) : bool := (0 <=? rowid (ID r))%Z.

(** The largest key of the table that is not negative, [0] if none. *)
Definition maxID (l : list Student) : N :=
  fold_right (fun r m => N.max (Z.to_N (rowid (ID r))) m) 0%N l.

(** The table with one more row, at the place of its rowid. *)
Fixpoint insert_row (s : Student) (l : list Student) : list Student :=
  match l with
  | [] => [s]
  | r :: l' =>
      if (rowid (ID s) <? rowid (ID r))%Z then s :: l
      else r :: insert_row s l'
  end.

(** *** Queries *)

(** A condition of a WHERE clause is evaluated on a row and may fail. *)
Definition cond := Student -> error + bool.
Definition query := list cond.

(** A condition that cannot fail. *)
Definition sql (p : Student -> bool) : cond := fun r => inr (p r).

(** [text LIKE pattern]: SQLite refuses a pattern of more than
    [likeLimit] bytes when it evaluates the operator. *)
Definition LIKE (text pattern : string) : error + bool :=
  if (likeLimit <? N.of_nat (String.length pattern))%N then inl ErrLikePattern
  else inr (like pattern text).

(** A chain of [Where] calls is the list of its conditions. *)
Definition Where (q : query) (c : cond) : query := (q ++ [c])%list.

(** The conditions joined by AND, from left to right; the first one that
    is false ends the evaluation for the row. *)
Fixpoint holds (q : query) (r : Student) : error + bool :=
  match q with
  | [] => inr true
  | c :: q' =>
      match c r with
      | inl e => inl e
      | inr true => holds q' r
      | inr false => inr false
      end
  end.

(** The rows that satisfy the conditions, in table order, each read into a
    struct.  The statement fails when a condition fails on a row that is
    reached or a selected row has a key that cannot be read; the error kept
    is the first one. *)
Fixpoint select (q : query) (l : list Student) : error + list Student :=
  match l with
  | [] => inr []
  | r :: l' =>
      match holds q r with
      | inl e => inl e
      | inr false => select q l'
      | inr true =>
          if scans r then
            match select q l' with
            | inl e => inl e
            | inr rs => inr (r :: rs)
            end
          else inl ErrScan
      end
  end.

(** [q.Find(&students)]: every row that satisfies all conditions, and,
    because the model has a [gorm.DeletedAt] field, is not soft-deleted. *)
Definition Find (db : DB) (q : query) : error + list Student :=
  select (q ++ [sql live])%list (rows db).

(** [db.First(&student, id)]: the live row with this primary key, or
    [ErrRecordNotFound]. *)
Definition First (db : DB) (id : N) : error + Student :=
  match find (fun r => (ID r =? id)%N && live r) (rows db) with
  | Some r => if scans r then inr r else inl ErrScan
  | None => inl ErrRecordNotFound
  end.

(** *** Constraints of the table *)

Definition id_taken (l : list Student) (id : N) : bool :=
  existsb (fun r => (ID r =? id)%N) l.

(** The unique index on [email] covers every row of the table, the
    soft-deleted ones as well. *)
Definition email_taken (l : list Student) (e : string) : bool :=
  existsb (fun r => String.eqb (Email r) e) l.

Fixpoint unique_ids (l : list Student) : bool :=
  match l with
  | [] => true
  | r :: l' => negb (id_taken l' (ID r)) && unique_ids l'
  end.

Fixpoint unique_emails (l : list Student) : bool :=
  match l with
  | [] => true
  | r :: l' => negb (email_taken l' (Email r)) && unique_emails l'
  end.

(** *** Writes *)

Definition setID (id : N) (s : Student) : Student :=
  mkStudent id (Name s) (Age s) (Gender s) (Email s) (Phone s) (Major s)
    (Grade s) (CreatedAt s) (UpdatedAt s) (DeletedAt s).

Definition setDeletedAt (d : option Time) (s : Student) : Student :=
  mkStudent (ID s) (Name s) (Age s) (Gender s) (Email s) (Phone s) (Major s)
    (Grade s) (CreatedAt s) (UpdatedAt s) d.

(** [CreatedAt] and [UpdatedAt] are filled with the current time only
    where the struct holds the zero time. *)
Definition stamp (now : Time) (s : Student) : Student :=
  mkStudent (ID s) (Name s) (Age s) (Gender s) (Email s) (Phone s) (Major s)
    (Grade s)
    (if (CreatedAt s =? 0)%N then now else CreatedAt s)
    (if (UpdatedAt s =? 0)%N then now else UpdatedAt s)
    (DeletedAt s).

(** [db.Create(&student)]: one INSERT in a transaction.  A zero [ID] is
    left to AUTOINCREMENT, one more than the largest rowid the table has
    had; a non-zero [ID] is inserted as given.  The primary key and the
    unique index on [email] refuse a duplicate.  The key is then read back
    into the struct, which fails for a key that wrapped to a negative
    rowid.  A failed Create is rolled back and leaves the table as it was;
    on success the struct carries the stored row. *)
Definition Create (db : DB) (now : Time) (s : Student)
  : (error + Student) * DB :=
  let s1 := stamp now s in
  if (ID s =? 0)%N then
    let top := N.max (seq db) (maxID (rows db)) in
    if (maxRowid <=? top)%N then (inl ErrDatabaseFull, db)
    else if email_taken (rows db) (Email s)
    then (inl (ErrUniqueConstraint "students.email"), db)
    else
      let s2 := setID (top + 1)%N s1 in
      (inr s2, mkDB (insert_row s2 (rows db)) (top + 1)%N)
  else
    if id_taken (rows db) (ID s)
    then (inl (ErrUniqueConstraint "students.id"), db)
    else if email_taken (rows db) (Email s)
    then (inl (ErrUniqueConstraint "students.email"), db)
    else if (rowid (ID s) <? 0)%Z then (inl ErrScan, db)
    else (inr s1, mkDB (insert_row s1 (rows db)) (N.max (seq db) (ID s))).

(** The assignments of [Updates(u)] with a struct: every non-zero field
    of [u], and [updated_at] always. *)
Definition assign (now : Time) (u r : Student) : Student :=
  mkStudent
    (if (ID u =? 0)%N then ID r else ID u)
    (if String.eqb (Name u) "" then Name r else Name u)
    (if (Age u =? 0)%Z then Age r else Age u)
    (if String.eqb (Gender u) "" then Gender r else Gender u)
    (if String.eqb (Email u) "" then Email r else Email u)
    (if String.eqb (Phone u) "" then Phone r else Phone u)
    (if String.eqb (Major u) "" then Major r else Major u)
    (if String.eqb (Grade u) "" then Grade r else Grade u)
    (if (CreatedAt u =? 0)%N then CreatedAt r else CreatedAt u)
    now
    (match DeletedAt u with Some t => Some t | None => DeletedAt r end).

(** The rows a write through the model [student] reaches:
    [WHERE id = student.ID AND deleted_at IS NULL]. *)
Definition target (student : Student) : Student -> bool :=
  fun r => (ID r =? ID student)%N && live r.

(** [db.Model(&student).Updates(u)]: one UPDATE of the live row with the
    model's primary key (no row: no error).  The new key and the new email
    must not be those of another row.  A row whose key stays is changed in
    place; a row whose key changes moves to the place of its new rowid,
    which for an [ID] of [2^63] or more is negative.  A refused UPDATE
    leaves the table as it was.  The assignments are also applied to the
    model struct. *)
Definition Updates (db : DB) (now : Time) (student u : Student)
  : (error + Student) * DB :=
  if (ID student =? 0)%N then (inl ErrMissingWhereClause, db)
  else
    match find (target student) (rows db) with
    | None => (inr (assign now u student), db)
    | Some r =>
        let r' := assign now u r in
        let others := filter (fun q => negb (target student q)) (rows db) in
        if id_taken others (ID r')
        then (inl (ErrUniqueConstraint "students.id"), db)
        else if email_taken others (Email r')
        then (inl (ErrUniqueConstraint "students.email"), db)
        else
          (inr (assign now u student),
           mkDB (if (ID r' =? ID r)%N
                 then map (fun q => if target student q then assign now u q else q)
                        (rows db)
                 else insert_row r' others)
                (seq db))
    end.

(** [db.Delete(&student)] on a model with [gorm.DeletedAt]:
    [UPDATE students SET deleted_at = now WHERE id = ? AND deleted_at IS NULL]. *)
Definition Delete (db : DB) (now : Time) (student : Student)
  : (error + unit) * DB :=
  if (ID student =? 0)%N then (inl ErrMissingWhereClause, db)
  else
    (inr tt,
     mkDB (map (fun r => if target student r then setDeletedAt (Some now) r else r)
             (rows db))
          (seq db)).

(** ** controllers/student_controller.go *)

Definition StatusOK : nat := 200.
Definition StatusCreated : nat := 201.
Definition StatusBadRequest : nat := 400.
Definition StatusNotFound : nat := 404.
Definition StatusInternalServerError : nat := 500.

(** The values a handler puts into [gin.H]. *)
Inductive value :=
| VString (s : string)
| VError (e : error)              (* [err.Error()], kept as the error *)
| VInt (n : nat)
| VStudent (s : Student)          (* serialised without [deleted_at] *)
| VStudents (l : list Student).

Definition H := list (string * value).

(** [c.JSON(code, obj)] *)
Record Response := JSON { code : nat; obj : H }.

Section Controllers.

Variable isEmail : string -> bool.

(** GetAllStudents *)
Definition GetAllStudents (db : DB) : Response :=
  match Find db (Where [] (sql live)) with
  | inl e =>
      JSON StatusInternalServerError
        [("error", VString "Failed to fetch students"); ("message", VError e)]
  | inr students =>
      JSON StatusOK
        [("data", VStudents students); ("count", VInt (List.length students))]
  end.

(** GetStudentByID; [param] is [c.Param("id")]. *)
Definition GetStudentByID (db : DB) (param : string) : Response :=
  match ParseUint param with
  | None => JSON StatusBadRequest [("error", VString "Invalid student ID")]
  | Some id =>
      match First db id with
      | inl _ => JSON StatusNotFound [("error", VString "Student not found")]
      | inr student => JSON StatusOK [("data", VStudent student)]
      end
  end.

(** CreateStudent *)
Definition CreateStudent (db : DB) (now : Time) (body : option JSONBody)
  : Response * DB :=
  match ShouldBindJSON isEmail body with
  | inl err =>
      (JSON StatusBadRequest
         [("error", VString "Invalid input data"); ("message", VError err)],
       db)
  | inr student =>
      match Create db now student with
      | (inl e, db') =>
          (JSON StatusInternalServerError
             [("error", VString "Failed to create student");
              ("message", VError e)],
           db')
      | (inr student', db') =>
          (JSON StatusCreated
             [("message", VString "Student created successfully");
              ("data", VStudent student')],
           db')
      end
  end.

(** UpdateStudent *)
Definition UpdateStudent (db : DB) (now : Time) (param : string)
  (body : option JSONBody) : Response * DB :=
  match ParseUint param with
  | None => (JSON StatusBadRequest [("error", VString "Invalid student ID")], db)
  | Some id =>
      (* 检查学生是否存在 *)
      match First db id with
      | inl _ =>
          (JSON StatusNotFound [("error", VString "Student not found")], db)
      | inr student =>
          (* 绑定更新数据 *)
          match ShouldBindJSON isEmail body with
          | inl err =>
              (JSON StatusBadRequest
                 [("error", VString "Invalid input data");
                  ("message", VError err)],
               db)
          | inr updateData =>
              (* 更新学生信息 *)
              match Updates db now student updateData with
              | (inl e, db') =>
                  (JSON StatusInternalServerError
                     [("error", VString "Failed to update student");
                      ("message", VError e)],
                   db')
              | (inr student', db') =>
                  (JSON StatusOK
                     [("message", VString "Student updated successfully");
                      ("data", VStudent student')],
                   db')
              end
          end
      end
  end.

(** DeleteStudent *)
Definition DeleteStudent (db : DB) (now : Time) (param : string)
  : Response * DB :=
  match ParseUint param with
  | None => (JSON StatusBadRequest [("error", VString "Invalid student ID")], db)
  | Some id =>
      match First db id with
      | inl _ =>
          (JSON StatusNotFound [("error", VString "Student not found")], db)
      | inr student =>
          match Delete db now student with
          | (inl e, db') =>
              (JSON StatusInternalServerError
                 [("error", VString "Failed to delete student");
                  ("message", VError e)],
               db')
          | (inr _, db') =>
              (JSON StatusOK
                 [("message", VString "Student deleted successfully")],
               db')
          end
      end
  end.

(** SearchStudents; the arguments are [c.Query("name")], [c.Query("major")]
    and [c.Query("grade")], the empty string when the parameter is absent. *)
Definition SearchStudents (db : DB) (name major grade : string) : Response :=
  let query := Where [] (sql live) in
  let query :=
    if negb (String.eqb name "")
    then Where query (fun r => LIKE (Name r) ("%" ++ name ++ "%"))
    else query in
  let query :=
    if negb (String.eqb major "")
    then Where query (fun r => LIKE (Major r) ("%" ++ major ++ "%"))
    else query in
  let query :=
    if negb (String.eqb grade "")
    then Where query (sql (fun r => String.eqb (Grade r) grade))
    else query in
  match Find db query with
  | inl e =>
      JSON StatusInternalServerError
        [("error", VString "Failed to search students"); ("message", VError e)]
  | inr students =>
      JSON StatusOK
        [("data", VStudents students); ("count", VInt (List.length students))]
  end.

End Controllers.

(** ** Reading responses *)

Fixpoint lookup (k : string) (h : H) : option value :=
  match h with
  | [] => None
  | (k', v) :: h' => if String.eqb k k' then Some v else lookup k h'
  end.

(** The students a response carries under ["data"]. *)
Definition data (r : Response) : list Student :=
  match lookup "data" (obj r) with
  | Some (VStudents l) => l
  | Some (VStudent s) => [s]
  | _ => []
  end.

(** ** The spec's notion of a case-insensitive substring *)

(** [f] is a prefix of [t], ASCII letters compared without case. *)
Fixpoint prefix_chars (f t : list N) : bool :=
  match f, t with
  | [], _ => true
  | _ :: _, [] => false
  | c :: f', d :: t' => eq_char c d && prefix_chars f' t'
  end.

(** [t] contains [f]: [f] is a prefix of some suffix of [t]. *)
Fixpoint contains_chars (f t : list N) : bool :=
  prefix_chars f t
  || match t with
     | [] => false
     | _ :: t' => contains_chars f t'
     end.

(** The text [s] contains the text [f], both read as characters. *)
Definition contains_ci (f s : string) : bool :=
  contains_chars (chars f) (chars s).

(** The bytes of a string. *)
Definition bytes (s : string) : list N := map byte (list_ascii_of_string s).

(** No LIKE wildcard occurs in the string. *)
Fixpoint wildcard_free (s : string) : bool :=
  match s with
  | EmptyString => true
  | String c s' =>
      negb (Ascii.eqb c "%") && negb (Ascii.eqb c "_") && wildcard_free s'
  end.

(** No NUL byte occurs in the string. *)
Fixpoint nul_free (s : string) : bool :=
  match s with
  | EmptyString => true
  | String c s' => negb (byte c =? 0)%N && nul_free s'
  end.

(** Only bytes from 1 to 127 occur in the string. *)
Fixpoint ascii_text (s : string) : bool :=
  match s with
  | EmptyString => true
  | String c s' => negb (byte c =? 0)%N && (byte c <? 128)%N && ascii_text s'
  end.

(** The pattern [%value%] built from a filter value is within the limit
    of LIKE. *)
Definition short (value : string) : bool :=
  (N.of_nat (String.length ("%" ++ value ++ "%")) <=? likeLimit)%N.

(** Every live row of the table can be read back into the struct. *)
Definition readable (db : DB) : bool :=
  forallb (fun r => implb (live r) (scans r)) (rows db).

(** The conditions [SearchStudents] chains for its three parameters. *)
Definition search_query (name major grade : string) : query :=
  let query := Where [] (sql live) in
  let query :=
    if negb (String.eqb name "")
    then Where query (fun r => LIKE (Name r) ("%" ++ name ++ "%"))
    else query in
  let query :=
    if negb (String.eqb major "")
    then Where query (fun r => LIKE (Major r) ("%" ++ major ++ "%"))
    else query in
  if negb (String.eqb grade "")
  then Where query (sql (fun r => String.eqb (Grade r) grade))
  else query.

(** The predicate the spec gives for a search result. *)
Definition matches (name major grade : string) (r : Student) : bool :=
  live r && contains_ci name (Name r) && contains_ci major (Major r)
  && (String.eqb grade "" || String.eqb (Grade r) grade).

(** What [SearchStudents] keeps of the list. *)
Definition keeps (name major grade : string) (r : Student) : bool :=
  (String.eqb name "" || like ("%" ++ name ++ "%") (Name r))
  && (String.eqb major "" || like ("%" ++ major ++ "%") (Major r))
  && (String.eqb grade "" || String.eqb (Grade r) grade).

(** ** Invariant of the table *)

(** The rowids increase strictly along the rows. *)
Fixpoint sorted_rows (l : list Student) : bool :=
  match l with
  | [] => true
  | r :: l' =>
      forallb (fun q => (rowid (ID r) <? rowid (ID q))%Z) l' && sorted_rows l'
  end.

(** Every [ID] is a [uint] of 64 bits. *)
Definition uint_ids (l : list Student) : bool :=
  forallb (fun r => (ID r <? 2 ^ 64)%N) l.

Definition nonzero_ids (l : list Student) : bool :=
  forallb (fun r => negb (ID r =? 0)%N) l.

(** What SQLite and AUTOINCREMENT guarantee of the [students] table: the
    primary key is unique and never [0], the indexed [email] is unique. *)
Definition consistent (db : DB) : bool :=
  unique_ids (rows db) && unique_emails (rows db) && nonzero_ids (rows db).

(** The tables the service can hold: the fresh one, and whatever a
    writing handler leaves behind. *)
Inductive reachable (isEmail : string -> bool) : DB -> Prop :=
| reach_init : reachable isEmail InitDatabase
| reach_create db now body :
    reachable isEmail db ->
    reachable isEmail (snd (CreateStudent isEmail db now body))
| reach_update db now param body :
    reachable isEmail db ->
    reachable isEmail (snd (UpdateStudent isEmail db now param body))
| reach_delete db now param :
    reachable isEmail db ->
    reachable isEmail (snd (DeleteStudent db now param)).

(** ** Requests that differ in chosen members *)

Definition withAge (a : option Z) (b : JSONBody) : JSONBody :=
  mkBody (j_id b) (j_name b) a (j_gender b) (j_email b) (j_phone b)
    (j_major b) (j_grade b) (j_created_at b) (j_updated_at b).

Definition withName (n : option string) (b : JSONBody) : JSONBody :=
  mkBody (j_id b) n (j_age b) (j_gender b) (j_email b) (j_phone b)
    (j_major b) (j_grade b) (j_created_at b) (j_updated_at b).

Definition withSystem (id created updated : option N) (b : JSONBody) : JSONBody :=
  mkBody id (j_name b) (j_age b) (j_gender b) (j_email b) (j_phone b)
    (j_major b) (j_grade b) created updated.

(** Two bodies agree on the seven business members. *)
Definition same_business (b1 b2 : JSONBody) : Prop :=
  j_name b1 = j_name b2 /\ j_age b1 = j_age b2 /\ j_gender b1 = j_gender b2
  /\ j_email b1 = j_email b2 /\ j_phone b1 = j_phone b2
  /\ j_major b1 = j_major b2 /\ j_grade b1 = j_grade b2.

(** The body leaves [id], [created_at] and [updated_at] absent or zero. *)
Definition no_system_fields (b : JSONBody) : Prop :=
  opt 0%N (j_id b) = 0%N /\ opt 0%N (j_created_at b) = 0%N
  /\ opt 0%N (j_updated_at b) = 0%N.

(** The errors that come from the store rather than from binding. *)
Definition store_error (e : error) : Prop :=
  match e with
  | ErrUniqueConstraint _ | ErrScan | ErrDatabaseFull => True
  | _ => False
  end.

(** ** Sample requests and tables *)

(** A stand-in for the validator's [email] predicate. *)
Definition hasAt (s : string) : bool :=
  existsb (Ascii.eqb "@") (list_ascii_of_string s).

Definition zhangSan : JSONBody :=
  mkBody None (Some "Zhang San") (Some 20%Z) (Some "男")
    (Some "zs@example.com") (Some "13800000000") (Some "CS") (Some "2023")
    None None.

Definition zhangSanRow : Student :=
  mkStudent 1 "Zhang San" 20 "男" "zs@example.com" "13800000000" "CS" "2023"
    100%N 100%N None.

(** The struct [ShouldBindJSON] fills from [zhangSan]. *)
Definition zhangSanBound : Student :=
  mkStudent 0 "Zhang San" 20 "男" "zs@example.com" "13800000000" "CS" "2023"
    0%N 0%N None.

(** The table after [zhangSan] was created at time [100]. *)
Definition oneStudent : DB := mkDB [zhangSanRow] 1%N.

(** The same table after [DELETE /students/1] at time [300]. *)
Definition oneDeleted : DB :=
  mkDB [setDeletedAt (Some 300%N) zhangSanRow] 1%N.

(** Three records, the last one soft-deleted. *)
Definition alice : Student :=
  mkStudent 1 "Alice" 20 "女" "alice@example.com" "13800000001" "Biology"
    "2023" 100%N 100%N None.

Definition carl : Student :=
  mkStudent 2 "Carl" 22 "男" "carl@example.com" "13800000002" "Chemistry"
    "2022" 110%N 110%N None.

Definition anna : Student :=
  mkStudent 3 "anna" 21 "女" "anna@example.com" "13800000003" "biochemistry"
    "2023" 120%N 120%N (Some 130%N).

Definition dana : Student :=
  mkStudent 4 "DANA" 23 "女" "dana@example.com" "13800000004" "Robotics"
    "2021" 140%N 140%N None.

Definition fourStudents : DB := mkDB [alice; carl; anna; dana] 4%N.

(** [{"age": 21}] *)
Definition ageOnly21 : JSONBody := withAge (Some 21%Z) emptyBody.

Fixpoint replicate (n : nat) (c : ascii) : string :=
  match n with
  | O => EmptyString
  | S n' => String c (replicate n' c)
  end.

(** A name of 101 ASCII letters: 101 bytes and 101 code points. *)
Definition longName : string := replicate 101 "a".

(** ** routes/routes.go and main.go *)

(** What the handlers read of [*gin.Context]. *)
Record Request := mkRequest {
  Method : string;              (* c.Request.Method *)
  Path : string;                (* c.Request.URL.Path *)
  Query : string -> string;     (* c.Query(key), "" when absent *)
  ReqBody : option JSONBody     (* the body, as ShouldBindJSON sees it *)
}.

(** The handlers [SetupRoutes] registers, with the value of [:id] or
    [*filepath] where the route has one. *)
Inductive handler :=
| hGetAllStudents
| hSearchStudents
| hGetStudentByID (id : string)
| hCreateStudent
| hUpdateStudent (id : string)
| hDeleteStudent (id : string)
| hStatic (filepath : string)
| hIndex
| hStudents.

Fixpoint strip_prefix (p s : string) : option string :=
  match p with
  | EmptyString => Some s
  | String c p' =>
      match s with
      | EmptyString => None
      | String d s' => if Ascii.eqb c d then strip_prefix p' s' else None
      end
  end.

Fixpoint has_slash (s : string) : bool :=
  match s with
  | EmptyString => false
  | String c s' => Ascii.eqb c "/" || has_slash s'
  end.

(** A value for [:id]: one non-empty path segment. *)
Definition segment (s : string) : bool :=
  negb (String.eqb s "") && negb (has_slash s).

(** [SetupRoutes]: the handler the router selects for a method and a path,
    [None] when no registered route matches (Gin then answers by itself,
    with a redirect or 404).  Under [/api/v1/students/] the static route
    [search] is tried before the parameter [:id]. *)
Definition SetupRoutes (method path : string) : option handler :=
  if String.eqb path "/api/v1/students" then
    if String.eqb method "GET" then Some hGetAllStudents
    else if String.eqb method "POST" then Some hCreateStudent
    else None
  else
    match strip_prefix "/api/v1/students/" path with
    | Some seg =>
        if segment seg then
          if String.eqb method "GET" then
            if String.eqb seg "search" then Some hSearchStudents
            else Some (hGetStudentByID seg)
          else if String.eqb method "PUT" then Some (hUpdateStudent seg)
          else if String.eqb method "DELETE" then Some (hDeleteStudent seg)
          else None
        else None
    | None =>
        match strip_prefix "/static" path with
        | Some (String "/" rest) =>
            if String.eqb method "GET" || String.eqb method "HEAD"
            then Some (hStatic (String "/" rest))
            else None
        | _ =>
            if String.eqb method "GET" then
              if String.eqb path "/" then Some hIndex
              else if String.eqb path "/students" then Some hStudents
              else None
            else None
        end
    end.

(** What a handler writes to the connection. *)
Inductive answer :=
| aJSON (r : Response)                          (* c.JSON *)
| aHTML (code : nat) (name : string) (h : H)    (* c.HTML *)
| aStatus (code : nat)                          (* c.AbortWithStatus *)
| aFile (filepath : string).                    (* the file server of ./views/static *)

Record Served := mkServed {
  Header : list (string * string);
  Answer : answer
}.

(** The headers the CORS middleware of [main] sets. *)
Definition corsHeaders : list (string * string) :=
  [("Access-Control-Allow-Origin", "*");
   ("Access-Control-Allow-Methods", "GET, POST, PUT, DELETE, OPTIONS");
   ("Access-Control-Allow-Headers", "Content-Type, Authorization")].

Section Serve.

Variable isEmail : string -> bool.

(** The handler chain of a registered route, run on the store. *)
Definition run (h : handler) (db : DB) (now : Time) (req : Request)
  : answer * DB :=
  match h with
  | hGetAllStudents => (aJSON (GetAllStudents db), db)
  | hSearchStudents =>
      (aJSON (SearchStudents db (Query req "name") (Query req "major")
                (Query req "grade")), db)
  | hGetStudentByID id => (aJSON (GetStudentByID db id), db)
  | hCreateStudent =>
      let (r, db') := CreateStudent isEmail db now (ReqBody req) in (aJSON r, db')
  | hUpdateStudent id =>
      let (r, db') := UpdateStudent isEmail db now id (ReqBody req) in
      (aJSON r, db')
  | hDeleteStudent id =>
      let (r, db') := DeleteStudent db now id in (aJSON r, db')
  | hStatic filepath => (aFile filepath, db)
  | hIndex =>
      (aHTML 200 "index.html" [("title", VString "学生管理系统")], db)
  | hStudents =>
      (aHTML 200 "students.html" [("title", VString "学生管理")], db)
  end.

(** One request through the router of [main]: the CORS middleware sets its
    headers, answers an OPTIONS request with 204 and stops, and otherwise
    passes on to the handler of the route.  The result is [None] where no
    registered route matches and the method is not OPTIONS. *)
Definition serve (db : DB) (now : Time) (req : Request)
  : option Served * DB :=
  if String.eqb (Method req) "OPTIONS" then
    (Some (mkServed corsHeaders (aStatus 204)), db)
  else
    match SetupRoutes (Method req) (Path req) with
    | Some h =>
        let (a, db') := run h db now req in
        (Some (mkServed corsHeaders a), db')
    | None => (None, db)
    end.

End Serve.

(** ** Shapes of ids and bodies *)

Fixpoint all_digits (s : string) : bool :=
  match s with
  | EmptyString => true
  | String c s' =>
      match digit c with Some _ => all_digits s' | None => false end
  end.

(** The seven business fields of two structs agree. *)
Definition same_fields (a b : Student) : Prop :=
  Name a = Name b /\ Age a = Age b /\ Gender a = Gender b
  /\ Email a = Email b /\ Phone a = Phone b /\ Major a = Major b
  /\ Grade a = Grade b.

(** The position of a struct field in the declaration of [Student]. *)
Definition field_index (f : string) : nat :=
  if String.eqb f "Name" then 0
  else if String.eqb f "Age" then 1
  else if String.eqb f "Gender" then 2
  else if String.eqb f "Email" then 3
  else if String.eqb f "Phone" then 4
  else if String.eqb f "Major" then 5
  else if String.eqb f "Grade" then 6
  else 7.

Definition field_indices (l : list FieldError) : list nat :=
  map (fun e => field_index (Field e)) l.

(** The string consists of [%] signs only. *)
Fixpoint all_percent (s : string) : bool :=
  match s with
  | EmptyString => true
  | String c s' => Ascii.eqb c "%" && all_percent s'
  end.

(** Every row passes the [binding] checks of the model. *)
Definition valid_rows (isEmail : string -> bool) (db : DB) : Prop :=
  Forall (fun r => validate isEmail r = []) (rows db).

(** More sample requests. *)
Definition liSi : JSONBody :=
  mkBody None (Some "Li Si") (Some 22%Z) (Some "女")
    (Some "ls@example.com") (Some "13900000000") (Some "Math") (Some "2022")
    None None.

Definition liSiBound : Student :=
  mkStudent 0 "Li Si" 22 "女" "ls@example.com" "13900000000" "Math" "2022"
    0%N 0%N None.

Definition liSiRow : Student :=
  mkStudent 2 "Li Si" 22 "女" "ls@example.com" "13900000000" "Math" "2022"
    200%N 200%N None.

(** [oneStudent] after [liSi] was created at time [200]. *)
Definition twoStudents : DB := mkDB [zhangSanRow; liSiRow] 2%N.

(** [zhangSan] one year older, the body of an edit that keeps the email. *)
Definition zhangSan21 : JSONBody := withAge (Some 21%Z) zhangSan.


(** A student created with the id [2^32] in the body. *)
Definition wangWu : JSONBody :=
  mkBody (Some 4294967296%N) (Some "Wang Wu") (Some 23%Z) (Some "男")
    (Some "ww@example.com") (Some "13700000000") (Some "Physics")
    (Some "2021") None None.

Definition wangWuRow : Student :=
  mkStudent 4294967296 "Wang Wu" 23 "男" "ww@example.com" "13700000000"
    "Physics" "2021" 100%N 100%N None.

Definition bigStudent : DB := mkDB [wangWuRow] 4294967296%N.

(** A student whose stored name has a NUL byte between [a] and [b]. *)
Definition nulRow : Student :=
  mkStudent 1 (String "a" (String "000" "b")) 20 "男" "nul@example.com"
    "13600000000" "CS" "2023" 100%N 100%N None.

Definition nulStudent : DB := mkDB [nulRow] 1%N.

(** A live row whose key was set to [2^63] by an update: it is stored
    under the rowid [-2^63]. *)
Definition wrappedRow : Student :=
  mkStudent 9223372036854775808 "Zhang San" 20 "男" "zs@example.com"
    "13800000000" "CS" "2023" 100%N 300%N None.

Definition wrappedStudent : DB := mkDB [wrappedRow] 1%N.

Definition getRequest (path : string) : Request :=
  mkRequest "GET" path (fun _ => "") None.

(** * Properties *)

(** ** Binding *)

Lemma ShouldBindJSON_inr isEmail b s :
  ShouldBindJSON isEmail (Some b) = inr s ->
  unmarshal b = inr s /\ validate isEmail s = [].
Proof.
  unfold ShouldBindJSON.
  destruct (unmarshal b) as [e | s0]; [discriminate |].
  destruct (validate isEmail s0) eqn:V; [| discriminate].
  intros E; inversion E; subst; auto.
Qed.

Lemma ShouldBindJSON_invalid isEmail b s :
  unmarshal b = inr s -> validate isEmail s <> [] ->
  ShouldBindJSON isEmail (Some b) = inl (ErrValidation (validate isEmail s)).
Proof.
  intros U V. unfold ShouldBindJSON. rewrite U.
  destruct (validate isEmail s); [contradiction | reflexivity].
Qed.


Lemma check_Age_range s : check_Age s = [] <-> (1 <= Age s <= 150)%Z.
Proof.
  unfold check_Age.
  destruct (Z.eqb_spec (Age s) 0); [split; [discriminate | lia] |].
  destruct (Z.ltb_spec (Age s) 1); [split; [discriminate | lia] |].
  destruct (Z.ltb_spec 150 (Age s)); [split; [discriminate | lia] |].
  split; [lia | reflexivity].
Qed.

Lemma bind_failure_response isEmail db now body err :
  ShouldBindJSON isEmail body = inl err ->
  CreateStudent isEmail db now body
  = (JSON StatusBadRequest
       [("error", VString "Invalid input data"); ("message", VError err)], db).
Proof. intros E. unfold CreateStudent. rewrite E. reflexivity. Qed.

Lemma required_string_nil field v : required_string field v = [] <-> v <> "".
Proof.
  unfold required_string. destruct (String.eqb_spec v "").
  - split; [discriminate | contradiction].
  - split; auto.
Qed.

Lemma check_Gender_nil s :
  check_Gender s = [] <-> Gender s = "男" \/ Gender s = "女".
Proof.
  unfold check_Gender.
  destruct (String.eqb_spec (Gender s) "") as [E | NE].
  - split; [discriminate |]. rewrite E. intros [H | H]; discriminate.
  - destruct (String.eqb_spec (Gender s) "男"); simpl; [tauto |].
    destruct (String.eqb_spec (Gender s) "女"); simpl; [tauto |].
    split; [discriminate | tauto].
Qed.

Lemma check_Email_nil isEmail s :
  check_Email isEmail s = [] <-> Email s <> "" /\ isEmail (Email s) = true.
Proof.
  unfold check_Email.
  destruct (String.eqb_spec (Email s) "") as [E | NE].
  - split; [discriminate | tauto].
  - destruct (isEmail (Email s)); split; auto; try discriminate.
    intros [_ H]; discriminate.
Qed.

Lemma validate_nil isEmail s :
  validate isEmail s = [] <->
  Name s <> "" /\ (1 <= Age s <= 150)%Z
  /\ (Gender s = "男" \/ Gender s = "女")
  /\ (Email s <> "" /\ isEmail (Email s) = true)
  /\ Phone s <> "" /\ Major s <> "" /\ Grade s <> "".
Proof.
  unfold validate, check_Name, check_Phone, check_Major, check_Grade.
  split.
  - intros V.
    apply app_eq_nil in V as [V1 V]. apply app_eq_nil in V as [V2 V].
    apply app_eq_nil in V as [V3 V]. apply app_eq_nil in V as [V4 V].
    apply app_eq_nil in V as [V5 V]. apply app_eq_nil in V as [V6 V7].
    apply required_string_nil in V1, V5, V6, V7.
    apply check_Age_range in V2. apply check_Gender_nil in V3.
    apply check_Email_nil in V4. tauto.
  - intros (V1 & V2 & V3 & V4 & V5 & V6 & V7).
    apply (required_string_nil "Name") in V1.
    apply (required_string_nil "Phone") in V5.
    apply (required_string_nil "Major") in V6.
    apply (required_string_nil "Grade") in V7.
    apply check_Age_range in V2. apply check_Gender_nil in V3.
    apply (check_Email_nil isEmail) in V4.
    rewrite V1, V2, V3, V4, V5, V6, V7. reflexivity.
Qed.
(** ** Keys *)

Lemma rowid_small id : (id <= maxRowid)%N -> rowid id = Z.of_N id.
Proof.
  unfold rowid, maxRowid. intros L.
  rewrite Z.mod_small; lia.
Qed.

Lemma rowid_wrapped id :
  (maxRowid < id)%N -> (id < 2 ^ 64)%N -> (rowid id < 0)%Z.
Proof.
  unfold rowid, maxRowid. intros L U.
  replace (Z.of_N id + 2 ^ 63)%Z with ((Z.of_N id - 2 ^ 63) + 1 * 2 ^ 64)%Z by lia.
  rewrite Z.mod_add by lia. rewrite Z.mod_small; lia.
Qed.

Lemma rowid_inj a b :
  (a < 2 ^ 64)%N -> (b < 2 ^ 64)%N -> rowid a = rowid b -> a = b.
Proof.
  intros A B E.
  destruct (N.leb_spec a maxRowid) as [La | La];
    destruct (N.leb_spec b maxRowid) as [Lb | Lb].
  - rewrite !rowid_small in E by assumption. lia.
  - pose proof (rowid_wrapped b Lb B). rewrite rowid_small in E by assumption. lia.
  - pose proof (rowid_wrapped a La A). rewrite (rowid_small b) in E by assumption. lia.
  - unfold rowid, maxRowid in *.
    replace (Z.of_N a + 2 ^ 63)%Z with ((Z.of_N a - 2 ^ 63) + 1 * 2 ^ 64)%Z in E by lia.
    replace (Z.of_N b + 2 ^ 63)%Z with ((Z.of_N b - 2 ^ 63) + 1 * 2 ^ 64)%Z in E by lia.
    rewrite !Z.mod_add in E by lia. rewrite !Z.mod_small in E by lia. lia.
Qed.

Lemma scans_small r : (ID r <= maxRowid)%N -> scans r = true.
Proof.
  intros L. unfold scans. rewrite (rowid_small _ L). apply Z.leb_le. lia.
Qed.

Lemma ParseUint_lt param id : ParseUint param = Some id -> (id < 2 ^ 32)%N.
Proof.
  unfold ParseUint. destruct param as [| c s]; [discriminate |].
  destruct (digits (String c s) 0%N) as [n |]; [| discriminate].
  destruct (N.ltb_spec n (2 ^ 32)); [| discriminate].
  intros E; inversion E; subst. assumption.
Qed.

Lemma small_id_fits id : (id < 2 ^ 32)%N -> (id <= maxRowid)%N.
Proof. unfold maxRowid. intros L. simpl in *. lia. Qed.

(** ** Reads *)

Lemma First_inr db id r :
  First db id = inr r -> In r (rows db) /\ ID r = id /\ live r = true.
Proof.
  unfold First. destruct (find _ _) as [r0 |] eqn:F; [| discriminate].
  destruct (scans r0); [| discriminate].
  intros E; inversion E; subst r0.
  apply find_some in F as [I C].
  apply andb_true_iff in C as [C1 C2].
  apply N.eqb_eq in C1. auto.
Qed.

Lemma First_none db id :
  (forall r, In r (rows db) -> ID r = id -> live r = false) ->
  First db id = inl ErrRecordNotFound.
Proof.
  intros Hno. unfold First.
  destruct (find _ _) as [r0 |] eqn:F; [| reflexivity].
  apply find_some in F as [I C].
  apply andb_true_iff in C as [C1 C2]. apply N.eqb_eq in C1.
  rewrite (Hno r0 I C1) in C2. discriminate.
Qed.

Lemma First_some db id r :
  In r (rows db) -> ID r = id -> live r = true -> (id <= maxRowid)%N ->
  exists student, First db id = inr student.
Proof.
  intros I E L S. unfold First.
  destruct (find _ _) as [r0 |] eqn:F.
  - apply find_some in F as [_ C]. apply andb_true_iff in C as [C _].
    apply N.eqb_eq in C. rewrite scans_small; [eauto |]. rewrite C. exact S.
  - apply (find_none _ _ F) in I. rewrite E, N.eqb_refl, L in I. discriminate.
Qed.

Lemma holds_app (q : query) (c : cond) r :
  holds (q ++ [c])%list r
  = match holds q r with
    | inl e => inl e
    | inr true => match c r with inl e => inl e | inr b => inr b end
    | inr false => inr false
    end.
Proof.
  induction q as [| d q IH]; simpl.
  - destruct (c r) as [e | []]; reflexivity.
  - destruct (d r) as [e | []]; [reflexivity | exact IH | reflexivity].
Qed.

Lemma select_In q l rs r :
  select q l = inr rs -> In r rs -> In r l /\ holds q r = inr true.
Proof.
  revert rs. induction l as [| a l IH]; simpl; intros rs S I.
  - inversion S; subst. destruct I.
  - destruct (holds q a) as [e | []] eqn:Ha; [discriminate | |].
    + destruct (scans a); [| discriminate].
      destruct (select q l) as [e | rs'] eqn:Sl; [discriminate |].
      inversion S; subst. destruct I as [<- | I]; [auto |].
      destruct (IH rs' eq_refl I). auto.
    + destruct (IH rs S I). auto.
Qed.

(** The answer of a selection whose conditions cannot fail. *)
Lemma select_total q p l :
  (forall r, In r l -> holds q r = inr (p r)) ->
  select q l
  = if forallb (fun r => implb (p r) (scans r)) l
    then inr (filter p l) else inl ErrScan.
Proof.
  induction l as [| a l IH]; intros Hq; [reflexivity |].
  simpl. rewrite (Hq a (or_introl eq_refl)).
  assert (Hl : forall r, In r l -> holds q r = inr (p r)).
  { intros r I. apply Hq. right. exact I. }
  rewrite (IH Hl). destruct (p a); simpl.
  - destruct (scans a); simpl; [| reflexivity].
    destruct (forallb _ l); reflexivity.
  - reflexivity.
Qed.

Lemma Find_In db q rs r :
  Find db q = inr rs -> In r rs -> In r (rows db) /\ live r = true.
Proof.
  unfold Find. intros S I. destruct (select_In _ _ _ _ S I) as [A B].
  split; [exact A |]. rewrite holds_app in B.
  destruct (holds q r) as [e | []]; try discriminate.
  unfold sql in B. inversion B. reflexivity.
Qed.

Lemma GetAllStudents_data db :
  data (GetAllStudents db)
  = if readable db then filter live (rows db) else [].
Proof.
  unfold GetAllStudents, Find, readable.
  rewrite (select_total _ live).
  - destruct (forallb _ (rows db)); reflexivity.
  - intros r _. simpl. unfold sql. destruct (live r); reflexivity.
Qed.

Lemma GetAllStudents_readable db :
  readable db = true ->
  GetAllStudents db
  = JSON StatusOK
      [("data", VStudents (filter live (rows db)));
       ("count", VInt (List.length (filter live (rows db))))].
Proof.
  intros R. unfold GetAllStudents, Find.
  rewrite (select_total _ live).
  - unfold readable in R. rewrite R. reflexivity.
  - intros r _. simpl. unfold sql. destruct (live r); reflexivity.
Qed.

Lemma SearchStudents_query db name major grade :
  SearchStudents db name major grade
  = match Find db (search_query name major grade) with
    | inl e =>
        JSON StatusInternalServerError
          [("error", VString "Failed to search students"); ("message", VError e)]
    | inr students =>
        JSON StatusOK
          [("data", VStudents students); ("count", VInt (List.length students))]
    end.
Proof. reflexivity. Qed.

Lemma SearchStudents_live db name major grade r :
  In r (data (SearchStudents db name major grade)) ->
  In r (rows db) /\ live r = true.
Proof.
  rewrite SearchStudents_query.
  destruct (Find db (search_query name major grade)) as [e | rs] eqn:F;
    simpl; [intros [] |].
  exact (Find_In _ _ _ _ F).
Qed.

Lemma GetAllStudents_live db r :
  In r (data (GetAllStudents db)) -> In r (rows db) /\ live r = true.
Proof.
  rewrite GetAllStudents_data. destruct (readable db); [| intros []].
  apply filter_In.
Qed.

(** ** Soft delete *)

Lemma Delete_rows db now student :
  ID student <> 0%N ->
  Delete db now student
  = (inr tt,
     mkDB (map (fun r => if target student r then setDeletedAt (Some now) r else r)
             (rows db)) (seq db)).
Proof.
  intros NZ. unfold Delete.
  destruct (N.eqb_spec (ID student) 0); [contradiction | reflexivity].
Qed.

(** After the UPDATE of a soft delete no live row carries the key. *)
Lemma soft_deleted_not_live now student rs r :
  In r (map (fun r => if target student r then setDeletedAt (Some now) r else r) rs) ->
  ID r = ID student -> live r = false.
Proof.
  intros I E. apply in_map_iff in I as (r0 & <- & _).
  destruct (target student r0) eqn:T; [reflexivity |].
  unfold target in T. rewrite E, N.eqb_refl in T. simpl in T. exact T.
Qed.

(** What a successful [DeleteStudent] has done. *)
Lemma DeleteStudent_ok db now param resp db' :
  DeleteStudent db now param = (resp, db') -> code resp = StatusOK ->
  exists id student,
    ParseUint param = Some id /\ First db id = inr student
    /\ db' = mkDB (map (fun r => if target student r
                                 then setDeletedAt (Some now) r else r)
                     (rows db)) (seq db).
Proof.
  unfold DeleteStudent.
  destruct (ParseUint param) as [id |]; [| intros E; inversion E; subst; discriminate].
  destruct (First db id) as [e | student] eqn:F;
    [intros E; inversion E; subst; discriminate |].
  unfold Delete. destruct (ID student =? 0)%N;
    [intros E; inversion E; subst; discriminate |].
  intros E _. inversion E; subst. eauto.
Qed.

(** C10, as the code has it -- [UpdateStudent] parses the path id, then
    looks the record up, and only then reads the body: when the path id
    parses (a decimal below [2^32]) and names no live row, the answer is
    404 "Student not found" whatever the body is (absent, malformed or
    failing validation), and the store is returned as it was. *)
Theorem update_missing_before_body (isEmail : string -> bool)
  (db : DB) (now : Time) (param : string) (id : N) (body : option JSONBody) :
  ParseUint param = Some id ->
  (forall r, In r (rows db) -> ID r = id -> live r = false) ->
  UpdateStudent isEmail db now param body
  = (JSON StatusNotFound [("error", VString "Student not found")], db).
Proof.
  intros P Hno. unfold UpdateStudent.
  rewrite P, (First_none _ _ Hno). reflexivity.
Qed.

(** C4 -- After a successful [DeleteStudent], [GetStudentByID] on the same
    id answers 404, and no student with that id is in the result of
    [GetAllStudents] or of [SearchStudents] for any filters; the three
    reads never return a row whose [deleted_at] is set. *)
Theorem deleted_invisible_to_reads
  (db : DB) (now : Time) (param : string) (resp : Response) (db' : DB) :
  DeleteStudent db now param = (resp, db') ->
  code resp = StatusOK ->
  GetStudentByID db' param
  = JSON StatusNotFound [("error", VString "Student not found")]
  /\ (exists id,
        ParseUint param = Some id
        /\ (forall r, In r (data (GetAllStudents db')) -> ID r <> id)
        /\ (forall name major grade r,
              In r (data (SearchStudents db' name major grade)) -> ID r <> id))
  /\ (forall d p r, In r (data (GetStudentByID d p)) -> DeletedAt r = None)
  /\ (forall d r, In r (data (GetAllStudents d)) -> DeletedAt r = None)
  /\ (forall d name major grade r,
        In r (data (SearchStudents d name major grade)) -> DeletedAt r = None).
Proof.
  intros D OK.
  destruct (DeleteStudent_ok _ _ _ _ _ D OK) as (id & student & P & F & ->).
  apply First_inr in F as (_ & Eid & _).
  assert (Gone : forall r,
    In r (map (fun r => if target student r then setDeletedAt (Some now) r else r)
            (rows db)) -> live r = true -> ID r <> id).
  { intros r I L E. rewrite <- Eid in E.
    rewrite (soft_deleted_not_live _ _ _ _ I E) in L. discriminate. }
  assert (Live : forall r, live r = true -> DeletedAt r = None).
  { intros r. unfold live. destruct (DeletedAt r); [discriminate | reflexivity]. }
  repeat split.
  - unfold GetStudentByID. rewrite P, First_none; [reflexivity |].
    simpl. intros r I E. destruct (live r) eqn:L; [| reflexivity].
    exfalso. exact (Gone r I L E).
  - exists id. split; [exact P |]. split.
    + intros r I. apply GetAllStudents_live in I as [I L]. exact (Gone r I L).
    + intros name major grade r I.
      apply SearchStudents_live in I as [I L]. exact (Gone r I L).
  - intros d p r. unfold GetStudentByID.
    destruct (ParseUint p) as [i |]; [| intros []].
    destruct (First d i) as [e | s] eqn:F; [intros [] |].
    simpl. intros [<- | []]. apply First_inr in F as (_ & _ & L). auto.
  - intros d r I. apply GetAllStudents_live in I as [_ L]. auto.
  - intros d name major grade r I. apply SearchStudents_live in I as [_ L]. auto.
Qed.

(** ** The writes keep the table's constraints *)

Lemma consistent_nonzero db r :
  consistent db = true -> In r (rows db) -> ID r <> 0%N.
Proof.
  unfold consistent, nonzero_ids. intros C I.
  apply andb_true_iff in C as [_ C].
  rewrite forallb_forall in C. specialize (C r I).
  apply negb_true_iff, N.eqb_neq in C. exact C.
Qed.

(** A live record is soft-deleted by the first [DeleteStudent] and is not
    found by the second. *)
Lemma delete_then_delete db now param id student :
  consistent db = true ->
  ParseUint param = Some id ->
  First db id = inr student ->
  exists db',
    DeleteStudent db now param
    = (JSON StatusOK [("message", VString "Student deleted successfully")], db')
    /\ In (setDeletedAt (Some now) student) (rows db')
    /\ (forall r, In r (rows db') -> ID r = id -> live r = false)
    /\ forall now2,
         DeleteStudent db' now2 param
         = (JSON StatusNotFound [("error", VString "Student not found")], db').
Proof.
  intros C P F.
  pose proof (First_inr _ _ _ F) as (I & Eid & L).
  assert (NZ : ID student <> 0%N) by exact (consistent_nonzero _ _ C I).
  eexists. split; [| split; [| split]].
  - unfold DeleteStudent. rewrite P, F, (Delete_rows _ _ _ NZ). reflexivity.
  - simpl. apply in_map_iff. exists student. split; [| exact I].
    unfold target. rewrite N.eqb_refl, L. reflexivity.
  - simpl. intros r Ir E. rewrite <- Eid in E.
    exact (soft_deleted_not_live _ _ _ _ Ir E).
  - intros now2. unfold DeleteStudent. rewrite P, First_none; [reflexivity |].
    simpl. intros r Ir E. rewrite <- Eid in E.
    exact (soft_deleted_not_live _ _ _ _ Ir E).
Qed.

Lemma id_taken_map f l x :
  (forall r, ID (f r) = ID r) -> id_taken (map f l) x = id_taken l x.
Proof.
  intros Hf. induction l as [| a l IH]; simpl; [reflexivity |].
  rewrite Hf, IH. reflexivity.
Qed.

Lemma email_taken_map f l x :
  (forall r, Email (f r) = Email r) -> email_taken (map f l) x = email_taken l x.
Proof.
  intros Hf. induction l as [| a l IH]; simpl; [reflexivity |].
  rewrite Hf, IH. reflexivity.
Qed.

Lemma unique_ids_map f l :
  (forall r, ID (f r) = ID r) -> unique_ids (map f l) = unique_ids l.
Proof.
  intros Hf. induction l as [| a l IH]; simpl; [reflexivity |].
  rewrite (id_taken_map _ _ _ Hf), Hf, IH. reflexivity.
Qed.

Lemma unique_emails_map f l :
  (forall r, Email (f r) = Email r) -> unique_emails (map f l) = unique_emails l.
Proof.
  intros Hf. induction l as [| a l IH]; simpl; [reflexivity |].
  rewrite (email_taken_map _ _ _ Hf), Hf, IH. reflexivity.
Qed.

Lemma nonzero_ids_map f l :
  (forall r, ID r <> 0%N -> ID (f r) <> 0%N) ->
  nonzero_ids l = true -> nonzero_ids (map f l) = true.
Proof.
  intros Hf. unfold nonzero_ids. rewrite !forallb_forall.
  intros Hl r I. apply in_map_iff in I as (r0 & <- & I).
  specialize (Hl r0 I). apply negb_true_iff, N.eqb_neq in Hl.
  apply negb_true_iff, N.eqb_neq. auto.
Qed.

Lemma consistent_parts db :
  consistent db = true <->
  unique_ids (rows db) = true /\ unique_emails (rows db) = true
  /\ nonzero_ids (rows db) = true.
Proof.
  unfold consistent. rewrite !andb_true_iff. tauto.
Qed.

Lemma email_taken_In l e :
  email_taken l e = true <-> exists r, In r l /\ Email r = e.
Proof.
  unfold email_taken. rewrite existsb_exists.
  split; intros (r & I & E); exists r; split; auto; apply String.eqb_eq; auto.
Qed.

Lemma email_taken_map_In l e : email_taken l e = true <-> In e (map Email l).
Proof.
  rewrite email_taken_In, in_map_iff. split; intros (r & A & B); exists r; auto.
Qed.

Lemma id_taken_map_In l i : id_taken l i = true <-> In i (map ID l).
Proof.
  unfold id_taken. rewrite existsb_exists, in_map_iff.
  split; intros (r & A & B); exists r.
  - apply N.eqb_eq in B. auto.
  - split; [tauto | apply N.eqb_eq; tauto].
Qed.

Lemma unique_emails_NoDup l : unique_emails l = true <-> NoDup (map Email l).
Proof.
  induction l as [| a l IH]; simpl.
  - split; [constructor | reflexivity].
  - rewrite andb_true_iff, negb_true_iff, NoDup_cons_iff, IH,
      <- email_taken_map_In.
    destruct (email_taken l (Email a)); intuition congruence.
Qed.

Lemma unique_ids_NoDup l : unique_ids l = true <-> NoDup (map ID l).
Proof.
  induction l as [| a l IH]; simpl.
  - split; [constructor | reflexivity].
  - rewrite andb_true_iff, negb_true_iff, NoDup_cons_iff, IH,
      <- id_taken_map_In.
    destruct (id_taken l (ID a)); intuition congruence.
Qed.

Lemma NoDup_insert {A} (l l' : list A) a :
  NoDup (l ++ l') -> ~ In a (l ++ l') -> NoDup (l ++ a :: l').
Proof.
  induction l as [| x l IH]; simpl; intros N I.
  - constructor; assumption.
  - apply NoDup_cons_iff in N as [N1 N2]. constructor.
    + intros X. apply in_app_or in X as [X | [X | X]].
      * apply N1, in_or_app. auto.
      * subst. apply I. auto.
      * apply N1, in_or_app. auto.
    + apply IH; [exact N2 | intros X; apply I; auto].
Qed.

Lemma insert_row_perm s l : Permutation (insert_row s l) (s :: l).
Proof.
  induction l as [| r l IH]; simpl; [reflexivity |].
  destruct (rowid (ID s) <? rowid (ID r))%Z; [reflexivity |].
  rewrite IH. apply perm_swap.
Qed.

Lemma insert_row_In s l r : In r (insert_row s l) <-> r = s \/ In r l.
Proof.
  split.
  - intros I. apply (Permutation_in _ (insert_row_perm s l)) in I.
    destruct I; auto.
  - intros I. apply (Permutation_in _ (Permutation_sym (insert_row_perm s l))).
    destruct I; [left; auto | right; auto].
Qed.

Lemma unique_ids_insert s l :
  unique_ids l = true -> id_taken l (ID s) = false ->
  unique_ids (insert_row s l) = true.
Proof.
  intros U T. apply unique_ids_NoDup.
  apply (Permutation_NoDup
           (Permutation_sym (Permutation_map ID (insert_row_perm s l)))).
  simpl. constructor; [| apply unique_ids_NoDup; exact U].
  rewrite <- id_taken_map_In. rewrite T. discriminate.
Qed.

Lemma unique_emails_insert s l :
  unique_emails l = true -> email_taken l (Email s) = false ->
  unique_emails (insert_row s l) = true.
Proof.
  intros U T. apply unique_emails_NoDup.
  apply (Permutation_NoDup
           (Permutation_sym (Permutation_map Email (insert_row_perm s l)))).
  simpl. constructor; [| apply unique_emails_NoDup; exact U].
  rewrite <- email_taken_map_In. rewrite T. discriminate.
Qed.

Lemma nonzero_ids_In l :
  nonzero_ids l = true <-> forall r, In r l -> ID r <> 0%N.
Proof.
  unfold nonzero_ids. rewrite forallb_forall. split; intros Hl r I.
  - specialize (Hl r I). apply negb_true_iff, N.eqb_neq in Hl. exact Hl.
  - apply negb_true_iff, N.eqb_neq. auto.
Qed.

Lemma nonzero_ids_insert s l :
  nonzero_ids l = true -> ID s <> 0%N -> nonzero_ids (insert_row s l) = true.
Proof.
  rewrite !nonzero_ids_In. intros Hl NZ r I.
  apply insert_row_In in I as [-> | I]; auto.
Qed.

Lemma rowid_le_maxID l r :
  In r l -> (rowid (ID r) <= Z.of_N (maxID l))%Z.
Proof.
  induction l as [| a l IH]; simpl; [tauto |].
  intros [<- | I].
  - assert (Z.to_N (rowid (ID a)) <= N.max (Z.to_N (rowid (ID a))) (maxID l))%N
      by lia.
    lia.
  - specialize (IH I). lia.
Qed.

(** The key AUTOINCREMENT hands out is above every key of the table. *)
Lemma auto_id_above db r :
  (N.max (seq db) (maxID (rows db)) < maxRowid)%N ->
  In r (rows db) ->
  (rowid (ID r) < rowid (N.max (seq db) (maxID (rows db)) + 1))%Z.
Proof.
  intros L I. rewrite (rowid_small (_ + 1)) by lia.
  pose proof (rowid_le_maxID _ _ I). lia.
Qed.

Lemma auto_id_fresh db :
  (N.max (seq db) (maxID (rows db)) < maxRowid)%N ->
  id_taken (rows db) (N.max (seq db) (maxID (rows db)) + 1) = false.
Proof.
  intros L. destruct (id_taken _ _) eqn:T; [| reflexivity].
  unfold id_taken in T. apply existsb_exists in T as (r & I & E).
  apply N.eqb_eq in E. pose proof (auto_id_above db r L I) as A.
  rewrite E in A. lia.
Qed.

(** A row above every key of the table is stored last. *)
Lemma insert_row_last s l :
  (forall r, In r l -> (rowid (ID r) < rowid (ID s))%Z) ->
  insert_row s l = (l ++ [s])%list.
Proof.
  induction l as [| a l IH]; intros Hl; [reflexivity |].
  simpl. destruct (Z.ltb_spec (rowid (ID s)) (rowid (ID a))) as [Lt | Ge].
  - specialize (Hl a (or_introl eq_refl)). lia.
  - rewrite IH; [reflexivity |]. intros r I. apply Hl. right. exact I.
Qed.

Lemma Create_consistent db now s :
  consistent db = true -> consistent (snd (Create db now s)) = true.
Proof.
  intros C. pose proof C as C0. apply consistent_parts in C as (U & E & Z).
  unfold Create.
  destruct (N.eqb_spec (ID s) 0) as [Hz | Hnz].
  - destruct (N.leb_spec maxRowid (N.max (seq db) (maxID (rows db))));
      [exact C0 |].
    destruct (email_taken (rows db) (Email s)) eqn:T; [exact C0 |].
    apply consistent_parts. simpl. repeat split.
    + apply unique_ids_insert; [exact U |]. simpl. apply auto_id_fresh. lia.
    + apply unique_emails_insert; [exact E | exact T].
    + apply nonzero_ids_insert; [exact Z |]. simpl. lia.
  - destruct (id_taken (rows db) (ID s)) eqn:T1; [exact C0 |].
    destruct (email_taken (rows db) (Email s)) eqn:T2; [exact C0 |].
    destruct (rowid (ID s) <? 0)%Z; [exact C0 |].
    apply consistent_parts. simpl. repeat split.
    + apply unique_ids_insert; [exact U | exact T1].
    + apply unique_emails_insert; [exact E | exact T2].
    + apply nonzero_ids_insert; [exact Z | exact Hnz].
Qed.

Lemma filter_all_In {A} (p : A -> bool) l :
  (forall x, In x l -> p x = true) -> filter p l = l.
Proof.
  induction l as [| a l IH]; intros K; [reflexivity |].
  simpl. rewrite (K a (or_introl eq_refl)), IH; [reflexivity |].
  intros x I. apply K. right. exact I.
Qed.

(** In a table with unique keys an UPDATE through a model reaches one
    row. *)
Lemma one_target l1 r l2 student (f : Student -> Student) :
  NoDup (map ID (l1 ++ r :: l2)) -> ID r = ID student -> live r = true ->
  find (target student) (l1 ++ r :: l2) = Some r
  /\ filter (fun q => negb (target student q)) (l1 ++ r :: l2) = (l1 ++ l2)%list
  /\ map (fun q => if target student q then f q else q) (l1 ++ r :: l2)
     = (l1 ++ f r :: l2)%list.
Proof.
  intros N E L. rewrite map_app in N. simpl in N. apply NoDup_remove_2 in N.
  assert (K : forall q, In q (l1 ++ l2) -> target student q = false).
  { intros q I. unfold target.
    destruct (N.eqb_spec (ID q) (ID student)) as [Eq | NE]; [| reflexivity].
    exfalso. apply N. rewrite E, <- Eq, <- map_app. apply in_map. exact I. }
  assert (K1 : forall q, In q l1 -> target student q = false).
  { intros q I. apply K, in_or_app. auto. }
  assert (K2 : forall q, In q l2 -> target student q = false).
  { intros q I. apply K, in_or_app. auto. }
  assert (T : target student r = true).
  { unfold target. rewrite E, N.eqb_refl, L. reflexivity. }
  split; [| split].
  - clear N K K2. induction l1 as [| a l1 IH]; simpl.
    + rewrite T. reflexivity.
    + rewrite (K1 a (or_introl eq_refl)). apply IH.
      intros q I. apply K1. right. exact I.
  - rewrite filter_app. simpl. rewrite T. simpl.
    rewrite (filter_all_In _ l1), (filter_all_In _ l2); [reflexivity | |];
      intros q I; [rewrite (K2 q I) | rewrite (K1 q I)]; reflexivity.
  - rewrite map_app. simpl. rewrite T.
    assert (M : forall l, (forall q, In q l -> target student q = false) ->
                map (fun q => if target student q then f q else q) l = l).
    { intros l Hl. rewrite <- (map_id l) at 2. apply map_ext_in.
      intros q I. rewrite (Hl q I). reflexivity. }
    rewrite (M l1 K1), (M l2 K2). reflexivity.
Qed.

(** What a successful UPDATE leaves, in a table with unique keys. *)
Lemma Updates_rows db now student u s' db' :
  unique_ids (rows db) = true ->
  Updates db now student u = (inr s', db') ->
  s' = assign now u student
  /\ (rows db' = rows db /\ seq db' = seq db
      /\ find (target student) (rows db) = None
      \/ exists l1 r l2,
           rows db = (l1 ++ r :: l2)%list
           /\ ID r = ID student /\ live r = true
           /\ id_taken (l1 ++ l2) (ID (assign now u r)) = false
           /\ email_taken (l1 ++ l2) (Email (assign now u r)) = false
           /\ seq db' = seq db
           /\ rows db'
              = if (ID (assign now u r) =? ID r)%N
                then (l1 ++ assign now u r :: l2)%list
                else insert_row (assign now u r) (l1 ++ l2)).
Proof.
  intros U. unfold Updates.
  destruct (ID student =? 0)%N; [discriminate |].
  destruct (find (target student) (rows db)) as [r |] eqn:F.
  - pose proof (find_some _ _ F) as [I T].
    unfold target in T. apply andb_true_iff in T as [E L].
    apply N.eqb_eq in E.
    apply in_split in I as (l1 & l2 & Er).
    apply unique_ids_NoDup in U. rewrite Er in U.
    destruct (one_target l1 r l2 student (assign now u) U E L) as (_ & O & M).
    rewrite Er, O, M.
    destruct (id_taken (l1 ++ l2) _) eqn:T1; [discriminate |].
    destruct (email_taken (l1 ++ l2) _) eqn:T2; [discriminate |].
    intros X; inversion X; subst. split; [reflexivity |]. right.
    exists l1, r, l2. simpl. repeat split; auto.
  - intros X; inversion X; subst. split; [reflexivity |]. left. auto.
Qed.

Lemma Updates_consistent db now student u :
  consistent db = true -> consistent (snd (Updates db now student u)) = true.
Proof.
  intros C. pose proof C as C0. apply consistent_parts in C as (U & E & Z).
  destruct (Updates db now student u) as [[e | s'] d] eqn:Up.
  - unfold Updates in Up.
    destruct (ID student =? 0)%N; [inversion Up; subst; exact C0 |].
    destruct (find (target student) (rows db)); [| discriminate].
    destruct (id_taken _ _); [inversion Up; subst; exact C0 |].
    destruct (email_taken _ _); [inversion Up; subst; exact C0 | discriminate].
  - simpl. apply (Updates_rows _ _ _ _ _ _ U) in Up as (_ & [(Er & _) | Hr]).
    + apply consistent_parts. rewrite Er. auto.
    + destruct Hr as (l1 & r & l2 & Er & Eid & L & T1 & T2 & _ & Er').
      apply unique_ids_NoDup in U. apply unique_emails_NoDup in E.
      rewrite Er in U, E, Z.
      assert (NZr : ID (assign now u r) <> 0%N).
      { simpl. destruct (N.eqb_spec (ID u) 0); [| assumption].
        apply (proj1 (nonzero_ids_In _) Z). apply in_or_app. right. left.
        reflexivity. }
      assert (U0 : unique_ids (l1 ++ l2) = true).
      { apply unique_ids_NoDup. rewrite map_app in *. simpl in U.
        exact (NoDup_remove_1 _ _ _ U). }
      assert (E0 : unique_emails (l1 ++ l2) = true).
      { apply unique_emails_NoDup. rewrite map_app in *. simpl in E.
        exact (NoDup_remove_1 _ _ _ E). }
      assert (Z0 : nonzero_ids (l1 ++ l2) = true).
      { apply nonzero_ids_In. intros q I.
        apply (proj1 (nonzero_ids_In _) Z).
        apply in_app_or in I as [I | I]; apply in_or_app; [left | right; right];
          exact I. }
      apply consistent_parts. rewrite Er'.
      destruct (N.eqb_spec (ID (assign now u r)) (ID r)) as [Same | Diff].
      * repeat split.
        -- apply unique_ids_NoDup. rewrite map_app, map_cons, Same.
           rewrite map_app, map_cons in U. exact U.
        -- apply unique_emails_NoDup. rewrite map_app, map_cons.
           apply NoDup_insert.
           ++ rewrite <- map_app. apply unique_emails_NoDup. exact E0.
           ++ rewrite <- map_app, <- email_taken_map_In, T2. discriminate.
        -- apply nonzero_ids_In. intros q I.
           apply in_app_or in I as [I | [<- | I]]; [| exact NZr |];
             apply (proj1 (nonzero_ids_In _) Z0), in_or_app; auto.
      * repeat split.
        -- apply unique_ids_insert; assumption.
        -- apply unique_emails_insert; assumption.
        -- apply nonzero_ids_insert; assumption.
Qed.

Lemma Delete_consistent db now student :
  consistent db = true -> consistent (snd (Delete db now student)) = true.
Proof.
  intros C. pose proof C as C0. apply consistent_parts in C as (U & E & Z).
  unfold Delete. destruct (ID student =? 0)%N; [exact C0 |].
  assert (Hid : forall r,
    ID (if target student r then setDeletedAt (Some now) r else r) = ID r).
  { intros r. destruct (target student r); reflexivity. }
  assert (Hem : forall r,
    Email (if target student r then setDeletedAt (Some now) r else r) = Email r).
  { intros r. destruct (target student r); reflexivity. }
  apply consistent_parts. simpl. repeat split.
  - rewrite (unique_ids_map _ _ Hid). exact U.
  - rewrite (unique_emails_map _ _ Hem). exact E.
  - apply nonzero_ids_map; [| exact Z]. intros r NZ. rewrite Hid. exact NZ.
Qed.

(** Every handler that writes takes a consistent table to a consistent
    table; [InitDatabase] is consistent. *)
Lemma handlers_keep_consistent isEmail db now param body :
  consistent db = true ->
  consistent (snd (CreateStudent isEmail db now body)) = true
  /\ consistent (snd (UpdateStudent isEmail db now param body)) = true
  /\ consistent (snd (DeleteStudent db now param)) = true.
Proof.
  intros C. repeat split.
  - unfold CreateStudent. destruct (ShouldBindJSON isEmail body); [exact C |].
    pose proof (Create_consistent db now s C) as K.
    destruct (Create db now s) as [[e | s'] d]; exact K.
  - unfold UpdateStudent. destruct (ParseUint param); [| exact C].
    destruct (First db n); [exact C |].
    destruct (ShouldBindJSON isEmail body); [exact C |].
    pose proof (Updates_consistent db now s s0 C) as K.
    destruct (Updates db now s s0) as [[e | s'] d]; exact K.
  - unfold DeleteStudent. destruct (ParseUint param); [| exact C].
    destruct (First db n); [exact C |].
    pose proof (Delete_consistent db now s C) as K.
    destruct (Delete db now s) as [[e | []] d]; exact K.
Qed.

Lemma reachable_consistent isEmail db :
  reachable isEmail db -> consistent db = true.
Proof.
  induction 1 as [| db now body _ IH | db now param body _ IH | db now param _ IH].
  - reflexivity.
  - exact (proj1 (handlers_keep_consistent isEmail db now "" body IH)).
  - exact (proj1 (proj2 (handlers_keep_consistent isEmail db now param body IH))).
  - exact (proj2 (proj2 (handlers_keep_consistent isEmail db now param None IH))).
Qed.

(** C7, as the code has it -- Soft delete is not idempotent at the
    interface.  In every table the service can reach, [DeleteStudent] on a
    path id that parses (a decimal below [2^32]) and names a live record
    answers 200 and stores the record with [deleted_at] set to the current
    time; a second [DeleteStudent] on the same id, at any later time, answers
    404 "Student not found" and changes nothing, because [First] no longer
    sees the record. *)
Theorem delete_twice_not_found (isEmail : string -> bool)
  (db : DB) (now : Time) (param : string) (id : N) (student : Student) :
  reachable isEmail db ->
  ParseUint param = Some id ->
  First db id = inr student ->
  exists db',
    DeleteStudent db now param
    = (JSON StatusOK [("message", VString "Student deleted successfully")], db')
    /\ In (setDeletedAt (Some now) student) (rows db')
    /\ (forall r, In r (rows db') -> ID r = id -> live r = false)
    /\ forall now2,
         DeleteStudent db' now2 param
         = (JSON StatusNotFound [("error", VString "Student not found")], db').
Proof.
  intros R. apply delete_then_delete. exact (reachable_consistent _ _ R).
Qed.


(** ** Create *)

Lemma CreateStudent_bound isEmail db now body s :
  ShouldBindJSON isEmail body = inr s ->
  CreateStudent isEmail db now body
  = match Create db now s with
    | (inl e, db') =>
        (JSON StatusInternalServerError
           [("error", VString "Failed to create student");
            ("message", VError e)], db')
    | (inr s', db') =>
        (JSON StatusCreated
           [("message", VString "Student created successfully");
            ("data", VStudent s')], db')
    end.
Proof. intros B. unfold CreateStudent. rewrite B. reflexivity. Qed.






(** What a successful INSERT stores: the record with its key and its
    timestamps filled in, at the place of its key. *)
Lemma Create_inr db now s s' db' :
  Create db now s = (inr s', db') ->
  let top := N.max (seq db) (maxID (rows db)) in
  s' = setID (if (ID s =? 0)%N then (top + 1)%N else ID s) (stamp now s)
  /\ db' = mkDB (insert_row s' (rows db))
             (if (ID s =? 0)%N then (top + 1)%N else N.max (seq db) (ID s))
  /\ id_taken (rows db) (ID s') = false
  /\ email_taken (rows db) (Email s') = false
  /\ (0 <= rowid (ID s'))%Z
  /\ ((ID s =? 0)%N = true -> (top < maxRowid)%N).
Proof.
  unfold Create. destruct (ID s =? 0)%N eqn:Z.
  - destruct (N.leb_spec maxRowid (N.max (seq db) (maxID (rows db)))) as [| L];
      [discriminate |].
    destruct (email_taken _ _) eqn:T; [discriminate |].
    intros E; inversion E; subst. simpl.
    repeat split; auto.
    + apply auto_id_fresh. exact L.
    + rewrite rowid_small by lia. lia.
  - destruct (id_taken _ _) eqn:T1; [discriminate |].
    destruct (email_taken _ _) eqn:T2; [discriminate |].
    destruct (Z.ltb_spec (rowid (ID s)) 0) as [| P]; [discriminate |].
    intros E; inversion E; subst. simpl.
    repeat split; auto; try discriminate; try (destruct s; reflexivity).
Qed.

(** Without a key in the request the new row is the last one. *)
Lemma Create_inr_auto db now s s' db' :
  Create db now s = (inr s', db') -> ID s = 0%N ->
  db' = mkDB (rows db ++ [s'])%list (ID s').
Proof.
  intros C Z. apply Create_inr in C as (Es & -> & _ & _ & _ & L).
  rewrite Z in *. simpl in *. specialize (L eq_refl).
  rewrite insert_row_last.
  - f_equal. rewrite Es. reflexivity.
  - intros r I. rewrite Es. simpl. apply auto_id_above; assumption.
Qed.

Lemma unmarshal_same b1 b2 :
  same_business b1 b2 -> no_system_fields b1 -> no_system_fields b2 ->
  unmarshal b1 = unmarshal b2.
Proof.
  intros (E1 & E2 & E3 & E4 & E5 & E6 & E7) (A1 & A2 & A3) (B1 & B2 & B3).
  unfold unmarshal.
  rewrite A1, A2, A3, B1, B2, B3, E1, E2, E3, E4, E5, E6, E7. reflexivity.
Qed.

Lemma unmarshal_system b s :
  unmarshal b = inr s ->
  ID s = opt 0%N (j_id b) /\ CreatedAt s = opt 0%N (j_created_at b)
  /\ UpdatedAt s = opt 0%N (j_updated_at b).
Proof.
  unfold unmarshal.
  destruct (_ <=? _)%N; [discriminate |].
  destruct (_ || _); [discriminate |].
  intros E; inversion E; auto.
Qed.

(** C9, as the code has it -- [id], [created_at] and [updated_at] are read
    from the request body like every other member.  The store assigns them
    only where the body leaves them absent or zero: two create requests
    that agree on the business members and supply none of the three get the
    same answer and the same stored record, with the next rowid as [id] and
    the current time in both timestamps.  A non-zero value in the body is
    stored as given. *)
Theorem system_fields_assigned_when_absent (isEmail : string -> bool)
  (db : DB) (now : Time) (b1 b2 : JSONBody) :
  same_business b1 b2 -> no_system_fields b1 -> no_system_fields b2 ->
  CreateStudent isEmail db now (Some b1) = CreateStudent isEmail db now (Some b2)
  /\ (forall s s' db',
        ShouldBindJSON isEmail (Some b1) = inr s ->
        Create db now s = (inr s', db') ->
        ID s' = (N.max (seq db) (maxID (rows db)) + 1)%N
        /\ CreatedAt s' = now /\ UpdatedAt s' = now
        /\ db' = mkDB (rows db ++ [s'])%list (ID s'))
  /\ (forall b s s' db',
        ShouldBindJSON isEmail (Some b) = inr s ->
        Create db now s = (inr s', db') ->
        ID s' = (if (opt 0 (j_id b) =? 0)%N
                 then (N.max (seq db) (maxID (rows db)) + 1)%N
                 else opt 0%N (j_id b))
        /\ CreatedAt s' = (if (opt 0 (j_created_at b) =? 0)%N
                           then now else opt 0%N (j_created_at b))
        /\ UpdatedAt s' = (if (opt 0 (j_updated_at b) =? 0)%N
                           then now else opt 0%N (j_updated_at b))
        /\ In s' (rows db')).
Proof.
  intros SB N1 N2.
  assert (Given : forall b s s' db',
    ShouldBindJSON isEmail (Some b) = inr s ->
    Create db now s = (inr s', db') ->
    ID s = opt 0%N (j_id b)
    /\ ID s' = (if (opt 0 (j_id b) =? 0)%N
                then (N.max (seq db) (maxID (rows db)) + 1)%N
                else opt 0%N (j_id b))
    /\ CreatedAt s' = (if (opt 0 (j_created_at b) =? 0)%N
                       then now else opt 0%N (j_created_at b))
    /\ UpdatedAt s' = (if (opt 0 (j_updated_at b) =? 0)%N
                       then now else opt 0%N (j_updated_at b))
    /\ In s' (rows db')).
  { intros b s s' db' B C.
    apply ShouldBindJSON_inr in B as [U _].
    apply unmarshal_system in U as (E1 & E2 & E3).
    apply Create_inr in C as (-> & -> & _). rewrite <- E1, <- E2, <- E3.
    simpl. repeat split. apply insert_row_In. left. reflexivity. }
  split; [| split].
  - unfold CreateStudent, ShouldBindJSON.
    rewrite (unmarshal_same _ _ SB N1 N2). reflexivity.
  - intros s s' db' B C.
    destruct (Given _ _ _ _ B C) as (G0 & G1 & G2 & G3 & _).
    destruct N1 as (A1 & A2 & A3). rewrite A1, A2, A3 in *. simpl in *.
    repeat split; auto. exact (Create_inr_auto _ _ _ _ _ C G0).
  - intros b s s' db' B C.
    destruct (Given _ _ _ _ B C) as (_ & G1 & G2 & G3 & G4). auto.
Qed.

(** ** Update *)

(** C3, at the failing input -- [PUT /students/:id] with the body
    [{"age": 21}] on a live record: the body is bound against the same
    [required] tags as a create request, so the handler answers
    400 "Invalid input data" and the record is not changed. *)
Theorem update_age_only_rejected (isEmail : string -> bool)
  (db : DB) (now : Time) (param : string) (id : N) (student : Student) :
  ParseUint param = Some id ->
  First db id = inr student ->
  UpdateStudent isEmail db now param (Some ageOnly21)
  = (JSON StatusBadRequest
       [("error", VString "Invalid input data");
        ("message",
         VError (ErrValidation
           [mkFieldError "Name" "required"; mkFieldError "Gender" "required";
            mkFieldError "Email" "required"; mkFieldError "Phone" "required";
            mkFieldError "Major" "required"; mkFieldError "Grade" "required"]))],
     db).
Proof.
  intros P F. unfold UpdateStudent. rewrite P, F. reflexivity.
Qed.

(** C8, at the failing input -- The [binding] tag of [Name] is [required]
    alone: any non-empty name passes, whatever its length, and SQLite does
    not enforce [size:100].  A create request with a name of 101 letters on
    the empty table is answered 201 and the record is stored. *)
Theorem long_name_accepted (isEmail : string -> bool) (now : Time) :
  isEmail "zs@example.com" = true ->
  (forall s, Name s <> "" -> check_Name s = [])
  /\ String.length longName = 101
  /\ exists s',
       Name s' = longName
       /\ CreateStudent isEmail InitDatabase now
            (Some (withName (Some longName) zhangSan))
          = (JSON StatusCreated
               [("message", VString "Student created successfully");
                ("data", VStudent s')],
             mkDB [s'] 1%N).
Proof.
  intros E. split; [| split].
  - intros s NE. unfold check_Name, required_string.
    destruct (String.eqb_spec (Name s) ""); [contradiction | reflexivity].
  - reflexivity.
  - eexists. split; [| unfold CreateStudent, ShouldBindJSON, validate, check_Email;
                       simpl; rewrite E; reflexivity].
    reflexivity.
Qed.

(** ** Search *)

Lemma byte_ascii_of_N n : (n < 256)%N -> byte (ascii_of_N n) = n.
Proof. intros L. unfold byte. apply N_ascii_embedding. exact L. Qed.

Lemma byte_inj c d : byte c = byte d -> c = d.
Proof.
  unfold byte. intros E.
  rewrite <- (ascii_N_embedding c), <- (ascii_N_embedding d), E. reflexivity.
Qed.

(** *** The characters of a pattern *)

Lemma chars_from_cons cur a s :
  chars_from cur (String a s)
  = let rest :=
      if (byte a =? 0)%N then []
      else if (byte a <? 192)%N then byte a :: chars_from None s
      else chars_from (Some (utf8_lead (byte a))) s in
    match cur with
    | Some c =>
        if is_cont a
        then chars_from (Some ((c * 64 + byte a mod 64) mod 2 ^ 32)%N) s
        else utf8_fix c :: rest
    | None => rest
    end.
Proof. reflexivity. Qed.

Lemma chars_from_percent cur f :
  nul_free f = true ->
  chars_from cur (f ++ "%") = (chars_from cur f ++ [37%N])%list.
Proof.
  revert cur. induction f as [| a f IH]; intros cur NF.
  - destruct cur; reflexivity.
  - simpl in NF. apply andb_true_iff in NF as [NZ NF].
    apply negb_true_iff in NZ.
    change (String a f ++ "%") with (String a (f ++ "%")).
    rewrite !chars_from_cons. cbv zeta. rewrite NZ.
    destruct cur as [c |].
    + destruct (is_cont a); [apply IH; exact NF |].
      destruct (byte a <? 192)%N; rewrite IH by exact NF; reflexivity.
    + destruct (byte a <? 192)%N; rewrite IH by exact NF; reflexivity.
Qed.

Lemma chars_pattern f :
  nul_free f = true ->
  chars ("%" ++ f ++ "%") = (37%N :: chars f ++ [37%N])%list.
Proof.
  intros NF. unfold chars.
  change ("%" ++ f ++ "%") with (String "%" (f ++ "%")).
  rewrite chars_from_cons. cbv zeta.
  change (byte "%") with 37%N. cbv beta iota.
  change ((37 =? 0)%N) with false. change ((37 <? 192)%N) with true.
  cbv iota. rewrite (chars_from_percent _ _ NF). reflexivity.
Qed.

Lemma utf8_fix_high c : (128 <= utf8_fix c)%N.
Proof.
  unfold utf8_fix. destruct (N.ltb_spec c 128); simpl; [lia |].
  destruct (_ || _); lia.
Qed.

Lemma chars_from_wildcard_free cur f :
  wildcard_free f = true ->
  Forall (fun c => c <> 37%N /\ c <> 95%N) (chars_from cur f).
Proof.
  assert (Fx : forall c, utf8_fix c <> 37%N /\ utf8_fix c <> 95%N).
  { intros c. pose proof (utf8_fix_high c). lia. }
  revert cur. induction f as [| a f IH]; intros cur W.
  - destruct cur; simpl; auto.
  - simpl in W. apply andb_true_iff in W as [W W3].
    apply andb_true_iff in W as [W1 W2].
    apply negb_true_iff in W1, W2.
    assert (Ba : byte a <> 37%N /\ byte a <> 95%N).
    { split; intros E.
      - apply (byte_inj a "%") in E. subst a. discriminate.
      - apply (byte_inj a "_") in E. subst a. discriminate. }
    rewrite chars_from_cons. cbv zeta.
    assert (R : Forall (fun c => c <> 37%N /\ c <> 95%N)
                  (if (byte a =? 0)%N then []
                   else if (byte a <? 192)%N then byte a :: chars_from None f
                   else chars_from (Some (utf8_lead (byte a))) f)).
    { destruct (byte a =? 0)%N; [constructor |].
      destruct (byte a <? 192)%N; [constructor |]; auto. }
    destruct cur as [c |]; [| exact R].
    destruct (is_cont a); [apply IH; exact W3 |].
    constructor; auto.
Qed.

(** *** LIKE around a value without wildcards *)

Lemma like_chars_star p s :
  like_chars (37%N :: p) s
  = like_chars p s
    || match s with
       | [] => false
       | _ :: s' => like_chars (37%N :: p) s'
       end.
Proof. destruct s; reflexivity. Qed.

Lemma like_chars_literal c p s :
  c <> 37%N -> c <> 95%N ->
  like_chars (c :: p) s
  = match s with
    | [] => false
    | d :: s' => eq_char c d && like_chars p s'
    end.
Proof.
  intros H1 H2. simpl.
  destruct (N.eqb_spec c 37); [contradiction |].
  destruct (N.eqb_spec c 95); [contradiction |].
  reflexivity.
Qed.

Lemma like_chars_percent s : like_chars [37%N] s = true.
Proof.
  induction s as [| c s IH]; [reflexivity |].
  rewrite like_chars_star, IH. apply orb_true_r.
Qed.

Lemma like_chars_prefix f s :
  Forall (fun c => c <> 37%N /\ c <> 95%N) f ->
  like_chars (f ++ [37%N]) s = prefix_chars f s.
Proof.
  intros W. revert s. induction W as [| c f [H1 H2] W IH]; intros s.
  - simpl app. rewrite like_chars_percent. destruct s; reflexivity.
  - change ((c :: f) ++ [37%N])%list with (c :: (f ++ [37%N]))%list.
    rewrite (like_chars_literal _ _ _ H1 H2).
    destruct s as [| d s]; [reflexivity |].
    simpl. rewrite IH. reflexivity.
Qed.

Lemma like_chars_contains f s :
  Forall (fun c => c <> 37%N /\ c <> 95%N) f ->
  like_chars (37%N :: f ++ [37%N]) s = contains_chars f s.
Proof.
  intros W. induction s as [| d s IH].
  - rewrite like_chars_star, (like_chars_prefix _ _ W). reflexivity.
  - rewrite like_chars_star, (like_chars_prefix _ _ W), IH. reflexivity.
Qed.

(** Around a value without wildcards and without a NUL byte,
    [LIKE '%' + f + '%'] is containment of characters up to ASCII case. *)
Lemma like_contains f s :
  wildcard_free f = true -> nul_free f = true ->
  like ("%" ++ f ++ "%") s = contains_ci f s.
Proof.
  intros W NF. unfold like, contains_ci. rewrite (chars_pattern _ NF).
  apply like_chars_contains. apply chars_from_wildcard_free. exact W.
Qed.

Lemma contains_ci_empty s : contains_ci "" s = true.
Proof. unfold contains_ci. simpl. destruct (chars s); reflexivity. Qed.

(** *** Containment up to ASCII case *)

Lemma eq_char_lower c d : eq_char c d = true <-> lowerN c = lowerN d.
Proof.
  unfold eq_char, lowerN.
  rewrite orb_true_iff, !andb_true_iff, !N.eqb_eq, !N.ltb_lt.
  destruct (N.leb_spec 65 c); destruct (N.leb_spec c 90);
    destruct (N.leb_spec 65 d); destruct (N.leb_spec d 90); simpl; lia.
Qed.

Lemma prefix_chars_spec f t :
  prefix_chars f t = true <->
  exists m post, t = (m ++ post)%list /\ map lowerN m = map lowerN f.
Proof.
  revert t. induction f as [| c f IH]; intros t.
  - split; [| reflexivity]. intros _. exists [], t. split; reflexivity.
  - destruct t as [| d t]; simpl.
    + split; [discriminate |]. intros (m & post & E & L).
      destruct m; simpl in *; discriminate.
    + rewrite andb_true_iff, eq_char_lower, IH. split.
      * intros (E & m & post & -> & L). exists (d :: m), post.
        simpl. rewrite E, L. split; reflexivity.
      * intros (m & post & E & L). destruct m as [| e m]; [discriminate |].
        simpl in E, L. injection E as -> ->. injection L as L1 L2.
        split; [symmetry; exact L1 |]. exists m, post. split; [reflexivity | exact L2].
Qed.

Lemma contains_chars_spec f t :
  contains_chars f t = true <->
  exists pre m post,
    t = (pre ++ m ++ post)%list /\ map lowerN m = map lowerN f.
Proof.
  induction t as [| d t IH]; simpl.
  - rewrite orb_false_r, prefix_chars_spec. split.
    + intros (m & post & E & L). exists [], m, post. auto.
    + intros (pre & m & post & E & L).
      destruct pre; [| discriminate]. exists m, post. auto.
  - rewrite orb_true_iff, prefix_chars_spec, IH. split.
    + intros [(m & post & E & L) | (pre & m & post & E & L)].
      * exists [], m, post. auto.
      * exists (d :: pre), m, post. simpl. rewrite E. auto.
    + intros (pre & m & post & E & L). destruct pre as [| e pre].
      * left. exists m, post. auto.
      * right. simpl in E. inversion E; subst. exists pre, m, post. auto.
Qed.

(** *** Text of ASCII letters *)

Lemma chars_ascii s : ascii_text s = true -> chars s = bytes s.
Proof.
  unfold chars, bytes. induction s as [| a s IH]; intros A; [reflexivity |].
  simpl in A. apply andb_true_iff in A as [A A3].
  apply andb_true_iff in A as [A1 A2]. apply negb_true_iff in A1.
  rewrite chars_from_cons. cbv zeta. rewrite A1.
  apply N.ltb_lt in A2.
  destruct (N.ltb_spec (byte a) 192); [| lia].
  simpl. rewrite IH by exact A3. reflexivity.
Qed.

Lemma bytes_app a b : bytes (a ++ b) = (bytes a ++ bytes b)%list.
Proof.
  unfold bytes. induction a as [| c a IH]; [reflexivity |].
  simpl. rewrite IH. reflexivity.
Qed.

Lemma bytes_inj a b : bytes a = bytes b -> a = b.
Proof.
  unfold bytes. revert b. induction a as [| c a IH]; intros [| d b] E;
    try discriminate; [reflexivity |].
  simpl in E. injection E as E1 E2.
  rewrite (byte_inj _ _ E1), (IH _ E2). reflexivity.
Qed.

Lemma bytes_split s l1 l2 :
  bytes s = (l1 ++ l2)%list ->
  exists s1 s2, s = s1 ++ s2 /\ bytes s1 = l1 /\ bytes s2 = l2.
Proof.
  revert s. induction l1 as [| x l1 IH]; intros s E.
  - exists "", s. auto.
  - destruct s as [| c s]; [discriminate |].
    unfold bytes in E. simpl in E. injection E as E1 E2.
    destruct (IH s E2) as (s1 & s2 & -> & B1 & B2).
    exists (String c s1), s2. repeat split; auto.
    unfold bytes. simpl. rewrite E1. f_equal. exact B1.
Qed.

Lemma byte_toLower c : byte (toLower c) = lowerN (byte c).
Proof.
  unfold toLower, lowerN.
  destruct (N.leb_spec 65 (byte c)); simpl; [| reflexivity].
  destruct (N.leb_spec (byte c) 90); simpl; [| reflexivity].
  apply byte_ascii_of_N. lia.
Qed.

Lemma bytes_lower s : bytes (lower s) = map lowerN (bytes s).
Proof.
  unfold bytes. induction s as [| c s IH]; [reflexivity |].
  simpl. rewrite byte_toLower, IH. reflexivity.
Qed.

(** Between texts of ASCII letters [contains_ci] is containment of a
    substring up to case. *)
Lemma contains_ci_ascii f s :
  ascii_text f = true -> ascii_text s = true ->
  (contains_ci f s = true <->
   exists pre m post, s = pre ++ m ++ post /\ lower m = lower f).
Proof.
  intros Af As. unfold contains_ci.
  rewrite (chars_ascii _ Af), (chars_ascii _ As), contains_chars_spec. split.
  - intros (pre & m & post & E & L).
    apply bytes_split in E as (s1 & s23 & -> & B1 & E).
    apply bytes_split in E as (s2 & s3 & -> & B2 & B3).
    exists s1, s2, s3. split; [reflexivity |].
    apply bytes_inj. rewrite !bytes_lower, B2. exact L.
  - intros (pre & m & post & -> & L).
    exists (bytes pre), (bytes m), (bytes post).
    rewrite !bytes_app. split; [reflexivity |].
    rewrite <- !bytes_lower, L. reflexivity.
Qed.

(** *** What the query keeps *)

Lemma LIKE_short text value :
  short value = true ->
  LIKE text ("%" ++ value ++ "%") = inr (like ("%" ++ value ++ "%") text).
Proof.
  unfold short, LIKE. intros S. apply N.leb_le in S.
  destruct (N.ltb_spec likeLimit (N.of_nat (String.length ("%" ++ value ++ "%"))));
    [lia | reflexivity].
Qed.

Lemma search_query_holds name major grade r :
  short name = true -> short major = true ->
  holds (search_query name major grade ++ [sql live])%list r
  = inr (live r && keeps name major grade r).
Proof.
  intros Sn Sm. unfold search_query, keeps, Where.
  destruct (String.eqb name ""); destruct (String.eqb major "");
    destruct (String.eqb grade ""); simpl negb; cbv iota; simpl app;
    unfold holds, sql;
    rewrite ?(LIKE_short _ _ Sn), ?(LIKE_short _ _ Sm);
    destruct (live r); try reflexivity;
    repeat match goal with
           | |- context [if ?b then _ else _] => destruct b
           | |- context [match (if ?b then _ else _) with _ => _ end] => destruct b
           end; reflexivity.
Qed.

Lemma readable_filter p db :
  readable db = true ->
  forallb (fun r => implb (live r && p r) (scans r)) (rows db) = true.
Proof.
  unfold readable. rewrite !forallb_forall. intros R r I.
  specialize (R r I). destruct (live r); [| reflexivity].
  destruct (p r); [exact R | reflexivity].
Qed.

(** The answer of a search whose patterns are within the limit of LIKE,
    on a table whose live rows can be read. *)
Lemma SearchStudents_keep db name major grade :
  short name = true -> short major = true -> readable db = true ->
  SearchStudents db name major grade
  = JSON StatusOK
      [("data",
        VStudents
          (filter (fun r => live r && keeps name major grade r) (rows db)));
       ("count",
        VInt (List.length
                (filter (fun r => live r && keeps name major grade r)
                   (rows db))))].
Proof.
  intros Sn Sm R. rewrite SearchStudents_query. unfold Find.
  rewrite (select_total _ (fun r => live r && keeps name major grade r)).
  - rewrite (readable_filter _ _ R). reflexivity.
  - intros r _. apply search_query_holds; assumption.
Qed.

Lemma keeps_matches name major grade r :
  wildcard_free name = true -> wildcard_free major = true ->
  nul_free name = true -> nul_free major = true ->
  live r && keeps name major grade r = matches name major grade r.
Proof.
  intros Wn Wm Nn Nm. unfold keeps, matches.
  rewrite (like_contains _ _ Wn Nn), (like_contains _ _ Wm Nm).
  destruct (String.eqb_spec name "") as [-> | _];
    destruct (String.eqb_spec major "") as [-> | _];
    rewrite ?contains_ci_empty; simpl;
    rewrite ?andb_true_r, ?andb_assoc; reflexivity.
Qed.

(** C5, as the code has it -- [SearchStudents] joins the supplied filters
    with AND over the live rows; an empty filter value adds no condition.
    [name] and [major] are matched with [LIKE '%value%'].  For values that
    contain no [%], no [_] and no NUL byte, whose pattern is within the
    50000 bytes LIKE accepts, on a table whose live rows can be read back,
    the handler answers 200 with exactly the live rows whose name contains
    [name] and whose major contains [major] (and whose grade equals
    [grade], when given), in the order of the table.  Containment is that
    of SQLite: of characters, without regard to ASCII case, in the text up
    to its first NUL byte; between texts of ASCII letters it is the
    case-insensitive substring.  With all three filters blank the answer is
    that of [GetAllStudents]. *)
Theorem search_and_composition (db : DB) (name major grade : string) :
  wildcard_free name = true -> wildcard_free major = true ->
  nul_free name = true -> nul_free major = true ->
  short name = true -> short major = true ->
  readable db = true ->
  SearchStudents db name major grade
  = JSON StatusOK
      [("data", VStudents (filter (matches name major grade) (rows db)));
       ("count",
        VInt (List.length (filter (matches name major grade) (rows db))))]
  /\ SearchStudents db "" "" "" = GetAllStudents db
  /\ (forall f s,
        contains_ci f s = true <->
        exists pre m post,
          chars s = (pre ++ m ++ post)%list
          /\ map lowerN m = map lowerN (chars f))
  /\ (forall f s,
        ascii_text f = true -> ascii_text s = true ->
        (contains_ci f s = true <->
         exists pre m post, s = pre ++ m ++ post /\ lower m = lower f)).
Proof.
  intros Wn Wm Nn Nm Sn Sm R. split; [| split; [| split]].
  - rewrite (SearchStudents_keep _ _ _ _ Sn Sm R).
    rewrite (filter_ext _ (matches name major grade)
               (fun r => keeps_matches name major grade r Wn Wm Nn Nm)).
    reflexivity.
  - rewrite (SearchStudents_keep db "" "" "" eq_refl eq_refl R).
    rewrite (GetAllStudents_readable _ R).
    rewrite (filter_ext _ live (fun r => andb_true_r (live r))).
    reflexivity.
  - intros f s. apply contains_chars_spec.
  - exact contains_ci_ascii.
Qed.

(** * The properties at sample inputs *)


Lemma update_missing_before_body_witness :
  ParseUint "1" = Some 1%N
  /\ (forall r, In r (rows oneDeleted) -> ID r = 1%N -> live r = false)
  /\ UpdateStudent hasAt oneDeleted 400%N "1" None
     = (JSON StatusNotFound [("error", VString "Student not found")], oneDeleted).
Proof.
  assert (Hno : forall r, In r (rows oneDeleted) -> ID r = 1%N -> live r = false).
  { simpl. intros r [<- | []] _. reflexivity. }
  split; [reflexivity |]. split; [exact Hno |].
  apply (update_missing_before_body hasAt oneDeleted 400%N "1" 1%N None);
    [reflexivity | exact Hno].
Defined.

(** [PUT /students/abc] and [PUT /students/99999999999] name no live
    record, and the answer is 400 "Invalid student ID", not 404: the path
    id is parsed, as a decimal below [2^32], before any lookup. *)
Lemma update_unparsable_id_answers_400 :
  (forall r, In r (rows oneStudent) -> ID r <> 99999999999%N)
  /\ UpdateStudent hasAt oneStudent 200%N "abc" None
     = (JSON StatusBadRequest [("error", VString "Invalid student ID")],
        oneStudent)
  /\ UpdateStudent hasAt oneStudent 200%N "99999999999" (Some zhangSan)
     = (JSON StatusBadRequest [("error", VString "Invalid student ID")],
        oneStudent)
  /\ code (fst (UpdateStudent hasAt oneStudent 200%N "99999999999" None))
     <> StatusNotFound.
Proof.
  split; [intros r [<- | []]; discriminate |].
  split; [reflexivity |]. split; [reflexivity |]. simpl. discriminate.
Qed.

Lemma deleted_invisible_to_reads_witness :
  DeleteStudent oneStudent 300%N "1"
  = (JSON StatusOK [("message", VString "Student deleted successfully")],
     oneDeleted)
  /\ GetStudentByID oneDeleted "1"
     = JSON StatusNotFound [("error", VString "Student not found")]
  /\ (forall r, In r (data (GetAllStudents oneDeleted)) -> DeletedAt r = None).
Proof.
  assert (D : DeleteStudent oneStudent 300%N "1"
              = (JSON StatusOK [("message", VString "Student deleted successfully")],
                 oneDeleted)) by reflexivity.
  destruct (deleted_invisible_to_reads oneStudent 300%N "1" _ _ D eq_refl)
    as (G & _ & _ & A & _).
  split; [exact D |]. split; [exact G |]. intros r. apply A.
Defined.

Lemma oneStudent_reachable : reachable hasAt oneStudent.
Proof.
  change oneStudent
    with (snd (CreateStudent hasAt InitDatabase 100%N (Some zhangSan))).
  apply reach_create, reach_init.
Defined.

Lemma bigStudent_reachable : reachable hasAt bigStudent.
Proof.
  change bigStudent
    with (snd (CreateStudent hasAt InitDatabase 100%N (Some wangWu))).
  apply reach_create, reach_init.
Defined.

Lemma wrappedStudent_reachable : reachable hasAt wrappedStudent.
Proof.
  change wrappedStudent
    with (snd (UpdateStudent hasAt oneStudent 300%N "1"
                 (Some (withSystem (Some 9223372036854775808%N) None None
                          zhangSan)))).
  apply reach_update, oneStudent_reachable.
Defined.

Lemma delete_twice_not_found_witness :
  reachable hasAt oneStudent
  /\ ParseUint "1" = Some 1%N
  /\ First oneStudent 1%N = inr zhangSanRow
  /\ exists db',
       DeleteStudent oneStudent 300%N "1"
       = (JSON StatusOK [("message", VString "Student deleted successfully")], db')
       /\ In (setDeletedAt (Some 300%N) zhangSanRow) (rows db')
       /\ (forall r, In r (rows db') -> ID r = 1%N -> live r = false)
       /\ forall now2,
            DeleteStudent db' now2 "1"
            = (JSON StatusNotFound [("error", VString "Student not found")], db').
Proof.
  split; [exact oneStudent_reachable |]. split; [reflexivity |].
  split; [reflexivity |].
  apply (delete_twice_not_found hasAt oneStudent 300%N "1" 1%N zhangSanRow);
    [exact oneStudent_reachable | reflexivity | reflexivity].
Defined.

(** A live record with the id [2^32], created with that id in the request
    body: [DELETE /students/4294967296] answers 400, and no path at all
    makes [DeleteStudent] answer 200, so the first delete on this live
    record never succeeds. *)
Lemma delete_large_id_never_succeeds :
  reachable hasAt bigStudent
  /\ In wangWuRow (rows bigStudent) /\ live wangWuRow = true
  /\ ID wangWuRow = 4294967296%N
  /\ DeleteStudent bigStudent 300%N "4294967296"
     = (JSON StatusBadRequest [("error", VString "Invalid student ID")],
        bigStudent)
  /\ (forall now param,
        code (fst (DeleteStudent bigStudent now param)) <> StatusOK).
Proof.
  split; [exact bigStudent_reachable |]. split; [left; reflexivity |].
  split; [reflexivity |]. split; [reflexivity |]. split; [reflexivity |].
  intros now param. unfold DeleteStudent.
  destruct (ParseUint param) as [id |] eqn:P; [| simpl; discriminate].
  apply ParseUint_lt in P.
  assert (F : First bigStudent id = inl ErrRecordNotFound).
  { unfold First. change (rows bigStudent) with [wangWuRow]. cbn [find].
    change (ID wangWuRow) with 4294967296%N.
    destruct (N.eqb_spec 4294967296 id) as [E | _]; [| reflexivity].
    rewrite <- E in P. vm_compute in P. discriminate P. }
  rewrite F. simpl. discriminate.
Qed.





Lemma system_fields_assigned_when_absent_witness :
  same_business zhangSan (withSystem (Some 0%N) None (Some 0%N) zhangSan)
  /\ no_system_fields zhangSan
  /\ no_system_fields (withSystem (Some 0%N) None (Some 0%N) zhangSan)
  /\ CreateStudent hasAt InitDatabase 100%N
       (Some (withSystem (Some 0%N) None (Some 0%N) zhangSan))
     = (JSON StatusCreated
          [("message", VString "Student created successfully");
           ("data", VStudent zhangSanRow)], oneStudent)
  /\ (ID zhangSanRow = 1%N /\ CreatedAt zhangSanRow = 100%N
      /\ UpdatedAt zhangSanRow = 100%N
      /\ oneStudent = mkDB (rows InitDatabase ++ [zhangSanRow])%list 1%N)
  /\ (let given :=
        mkStudent 7 "Zhang San" 20 "男" "zs@example.com" "13800000000" "CS"
          "2023" 5%N 6%N None in
      Create InitDatabase 100%N
        (mkStudent 7 "Zhang San" 20 "男" "zs@example.com" "13800000000" "CS"
           "2023" 5%N 6%N None)
      = (inr given, mkDB [given] 7%N)
      /\ ID given = 7%N /\ CreatedAt given = 5%N /\ UpdatedAt given = 6%N
      /\ In given [given]).
Proof.
  assert (SB : same_business zhangSan
                 (withSystem (Some 0%N) None (Some 0%N) zhangSan)).
  { repeat split. }
  assert (N1 : no_system_fields zhangSan) by (repeat split).
  assert (N2 : no_system_fields (withSystem (Some 0%N) None (Some 0%N) zhangSan))
    by (repeat split).
  destruct (system_fields_assigned_when_absent hasAt InitDatabase 100%N
              _ _ SB N1 N2) as (Same & Absent & Given).
  split; [exact SB |]. split; [exact N1 |]. split; [exact N2 |].
  split; [rewrite <- Same; reflexivity |].
  split; [exact (Absent zhangSanBound zhangSanRow oneStudent eq_refl eq_refl) |].
  cbv zeta. split; [reflexivity |].
  exact (Given (withSystem (Some 7%N) (Some 5%N) (Some 6%N) zhangSan)
           _ _ (mkDB _ 7%N) eq_refl eq_refl).
Defined.

(** Two create requests on the empty table that differ only in [id],
    [created_at] and [updated_at]: the stored records differ in all three. *)
Lemma client_sets_system_fields :
  same_business zhangSan (withSystem (Some 7%N) (Some 5%N) (Some 6%N) zhangSan)
  /\ rows (snd (CreateStudent hasAt InitDatabase 100%N (Some zhangSan)))
     = [mkStudent 1 "Zhang San" 20 "男" "zs@example.com" "13800000000" "CS"
          "2023" 100%N 100%N None]
  /\ rows (snd (CreateStudent hasAt InitDatabase 100%N
                  (Some (withSystem (Some 7%N) (Some 5%N) (Some 6%N) zhangSan))))
     = [mkStudent 7 "Zhang San" 20 "男" "zs@example.com" "13800000000" "CS"
          "2023" 5%N 6%N None]
  /\ CreateStudent hasAt InitDatabase 100%N (Some zhangSan)
     <> CreateStudent hasAt InitDatabase 100%N
          (Some (withSystem (Some 7%N) (Some 5%N) (Some 6%N) zhangSan)).
Proof.
  split; [repeat split |]. split; [reflexivity |]. split; [reflexivity |].
  intros E. apply (f_equal (fun p => seq (snd p))) in E. discriminate E.
Qed.

Lemma update_age_only_rejected_witness :
  ParseUint "1" = Some 1%N
  /\ First oneStudent 1%N = inr zhangSanRow
  /\ UpdateStudent hasAt oneStudent 200%N "1" (Some ageOnly21)
     = (JSON StatusBadRequest
          [("error", VString "Invalid input data");
           ("message",
            VError (ErrValidation
              [mkFieldError "Name" "required"; mkFieldError "Gender" "required";
               mkFieldError "Email" "required"; mkFieldError "Phone" "required";
               mkFieldError "Major" "required"; mkFieldError "Grade" "required"]))],
        oneStudent).
Proof.
  split; [reflexivity |]. split; [reflexivity |].
  apply (update_age_only_rejected hasAt oneStudent 200%N "1" 1%N zhangSanRow);
    reflexivity.
Defined.

Lemma long_name_accepted_witness :
  hasAt "zs@example.com" = true
  /\ exists s',
       Name s' = longName
       /\ CreateStudent hasAt InitDatabase 100%N
            (Some (withName (Some longName) zhangSan))
          = (JSON StatusCreated
               [("message", VString "Student created successfully");
                ("data", VStudent s')],
             mkDB [s'] 1%N).
Proof.
  split; [reflexivity |].
  exact (proj2 (proj2 (long_name_accepted hasAt 100%N eq_refl))).
Defined.

Lemma search_and_composition_witness :
  wildcard_free "A" = true /\ wildcard_free "B" = true
  /\ nul_free "A" = true /\ nul_free "B" = true
  /\ short "A" = true /\ short "B" = true
  /\ readable fourStudents = true
  /\ SearchStudents fourStudents "A" "B" ""
     = JSON StatusOK
         [("data", VStudents (filter (matches "A" "B" "") (rows fourStudents)));
          ("count",
           VInt (List.length (filter (matches "A" "B" "") (rows fourStudents))))]
  /\ filter (matches "A" "B" "") (rows fourStudents) = [alice; dana].
Proof.
  do 7 (split; [reflexivity |]).
  split; [| reflexivity].
  exact (proj1 (search_and_composition fourStudents "A" "B" ""
                  eq_refl eq_refl eq_refl eq_refl eq_refl eq_refl eq_refl)).
Defined.

(** [name=A&major=B] on four records: Alice (Biology) and DANA (Robotics)
    match both filters, Carl (Chemistry) fails on the major, and anna
    (biochemistry) is soft-deleted. *)
Example search_A_B :
  data (SearchStudents fourStudents "A" "B" "") = [alice; dana]
  /\ data (SearchStudents fourStudents "a" "" "") = [alice; carl; dana]
  /\ data (SearchStudents fourStudents "a" "" "2023") = [alice]
  /\ data (GetAllStudents fourStudents) = [alice; carl; dana].
Proof. repeat split. Qed.

(** Where the search is not the case-insensitive substring test.  The
    filter [name=_] returns a record whose name has no underscore, and
    [name=%] one whose name has no percent sign: the value is a LIKE
    pattern.  A filter of 49999 bytes makes a pattern over the limit of
    LIKE and the answer is 500.  A stored name is matched up to its first
    NUL byte only.  After an update has set a key to [2^63] the live row
    cannot be read back and every search answers 500. *)
Lemma search_wildcards_match_more :
  data (SearchStudents oneStudent "_" "" "") = [zhangSanRow]
  /\ contains_ci "_" (Name zhangSanRow) = false
  /\ data (SearchStudents oneStudent "%" "" "") = [zhangSanRow]
  /\ contains_ci "%" (Name zhangSanRow) = false
  /\ filter (matches "_" "" "") (rows oneStudent) = []
  /\ SearchStudents oneStudent (replicate (N.to_nat 49999) "a") "" ""
     = JSON StatusInternalServerError
         [("error", VString "Failed to search students");
          ("message", VError ErrLikePattern)]
  /\ (Name nulRow = "a" ++ String "000" "b"
      /\ data (SearchStudents nulStudent "b" "" "") = [])
  /\ (reachable hasAt wrappedStudent
      /\ SearchStudents wrappedStudent "Zhang" "" ""
         = JSON StatusInternalServerError
             [("error", VString "Failed to search students");
              ("message", VError ErrScan)]).
Proof.
  do 5 (split; [reflexivity |]).
  split; [vm_compute; reflexivity |].
  split; [split; reflexivity |].
  split; [exact wrappedStudent_reachable | reflexivity].
Qed.

(** * Further properties of the handlers *)

(** ** Path ids *)

Lemma digits_all_digits s acc n : digits s acc = Some n -> all_digits s = true.
Proof.
  revert acc. induction s as [| c s IH]; intros acc; simpl; [reflexivity |].
  destruct (digit c); [apply IH | discriminate].
Qed.

Lemma ParseUint_Some param id :
  ParseUint param = Some id ->
  param <> "" /\ all_digits param = true /\ digits param 0%N = Some id
  /\ (id < 2 ^ 32)%N.
Proof.
  unfold ParseUint. destruct param as [| c s]; [discriminate |].
  destruct (digits (String c s) 0%N) as [n |] eqn:D; [| discriminate].
  destruct (N.ltb_spec n (2 ^ 32)); [| discriminate].
  intros E; inversion E; subst.
  repeat split; auto; [discriminate | exact (digits_all_digits _ _ _ D)].
Qed.




(** *** The numeral of a number *)

Lemma digit_of_N d : (d < 10)%N -> digit (ascii_of_N (48 + d)) = Some d.
Proof.
  intros L. unfold digit. rewrite byte_ascii_of_N by lia.
  destruct (N.leb_spec 48 (48 + d)); [| lia].
  destruct (N.leb_spec (48 + d) 57); [| lia].
  cbn [andb]. f_equal. lia.
Qed.

Lemma digits_cons c s acc :
  digits (String c s) acc
  = match digit c with
    | Some d => digits s (10 * acc + d)%N
    | None => None
    end.
Proof. reflexivity. Qed.

Lemma decimal_digits_S fuel n acc :
  decimal_digits (S fuel) n acc
  = if (n / 10 =? 0)%N then String (ascii_of_N (48 + n mod 10)) acc
    else decimal_digits fuel (n / 10) (String (ascii_of_N (48 + n mod 10)) acc).
Proof. reflexivity. Qed.

Lemma digits_decimal_digits fuel n acc :
  (n < 10 ^ N.of_nat fuel)%N ->
  exists L, forall a,
    digits (decimal_digits fuel n acc) a = digits acc (a * 10 ^ L + n)%N.
Proof.
  revert n acc. induction fuel as [| fuel IH]; intros n acc Hn.
  - exists 0%N. intros a. simpl in *. f_equal. lia.
  - assert (M : (n mod 10 < 10)%N) by (apply N.mod_lt; lia).
    pose proof (N.div_mod n 10 ltac:(lia)) as DM.
    rewrite decimal_digits_S. destruct (N.eqb_spec (n / 10) 0) as [Z | NZ].
    + exists 1%N. intros a. rewrite digits_cons, (digit_of_N _ M).
      f_equal. lia.
    + assert (Hq : (n / 10 < 10 ^ N.of_nat fuel)%N).
      { apply N.Div0.div_lt_upper_bound.
        rewrite Nat2N.inj_succ, N.pow_succ_r' in Hn. exact Hn. }
      destruct (IH (n / 10)%N (String (ascii_of_N (48 + n mod 10)) acc) Hq)
        as (L & HL).
      exists (L + 1)%N. intros a. rewrite HL, digits_cons, (digit_of_N _ M).
      f_equal. rewrite N.pow_add_r. lia.
Qed.

Lemma decimal_digits_cons fuel n c acc :
  exists c' s', decimal_digits fuel n (String c acc) = String c' s'.
Proof.
  revert n c acc. induction fuel as [| fuel IH]; intros n c acc;
    [simpl; eauto |].
  rewrite decimal_digits_S. destruct (n / 10 =? 0)%N; [eauto | apply IH].
Qed.

Lemma decimal_not_empty n : decimal n <> "".
Proof.
  unfold decimal. rewrite decimal_digits_S.
  destruct (n / 10 =? 0)%N; [discriminate |].
  destruct (decimal_digits_cons 19 (n / 10) (ascii_of_N (48 + n mod 10)) "")
    as (c & s & ->).
  discriminate.
Qed.

(** Parsing the numeral of [n] gives [n] back when [n] is below [2^32],
    and fails from there on. *)
Lemma ParseUint_decimal n :
  (n < 2 ^ 64)%N ->
  ParseUint (decimal n) = if (n <? 2 ^ 32)%N then Some n else None.
Proof.
  intros Hn. unfold ParseUint.
  pose proof (decimal_not_empty n) as NE.
  assert (D : digits (decimal n) 0%N = Some n).
  { destruct (digits_decimal_digits 20 n "") as (L & HL).
    - change (10 ^ N.of_nat 20)%N with 100000000000000000000%N.
      change (2 ^ 64)%N with 18446744073709551616%N in Hn. lia.
    - unfold decimal. rewrite HL. reflexivity. }
  destruct (decimal n) as [| c s]; [contradiction |].
  rewrite D. reflexivity.
Qed.



(** ** Lookup by id *)

(** X2 -- For an id that parses, [GetStudentByID] answers 200 exactly when
    the table has a live row with that primary key; the student it returns
    is a row of the table, carries the requested id and is not
    soft-deleted; otherwise the answer is 404 "Student not found". *)
Theorem get_by_id_spec (db : DB) (param : string) (id : N) :
  ParseUint param = Some id ->
  ((exists r, In r (rows db) /\ ID r = id /\ live r = true) <->
   code (GetStudentByID db param) = StatusOK)
  /\ (forall s,
        data (GetStudentByID db param) = [s] ->
        In s (rows db) /\ ID s = id /\ DeletedAt s = None)
  /\ (code (GetStudentByID db param) <> StatusOK ->
      GetStudentByID db param
      = JSON StatusNotFound [("error", VString "Student not found")]).
Proof.
  intros P. unfold GetStudentByID. rewrite P.
  pose proof (small_id_fits _ (ParseUint_lt _ _ P)) as Fit.
  destruct (First db id) as [e | s0] eqn:F.
  - split; [| split].
    + split; [| discriminate]. intros (r & I & E & L).
      destruct (First_some db id r I E L Fit) as [s Fs]. congruence.
    + simpl. discriminate.
    + reflexivity.
  - apply First_inr in F as (I & E & L). split; [| split].
    + split; [reflexivity | eauto].
    + simpl. intros s Es. inversion Es; subst s0.
      repeat split; auto. unfold live in L.
      destruct (DeletedAt s); [discriminate | reflexivity].
    + simpl. intros NE. destruct (NE eq_refl).
Qed.

Lemma get_by_id_spec_witness :
  ParseUint "2" = Some 2%N
  /\ code (GetStudentByID fourStudents "2") = StatusOK
  /\ (forall s, data (GetStudentByID fourStudents "2") = [s] -> ID s = 2%N).
Proof.
  destruct (get_by_id_spec fourStudents "2" 2%N eq_refl) as (A & B & _).
  split; [reflexivity |]. split.
  - apply A. exists carl. repeat split. right. left. reflexivity.
  - intros s Es. exact (proj1 (proj2 (B s Es))).
Defined.

(** ** Failed writes *)

Lemma Create_inl db now s e db' : Create db now s = (inl e, db') -> db' = db.
Proof.
  unfold Create.
  repeat match goal with
         | |- context [if ?c then _ else _] => destruct c
         end; intros E; inversion E; reflexivity.
Qed.

Lemma Updates_inl db now student u e db' :
  Updates db now student u = (inl e, db') -> db' = db.
Proof.
  unfold Updates.
  destruct (ID student =? 0)%N; [intros E; inversion E; reflexivity |].
  destruct (find (target student) (rows db)); [| discriminate].
  destruct (id_taken _ _); [intros E; inversion E; reflexivity |].
  destruct (email_taken _ _); [intros E; inversion E; reflexivity |].
  discriminate.
Qed.

Lemma Delete_inl db now student e db' :
  Delete db now student = (inl e, db') -> db' = db.
Proof.
  unfold Delete. destruct (ID student =? 0)%N; intros E; inversion E; reflexivity.
Qed.

(** X3 -- A handler changes the table only when it answers with its
    success status: [CreateStudent] that does not answer 201, and
    [UpdateStudent] or [DeleteStudent] that do not answer 200, return the
    table they were given. *)
Theorem writes_only_on_success (isEmail : string -> bool)
  (db : DB) (now : Time) (param : string) (body : option JSONBody) :
  (forall resp db',
     CreateStudent isEmail db now body = (resp, db') ->
     code resp <> StatusCreated -> db' = db)
  /\ (forall resp db',
        UpdateStudent isEmail db now param body = (resp, db') ->
        code resp <> StatusOK -> db' = db)
  /\ (forall resp db',
        DeleteStudent db now param = (resp, db') ->
        code resp <> StatusOK -> db' = db).
Proof.
  split; [| split]; intros resp db'.
  - unfold CreateStudent.
    destruct (ShouldBindJSON isEmail body) as [e | s];
      [intros E; inversion E; reflexivity |].
    destruct (Create db now s) as [[e | s'] d] eqn:C; intros E; inversion E; subst.
    + intros _. exact (Create_inl _ _ _ _ _ C).
    + intros NE. destruct (NE eq_refl).
  - unfold UpdateStudent.
    destruct (ParseUint param); [| intros E; inversion E; reflexivity].
    destruct (First db n); [intros E; inversion E; reflexivity |].
    destruct (ShouldBindJSON isEmail body) as [e | u];
      [intros E; inversion E; reflexivity |].
    destruct (Updates db now s u) as [[e | s'] d] eqn:C; intros E; inversion E; subst.
    + intros _. exact (Updates_inl _ _ _ _ _ _ C).
    + intros NE. destruct (NE eq_refl).
  - unfold DeleteStudent.
    destruct (ParseUint param); [| intros E; inversion E; reflexivity].
    destruct (First db n); [intros E; inversion E; reflexivity |].
    destruct (Delete db now s) as [[e | []] d] eqn:C; intros E; inversion E; subst.
    + intros _. exact (Delete_inl _ _ _ _ _ C).
    + intros NE. destruct (NE eq_refl).
Qed.

Lemma writes_only_on_success_witness :
  CreateStudent hasAt oneStudent 200%N (Some zhangSan)
  = (fst (CreateStudent hasAt oneStudent 200%N (Some zhangSan)), oneStudent)
  /\ code (fst (CreateStudent hasAt oneStudent 200%N (Some zhangSan)))
     <> StatusCreated
  /\ snd (CreateStudent hasAt oneStudent 200%N (Some zhangSan)) = oneStudent.
Proof.
  assert (NE : code (fst (CreateStudent hasAt oneStudent 200%N (Some zhangSan)))
               <> StatusCreated) by (simpl; discriminate).
  split; [reflexivity |]. split; [exact NE |].
  exact (proj1 (writes_only_on_success hasAt oneStudent 200%N "1" (Some zhangSan))
           _ _ (surjective_pairing _) NE).
Defined.

(** ** Order and width of the keys *)

Lemma unmarshal_inr b s :
  unmarshal b = inr s ->
  s = mkStudent (opt 0%N (j_id b)) (opt "" (j_name b)) (opt 0%Z (j_age b))
        (opt "" (j_gender b)) (opt "" (j_email b)) (opt "" (j_phone b))
        (opt "" (j_major b)) (opt "" (j_grade b))
        (opt 0%N (j_created_at b)) (opt 0%N (j_updated_at b)) None.
Proof.
  unfold unmarshal.
  destruct (_ <=? _)%N; [discriminate |].
  destruct (_ || _); [discriminate |].
  intros E; inversion E; reflexivity.
Qed.

(** A bound [ID] is a [uint]. *)
Lemma bound_uint isEmail body s :
  ShouldBindJSON isEmail body = inr s -> (ID s < 2 ^ 64)%N.
Proof.
  destruct body as [b |]; [| discriminate]. intros B.
  apply ShouldBindJSON_inr in B as [U _]. unfold unmarshal in U.
  destruct (N.leb_spec (2 ^ 64) (opt 0%N (j_id b))) as [| Lt]; [discriminate |].
  destruct (_ || _); [discriminate |].
  inversion U; subst. exact Lt.
Qed.

Lemma uint_ids_Forall l :
  uint_ids l = true <-> forall r, In r l -> (ID r < 2 ^ 64)%N.
Proof.
  unfold uint_ids. rewrite forallb_forall.
  split; intros K r I; [apply N.ltb_lt | apply N.ltb_lt]; auto.
Qed.

Lemma sorted_rows_Sorted l :
  sorted_rows l = true <->
  StronglySorted (fun a b => (rowid (ID a) < rowid (ID b))%Z) l.
Proof.
  induction l as [| a l IH]; simpl.
  - split; [constructor | reflexivity].
  - rewrite andb_true_iff, forallb_forall, IH. split.
    + intros [F S]. constructor; [exact S |].
      apply Forall_forall. intros q I. apply Z.ltb_lt. auto.
    + intros S. inversion S as [| ? ? S' F]; subst. split; [| exact S'].
      intros q I. apply Z.ltb_lt. exact (proj1 (Forall_forall _ _) F q I).
Qed.

(** The order and the width depend on the keys alone. *)
Lemma sorted_rows_keys l l' :
  map ID l = map ID l' -> sorted_rows l = sorted_rows l'.
Proof.
  revert l'. induction l as [| a l IH]; intros [| b l'] E; try discriminate;
    [reflexivity |].
  simpl in E. injection E as Ea El. simpl. rewrite (IH _ El), Ea. f_equal.
  clear - El. revert l' El.
  induction l as [| c l IH]; intros [| d l'] E; try discriminate;
    [reflexivity |].
  simpl in E. injection E as Ec El. simpl. rewrite Ec, (IH _ El). reflexivity.
Qed.

Lemma uint_ids_keys l l' : map ID l = map ID l' -> uint_ids l = uint_ids l'.
Proof.
  revert l'.
  induction l as [| a l IH]; intros [| b l'] E; try discriminate;
    [reflexivity |].
  simpl in E. injection E as Ea El.
  change (uint_ids (a :: l)) with ((ID a <? 2 ^ 64)%N && uint_ids l).
  change (uint_ids (b :: l')) with ((ID b <? 2 ^ 64)%N && uint_ids l').
  rewrite Ea, (IH _ El). reflexivity.
Qed.

Lemma sorted_rows_insert s l :
  sorted_rows l = true ->
  (forall r, In r l -> rowid (ID r) <> rowid (ID s)) ->
  sorted_rows (insert_row s l) = true.
Proof.
  rewrite !sorted_rows_Sorted. intros S. induction S as [| a l S IH F]; intros D.
  - simpl. constructor; constructor.
  - simpl. destruct (Z.ltb_spec (rowid (ID s)) (rowid (ID a))) as [Lt | Ge].
    + constructor; [constructor; assumption |].
      constructor; [exact Lt |].
      apply Forall_forall. intros q I.
      pose proof (proj1 (Forall_forall _ _) F q I) as Fq. cbv beta in Fq. lia.
    + assert (Ne := D a (or_introl eq_refl)).
      constructor.
      * apply IH. intros r I. apply D. right. exact I.
      * apply Forall_forall. intros q I. apply insert_row_In in I as [-> | I].
        -- lia.
        -- exact (proj1 (Forall_forall _ _) F q I).
Qed.

Lemma sorted_rows_remove l1 r l2 :
  sorted_rows (l1 ++ r :: l2) = true -> sorted_rows (l1 ++ l2) = true.
Proof.
  rewrite !sorted_rows_Sorted. induction l1 as [| a l1 IH]; simpl; intros S.
  - inversion S; assumption.
  - inversion S as [| ? ? S' F]; subst. constructor; [exact (IH S') |].
    apply Forall_app in F as [F1 F2]. apply Forall_app. split; [exact F1 |].
    inversion F2; assumption.
Qed.

Lemma id_taken_false l id r :
  id_taken l id = false -> In r l -> ID r <> id.
Proof.
  unfold id_taken. intros T I E.
  assert (X : existsb (fun r => (ID r =? id)%N) l = true).
  { apply existsb_exists. exists r. split; [exact I | apply N.eqb_eq; exact E]. }
  congruence.
Qed.

(** Distinct keys of 64 bits are distinct rowids. *)
Lemma rowid_fresh l s :
  uint_ids l = true -> (ID s < 2 ^ 64)%N -> id_taken l (ID s) = false ->
  forall r, In r l -> rowid (ID r) <> rowid (ID s).
Proof.
  intros U Hs T r I E.
  apply (id_taken_false _ _ _ T I).
  apply rowid_inj; [exact (proj1 (uint_ids_Forall _) U r I) | exact Hs | exact E].
Qed.

Lemma uint_ids_insert s l :
  uint_ids l = true -> (ID s < 2 ^ 64)%N -> uint_ids (insert_row s l) = true.
Proof.
  rewrite !uint_ids_Forall. intros U Hs r I.
  apply insert_row_In in I as [-> | I]; auto.
Qed.

Lemma Create_keys db now s :
  (ID s < 2 ^ 64)%N ->
  uint_ids (rows db) = true -> sorted_rows (rows db) = true ->
  uint_ids (rows (snd (Create db now s))) = true
  /\ sorted_rows (rows (snd (Create db now s))) = true.
Proof.
  intros Hs U S. destruct (Create db now s) as [[e | s'] d] eqn:C.
  - rewrite (Create_inl _ _ _ _ _ C). auto.
  - apply Create_inr in C as (Es & -> & T & _ & P & L). simpl.
    assert (Hs' : (ID s' < 2 ^ 64)%N).
    { rewrite Es. simpl. destruct (ID s =? 0)%N; [| exact Hs].
      specialize (L eq_refl). unfold maxRowid in L.
      change (2 ^ 64)%N with 18446744073709551616%N.
      change (2 ^ 63 - 1)%N with 9223372036854775807%N in L. lia. }
    split; [apply uint_ids_insert; assumption |].
    apply sorted_rows_insert; [exact S |].
    apply rowid_fresh; assumption.
Qed.

Lemma Updates_keys db now student u :
  (ID u < 2 ^ 64)%N -> consistent db = true ->
  uint_ids (rows db) = true -> sorted_rows (rows db) = true ->
  uint_ids (rows (snd (Updates db now student u))) = true
  /\ sorted_rows (rows (snd (Updates db now student u))) = true.
Proof.
  intros Hu C U S. apply consistent_parts in C as (Uq & _ & _).
  destruct (Updates db now student u) as [[e | s'] d] eqn:Up.
  - rewrite (Updates_inl _ _ _ _ _ _ Up). auto.
  - simpl. apply (Updates_rows _ _ _ _ _ _ Uq) in Up as (_ & [(Er & _) | Hr]).
    + rewrite Er. auto.
    + destruct Hr as (l1 & r & l2 & Er & Eid & L & T1 & _ & _ & Er').
      rewrite Er in U, S. rewrite Er'.
      assert (U0 : uint_ids (l1 ++ l2) = true).
      { apply uint_ids_Forall. intros q I.
        apply (proj1 (uint_ids_Forall _) U).
        apply in_app_or in I as [I | I]; apply in_or_app; [left | right; right];
          exact I. }
      assert (Hr' : (ID (assign now u r) < 2 ^ 64)%N).
      { simpl. destruct (ID u =? 0)%N; [| exact Hu].
        apply (proj1 (uint_ids_Forall _) U). apply in_or_app. right. left.
        reflexivity. }
      destruct (N.eqb_spec (ID (assign now u r)) (ID r)) as [Same | Diff].
      * assert (K : map ID (l1 ++ assign now u r :: l2) = map ID (l1 ++ r :: l2)).
        { rewrite !map_app, !map_cons, Same. reflexivity. }
        rewrite (uint_ids_keys _ _ K), (sorted_rows_keys _ _ K). auto.
      * split; [apply uint_ids_insert; assumption |].
        apply sorted_rows_insert; [exact (sorted_rows_remove _ _ _ S) |].
        apply rowid_fresh; assumption.
Qed.

Lemma Delete_keys db now student :
  map ID (rows (snd (Delete db now student))) = map ID (rows db).
Proof.
  unfold Delete. destruct (ID student =? 0)%N; [reflexivity |].
  simpl. rewrite map_map. apply map_ext. intros q.
  destruct (target student q); reflexivity.
Qed.

Lemma handlers_keep_keys isEmail db now param body :
  consistent db = true ->
  uint_ids (rows db) = true -> sorted_rows (rows db) = true ->
  (uint_ids (rows (snd (CreateStudent isEmail db now body))) = true
   /\ sorted_rows (rows (snd (CreateStudent isEmail db now body))) = true)
  /\ (uint_ids (rows (snd (UpdateStudent isEmail db now param body))) = true
      /\ sorted_rows (rows (snd (UpdateStudent isEmail db now param body))) = true)
  /\ (uint_ids (rows (snd (DeleteStudent db now param))) = true
      /\ sorted_rows (rows (snd (DeleteStudent db now param))) = true).
Proof.
  intros C U S. split; [| split].
  - unfold CreateStudent.
    destruct (ShouldBindJSON isEmail body) as [e | s] eqn:B; [auto |].
    pose proof (Create_keys db now s (bound_uint _ _ _ B) U S) as K.
    destruct (Create db now s) as [[e | s'] d]; exact K.
  - unfold UpdateStudent.
    destruct (ParseUint param); [| auto].
    destruct (First db n) as [e | student]; [auto |].
    destruct (ShouldBindJSON isEmail body) as [e | u] eqn:B; [auto |].
    pose proof (Updates_keys db now student u (bound_uint _ _ _ B) C U S) as K.
    destruct (Updates db now student u) as [[e | s'] d]; exact K.
  - unfold DeleteStudent.
    destruct (ParseUint param); [| auto].
    destruct (First db n) as [e | student]; [auto |].
    pose proof (Delete_keys db now student) as K.
    destruct (Delete db now student) as [[e | []] d]; simpl in *;
      rewrite (uint_ids_keys _ _ K), (sorted_rows_keys _ _ K); auto.
Qed.

(** In every table the service can reach the keys are [uint]s and the
    rows are in the order of their rowids. *)
Lemma reachable_keys isEmail db :
  reachable isEmail db ->
  uint_ids (rows db) = true /\ sorted_rows (rows db) = true.
Proof.
  intros R. induction R as [| db now body R [U S] | db now param body R [U S]
                              | db now param R [U S]].
  - split; reflexivity.
  - exact (proj1 (handlers_keep_keys isEmail db now "" body
                    (reachable_consistent _ _ R) U S)).
  - exact (proj1 (proj2 (handlers_keep_keys isEmail db now param body
                           (reachable_consistent _ _ R) U S))).
  - exact (proj2 (proj2 (handlers_keep_keys isEmail db now param None
                           (reachable_consistent _ _ R) U S))).
Qed.

(** ** Create, then read *)

Lemma CreateStudent_created isEmail db now body resp db' :
  CreateStudent isEmail db now body = (resp, db') ->
  code resp = StatusCreated ->
  exists b s s',
    body = Some b /\ ShouldBindJSON isEmail (Some b) = inr s
    /\ Create db now s = (inr s', db')
    /\ resp = JSON StatusCreated
                [("message", VString "Student created successfully");
                 ("data", VStudent s')].
Proof.
  unfold CreateStudent.
  destruct (ShouldBindJSON isEmail body) as [e | s] eqn:B;
    [intros E; inversion E; subst; discriminate |].
  destruct body as [b |]; [| discriminate].
  destruct (Create db now s) as [[e | s'] d] eqn:C;
    intros E; inversion E; subst; [discriminate |].
  intros _. exists b, s, s'. auto.
Qed.

(** The key of an inserted row was not in the table, and is not [0]. *)
Lemma Create_key_fresh db now s s' db' :
  Create db now s = (inr s', db') ->
  id_taken (rows db) (ID s') = false /\ ID s' <> 0%N.
Proof.
  intros C. apply Create_inr in C as (Es & _ & T & _ & _ & _).
  split; [exact T |]. rewrite Es. simpl.
  destruct (N.eqb_spec (ID s) 0); [lia | assumption].
Qed.

Lemma find_unique {A} (p : A -> bool) l x :
  In x l -> p x = true -> (forall r, In r l -> p r = true -> r = x) ->
  find p l = Some x.
Proof.
  intros I P U. destruct (find p l) as [r |] eqn:F.
  - apply find_some in F as [Ir Pr]. rewrite (U r Ir Pr). reflexivity.
  - rewrite (find_none _ _ F x I) in P. discriminate.
Qed.

(** [First] on the key of a live row that is the only one with its key. *)
Lemma First_found db x :
  In x (rows db) -> live x = true -> scans x = true ->
  (forall r, In r (rows db) -> ID r = ID x -> r = x) ->
  First db (ID x) = inr x.
Proof.
  intros I L S U. unfold First.
  rewrite (find_unique _ _ x I).
  - rewrite S. reflexivity.
  - rewrite N.eqb_refl, L. reflexivity.
  - intros r Ir Pr. apply andb_true_iff in Pr as [E _].
    apply N.eqb_eq in E. exact (U r Ir E).
Qed.

Lemma First_inserted l sq x :
  id_taken l (ID x) = false -> live x = true -> scans x = true ->
  First (mkDB (insert_row x l) sq) (ID x) = inr x.
Proof.
  intros T L S. apply First_found; simpl; auto.
  - apply insert_row_In. left. reflexivity.
  - intros r I E. apply insert_row_In in I as [-> | I]; [reflexivity |].
    destruct (id_taken_false _ _ _ T I E).
Qed.

(** What a 201 of [CreateStudent] says about the student and the table. *)
Lemma CreateStudent_stored isEmail db now body resp db' :
  CreateStudent isEmail db now body = (resp, db') ->
  code resp = StatusCreated ->
  exists b s s',
    body = Some b /\ unmarshal b = inr s
    /\ Create db now s = (inr s', db')
    /\ data resp = [s']
    /\ (same_fields s' s /\ DeletedAt s' = None)
    /\ live s' = true /\ scans s' = true /\ (ID s' < 2 ^ 64)%N
    /\ db' = mkDB (insert_row s' (rows db)) (seq db').
Proof.
  intros C OK.
  destruct (CreateStudent_created _ _ _ _ _ _ C OK)
    as (b & s & s' & -> & B & Cr & ->).
  pose proof (bound_uint _ _ _ B) as Hs.
  apply ShouldBindJSON_inr in B as [U _].
  pose proof (unmarshal_inr _ _ U) as Eu.
  pose proof (Create_inr _ _ _ _ _ Cr) as (Es & Ed & T & _ & P & L).
  exists b, s, s'. repeat split; auto; try (rewrite Es; reflexivity).
  - rewrite Es, Eu. reflexivity.
  - rewrite Es, Eu. reflexivity.
  - unfold scans. apply Z.leb_le. exact P.
  - rewrite Es. simpl. destruct (ID s =? 0)%N; [| exact Hs].
    specialize (L eq_refl). unfold maxRowid in L.
    change (2 ^ 64)%N with 18446744073709551616%N.
    change (2 ^ 63 - 1)%N with 9223372036854775807%N in L. lia.
  - rewrite Ed. reflexivity.
Qed.

(** X4 -- Create, then get.  When [CreateStudent] answers 201, the student
    in the answer carries the seven business members of the request body
    (an absent member as the zero value) and is not soft-deleted.
    [GetStudentByID] on the new table answers 200 with exactly that student
    for any path id that parses to the student's id; when the id is below
    [2^32] its numeral is such a path, and when the id is [2^32] or more
    (it was given in the body) no path makes [GetStudentByID] return the
    student. *)
Theorem get_after_create (isEmail : string -> bool)
  (db : DB) (now : Time) (body : option JSONBody) (resp : Response) (db' : DB) :
  CreateStudent isEmail db now body = (resp, db') ->
  code resp = StatusCreated ->
  exists b s',
    body = Some b /\ data resp = [s']
    /\ Name s' = opt "" (j_name b) /\ Age s' = opt 0%Z (j_age b)
    /\ Gender s' = opt "" (j_gender b) /\ Email s' = opt "" (j_email b)
    /\ Phone s' = opt "" (j_phone b) /\ Major s' = opt "" (j_major b)
    /\ Grade s' = opt "" (j_grade b) /\ DeletedAt s' = None
    /\ (forall param,
          ParseUint param = Some (ID s') ->
          GetStudentByID db' param = JSON StatusOK [("data", VStudent s')])
    /\ ((ID s' < 2 ^ 32)%N ->
        GetStudentByID db' (decimal (ID s'))
        = JSON StatusOK [("data", VStudent s')])
    /\ ((2 ^ 32 <= ID s')%N ->
        forall param, data (GetStudentByID db' param) <> [s']).
Proof.
  intros C OK.
  destruct (CreateStudent_stored _ _ _ _ _ _ C OK)
    as (b & s & s' & -> & U & Cr & D & (F & Fd) & L & Sc & H64 & Ed).
  pose proof (Create_key_fresh _ _ _ _ _ Cr) as [T _].
  apply unmarshal_inr in U. subst s.
  destruct F as (F1 & F2 & F3 & F4 & F5 & F6 & F7).
  cbn [Name Age Gender Email Phone Major Grade] in F1, F2, F3, F4, F5, F6, F7.
  assert (G : forall param,
            ParseUint param = Some (ID s') ->
            GetStudentByID db' param = JSON StatusOK [("data", VStudent s')]).
  { intros param P. unfold GetStudentByID. rewrite P, Ed.
    rewrite First_inserted; auto. }
  exists b, s'. repeat split; auto.
  - intros Lt. apply G. rewrite (ParseUint_decimal _ H64).
    apply N.ltb_lt in Lt. rewrite Lt. reflexivity.
  - intros Ge param Dp. unfold GetStudentByID in Dp.
    destruct (ParseUint param) as [id |] eqn:P; [| discriminate Dp].
    apply ParseUint_lt in P.
    destruct (First db' id) as [e | r] eqn:F; [discriminate Dp |].
    apply First_inr in F as (_ & Er & _). simpl in Dp.
    injection Dp as Dp. rewrite Dp in Er. simpl in Er. lia.
Qed.

Lemma get_after_create_witness :
  CreateStudent hasAt oneStudent 200%N (Some liSi)
  = (JSON StatusCreated
       [("message", VString "Student created successfully");
        ("data", VStudent liSiRow)], twoStudents)
  /\ GetStudentByID twoStudents "2" = JSON StatusOK [("data", VStudent liSiRow)]
  /\ GetStudentByID twoStudents (decimal 2)
     = JSON StatusOK [("data", VStudent liSiRow)]
  /\ CreateStudent hasAt InitDatabase 100%N (Some wangWu)
     = (JSON StatusCreated
          [("message", VString "Student created successfully");
           ("data", VStudent wangWuRow)], bigStudent)
  /\ (forall param, data (GetStudentByID bigStudent param) <> [wangWuRow]).
Proof.
  destruct (get_after_create hasAt oneStudent 200%N (Some liSi) _ twoStudents
              eq_refl eq_refl)
    as (b & s' & Eb & Ds & _ & _ & _ & _ & _ & _ & _ & _ & G & Gd & _).
  injection Ds as <-.
  destruct (get_after_create hasAt InitDatabase 100%N (Some wangWu) _ bigStudent
              eq_refl eq_refl)
    as (b2 & s2 & _ & Ds2 & _ & _ & _ & _ & _ & _ & _ & _ & _ & _ & No).
  injection Ds2 as <-.
  split; [reflexivity |]. split; [exact (G "2" eq_refl) |].
  split; [apply Gd; reflexivity |]. split; [reflexivity |].
  apply No. vm_compute. discriminate.
Defined.

(** *** Where the new row is stored *)

Lemma insert_row_first s l :
  (forall r, In r l -> (rowid (ID s) < rowid (ID r))%Z) ->
  insert_row s l = s :: l.
Proof.
  destruct l as [| a l]; [reflexivity |]. intros Hl. simpl.
  destruct (Z.ltb_spec (rowid (ID s)) (rowid (ID a))); [reflexivity |].
  specialize (Hl a (or_introl eq_refl)). lia.
Qed.

(** Selecting from a table in key order and inserting a selected row
    commute. *)
Lemma filter_insert_row p s l :
  sorted_rows l = true -> p s = true ->
  filter p (insert_row s l) = insert_row s (filter p l).
Proof.
  rewrite sorted_rows_Sorted. intros S Ps.
  induction S as [| a l S IH F]; simpl.
  - rewrite Ps. reflexivity.
  - destruct (Z.ltb_spec (rowid (ID s)) (rowid (ID a))) as [Lt | Ge].
    + change (filter p (s :: a :: l)) with
        (if p s then s :: filter p (a :: l) else filter p (a :: l)).
      rewrite Ps. symmetry. apply insert_row_first.
      intros r I. apply filter_In in I as [I _]. destruct I as [<- | I]; [exact Lt |].
      pose proof (proj1 (Forall_forall _ _) F r I) as Fr. cbv beta in Fr. lia.
    + simpl. destruct (p a).
      * simpl. destruct (Z.ltb_spec (rowid (ID s)) (rowid (ID a))); [lia |].
        rewrite IH. reflexivity.
      * exact IH.
Qed.

Lemma readable_insert s l sq sq' :
  live s = true -> scans s = true ->
  readable (mkDB (insert_row s l) sq') = readable (mkDB l sq).
Proof.
  intros L S. unfold readable. simpl.
  apply eq_true_iff_eq. rewrite !forallb_forall. split.
  - intros K r I. apply K, insert_row_In. right. exact I.
  - intros K r I. apply insert_row_In in I as [-> | I]; [| exact (K r I)].
    rewrite L, S. reflexivity.
Qed.

(** X5 -- A successful [CreateStudent] adds one row and touches no other.
    In a table the service can reach the new student is stored at the place
    of its key: behind every row with a smaller key and before every row
    with a larger one, so that the rows stay in key order.  Without an id
    in the body that place is the end of the table.  When the live rows of
    the table can be read back, [GetAllStudents] answers with the old list
    and the new student at the place of its key. *)
Theorem create_appends (isEmail : string -> bool)
  (db : DB) (now : Time) (body : option JSONBody) (resp : Response) (db' : DB) :
  reachable isEmail db ->
  CreateStudent isEmail db now body = (resp, db') ->
  code resp = StatusCreated ->
  exists b s',
    body = Some b /\ data resp = [s']
    /\ rows db' = insert_row s' (rows db)
    /\ (forall r, In r (rows db') <-> r = s' \/ In r (rows db))
    /\ sorted_rows (rows db') = true
    /\ (opt 0%N (j_id b) = 0%N -> rows db' = (rows db ++ [s'])%list)
    /\ (readable db = true ->
        data (GetAllStudents db') = insert_row s' (data (GetAllStudents db))
        /\ (opt 0%N (j_id b) = 0%N ->
            data (GetAllStudents db')
            = (data (GetAllStudents db) ++ [s'])%list)).
Proof.
  intros R C OK.
  destruct (reachable_keys _ _ R) as [U S].
  destruct (CreateStudent_stored _ _ _ _ _ _ C OK)
    as (b & s & s' & -> & Un & Cr & D & _ & L & Sc & H64 & Ed).
  pose proof (Create_key_fresh _ _ _ _ _ Cr) as [T _].
  apply unmarshal_system in Un as (Ui & _ & _).
  assert (Er : rows db' = insert_row s' (rows db)) by (rewrite Ed; reflexivity).
  assert (Auto : opt 0%N (j_id b) = 0%N -> rows db' = (rows db ++ [s'])%list).
  { intros Z. rewrite <- Ui in Z.
    rewrite (Create_inr_auto _ _ _ _ _ Cr Z). reflexivity. }
  exists b, s'. split; [reflexivity |]. split; [exact D |].
  split; [exact Er |]. split; [| split; [| split; [exact Auto |]]].
  - intros r. rewrite Er. apply insert_row_In.
  - rewrite Er. apply sorted_rows_insert; [exact S |].
    apply rowid_fresh; assumption.
  - intros Rd.
    assert (Rd' : readable db' = true).
    { rewrite Ed, (readable_insert _ _ (seq db) _ L Sc). destruct db. exact Rd. }
    rewrite !GetAllStudents_data, Rd, Rd'. split.
    + rewrite Er. apply filter_insert_row; assumption.
    + intros Z. rewrite (Auto Z), filter_app. simpl. rewrite L. reflexivity.
Qed.

Lemma create_appends_witness :
  reachable hasAt (mkDB [mkStudent 7 "Zhang San" 20 "男" "zs@example.com"
                           "13800000000" "CS" "2023" 100%N 100%N None] 7%N)
  /\ CreateStudent hasAt
       (mkDB [mkStudent 7 "Zhang San" 20 "男" "zs@example.com" "13800000000"
                "CS" "2023" 100%N 100%N None] 7%N)
       200%N (Some (withSystem (Some 3%N) None None liSi))
     = (JSON StatusCreated
          [("message", VString "Student created successfully");
           ("data",
            VStudent (mkStudent 3 "Li Si" 22 "女" "ls@example.com"
                        "13900000000" "Math" "2022" 200%N 200%N None))],
        mkDB [mkStudent 3 "Li Si" 22 "女" "ls@example.com" "13900000000"
                "Math" "2022" 200%N 200%N None;
              mkStudent 7 "Zhang San" 20 "男" "zs@example.com" "13800000000"
                "CS" "2023" 100%N 100%N None] 7%N)
  /\ data (GetAllStudents
             (mkDB [mkStudent 3 "Li Si" 22 "女" "ls@example.com" "13900000000"
                      "Math" "2022" 200%N 200%N None;
                    mkStudent 7 "Zhang San" 20 "男" "zs@example.com"
                      "13800000000" "CS" "2023" 100%N 100%N None] 7%N))
     = insert_row
         (mkStudent 3 "Li Si" 22 "女" "ls@example.com" "13900000000" "Math"
            "2022" 200%N 200%N None)
         (data (GetAllStudents
                  (mkDB [mkStudent 7 "Zhang San" 20 "男" "zs@example.com"
                           "13800000000" "CS" "2023" 100%N 100%N None] 7%N)))
  /\ rows (snd (CreateStudent hasAt oneStudent 200%N (Some liSi)))
     = (rows oneStudent ++ [liSiRow])%list.
Proof.
  assert (R7 : reachable hasAt
                 (mkDB [mkStudent 7 "Zhang San" 20 "男" "zs@example.com"
                          "13800000000" "CS" "2023" 100%N 100%N None] 7%N)).
  { change (mkDB [mkStudent 7 "Zhang San" 20 "男" "zs@example.com"
                    "13800000000" "CS" "2023" 100%N 100%N None] 7%N)
      with (snd (CreateStudent hasAt InitDatabase 100%N
                   (Some (withSystem (Some 7%N) None None zhangSan)))).
    apply reach_create, reach_init. }
  destruct (create_appends hasAt _ 200%N
              (Some (withSystem (Some 3%N) None None liSi)) _ _
              R7 (surjective_pairing _) eq_refl)
    as (b & s' & _ & Ds & _ & _ & _ & _ & G).
  injection Ds as <-.
  destruct (create_appends hasAt oneStudent 200%N (Some liSi) _ _
              oneStudent_reachable (surjective_pairing _) eq_refl)
    as (b2 & s2 & Eb & Ds2 & _ & _ & _ & A & _).
  injection Ds2 as <-. injection Eb as <-.
  split; [exact R7 |]. split; [reflexivity |].
  split; [exact (proj1 (G eq_refl)) |].
  exact (A eq_refl).
Defined.

(** X6 -- Ids are not handed out twice.  The id of a created student is
    not [0], is the id of no row of the table, live or soft-deleted, and
    is stored under a rowid that is not negative.  When the body gives no
    id, the new rowid is larger than every rowid in the table, so the new
    id is larger than every id below [2^63] in the table (an id from [2^63]
    on is stored under a negative rowid), and larger than the
    AUTOINCREMENT counter, which then holds it. *)
Theorem create_id_fresh (isEmail : string -> bool)
  (db : DB) (now : Time) (body : option JSONBody) (resp : Response) (db' : DB) :
  CreateStudent isEmail db now body = (resp, db') ->
  code resp = StatusCreated ->
  exists b s',
    body = Some b /\ data resp = [s']
    /\ ID s' <> 0%N
    /\ (forall r, In r (rows db) -> ID r <> ID s')
    /\ (0 <= rowid (ID s'))%Z
    /\ (opt 0%N (j_id b) = 0%N ->
        (forall r, In r (rows db) -> (rowid (ID r) < rowid (ID s'))%Z)
        /\ (forall r, In r (rows db) -> (ID r <= maxRowid)%N ->
                      (ID r < ID s')%N)
        /\ (seq db < ID s')%N /\ seq db' = ID s').
Proof.
  intros C OK.
  destruct (CreateStudent_created _ _ _ _ _ _ C OK) as (b & s & s' & -> & B & Cr & ->).
  apply ShouldBindJSON_inr in B as [U _]. apply unmarshal_system in U as (Ui & _ & _).
  pose proof (Create_key_fresh _ _ _ _ _ Cr) as [T NZ].
  pose proof (Create_inr _ _ _ _ _ Cr) as (Es & Ed & _ & _ & P & L).
  exists b, s'. split; [reflexivity |]. split; [reflexivity |].
  split; [exact NZ |]. split; [| split; [exact P |]].
  - intros r I. exact (id_taken_false _ _ _ T I).
  - intros Z. rewrite <- Ui in Z. rewrite Z in Es, Ed, L. simpl in Es, Ed, L.
    specialize (L eq_refl).
    assert (Ei : ID s' = (N.max (seq db) (maxID (rows db)) + 1)%N)
      by (rewrite Es; reflexivity).
    assert (Above : forall r, In r (rows db) ->
                      (rowid (ID r) < rowid (ID s'))%Z).
    { intros r I. rewrite Ei. apply auto_id_above; assumption. }
    split; [exact Above |]. split; [| split].
    + intros r I Small. specialize (Above r I).
      rewrite (rowid_small _ Small), Ei, rowid_small in Above by lia. lia.
    + rewrite Ei. lia.
    + rewrite Ed. simpl. symmetry. exact Ei.
Qed.

Lemma create_id_fresh_witness :
  code (fst (CreateStudent hasAt oneDeleted 400%N (Some liSi))) = StatusCreated
  /\ exists b s',
       Some liSi = Some b
       /\ data (fst (CreateStudent hasAt oneDeleted 400%N (Some liSi))) = [s']
       /\ ID s' <> 0%N
       /\ (forall r, In r (rows oneDeleted) -> ID r <> ID s')
       /\ (0 <= rowid (ID s'))%Z
       /\ (opt 0%N (j_id b) = 0%N ->
           (forall r, In r (rows oneDeleted) -> (rowid (ID r) < rowid (ID s'))%Z)
           /\ (forall r, In r (rows oneDeleted) -> (ID r <= maxRowid)%N ->
                         (ID r < ID s')%N)
           /\ (seq oneDeleted < ID s')%N
           /\ seq (snd (CreateStudent hasAt oneDeleted 400%N (Some liSi))) = ID s').
Proof.
  split; [reflexivity |].
  exact (create_id_fresh hasAt oneDeleted 400%N (Some liSi) _ _
           (surjective_pairing _) eq_refl).
Defined.

(** After an update has set a key to [2^63], a create without an id gets
    the id [2]: the new id is above every rowid of the table, not above
    every id. *)
Example create_id_below_wrapped_key :
  reachable hasAt wrappedStudent
  /\ In wrappedRow (rows wrappedStudent)
  /\ data (fst (CreateStudent hasAt wrappedStudent 400%N (Some liSi)))
     = [mkStudent 2 "Li Si" 22 "女" "ls@example.com" "13900000000" "Math"
          "2022" 400%N 400%N None]
  /\ (2 < ID wrappedRow)%N
  /\ (rowid (ID wrappedRow) < rowid 2)%Z.
Proof.
  split; [exact wrappedStudent_reachable |]. split; [left; reflexivity |].
  split; [reflexivity |]. split; reflexivity.
Qed.

(** ** What binding accepts *)

(** X7 -- [ShouldBindJSON] accepts a decoded body exactly when all seven
    business fields are given and valid: name, phone, major and grade not
    empty, age between 1 and 150, gender one of the two labels, email not
    empty and of email shape.  Otherwise [CreateStudent] answers 400 and
    nothing is stored; no length limit is part of the check. *)
Theorem binding_accepts_iff (isEmail : string -> bool)
  (b : JSONBody) (s : Student) :
  unmarshal b = inr s ->
  (ShouldBindJSON isEmail (Some b) = inr s <->
   Name s <> "" /\ (1 <= Age s <= 150)%Z
   /\ (Gender s = "男" \/ Gender s = "女")
   /\ (Email s <> "" /\ isEmail (Email s) = true)
   /\ Phone s <> "" /\ Major s <> "" /\ Grade s <> "")
  /\ (forall db now,
        ShouldBindJSON isEmail (Some b) <> inr s ->
        CreateStudent isEmail db now (Some b)
        = (JSON StatusBadRequest
             [("error", VString "Invalid input data");
              ("message", VError (ErrValidation (validate isEmail s)))], db)).
Proof.
  intros U. rewrite <- validate_nil. split.
  - split.
    + intros B. exact (proj2 (ShouldBindJSON_inr _ _ _ B)).
    + intros V. unfold ShouldBindJSON. rewrite U, V. reflexivity.
  - intros db now NB. apply bind_failure_response, ShouldBindJSON_invalid;
      [exact U |].
    intros V. apply NB. unfold ShouldBindJSON. rewrite U, V. reflexivity.
Qed.

Lemma binding_accepts_iff_witness :
  unmarshal zhangSan = inr zhangSanBound
  /\ ShouldBindJSON hasAt (Some zhangSan) = inr zhangSanBound
  /\ Name zhangSanBound <> "" /\ (1 <= Age zhangSanBound <= 150)%Z.
Proof.
  destruct (binding_accepts_iff hasAt zhangSan zhangSanBound eq_refl) as [A _].
  split; [reflexivity |]. split; [reflexivity |].
  destruct (proj1 A eq_refl) as (N & R & _). split; [exact N | exact R].
Defined.

Lemma required_string_index field v :
  field_indices (required_string field v) = []
  \/ field_indices (required_string field v) = [field_index field].
Proof. unfold required_string. destruct (String.eqb v ""); auto. Qed.

Lemma check_Age_index s :
  field_indices (check_Age s) = [] \/ field_indices (check_Age s) = [1].
Proof.
  unfold check_Age. destruct (Age s =? 0)%Z; [auto |].
  destruct (Age s <? 1)%Z; [auto |]. destruct (150 <? Age s)%Z; auto.
Qed.

Lemma check_Gender_index s :
  field_indices (check_Gender s) = [] \/ field_indices (check_Gender s) = [2].
Proof.
  unfold check_Gender. destruct (String.eqb (Gender s) ""); [auto |].
  destruct (_ || _); auto.
Qed.

Lemma check_Email_index isEmail s :
  field_indices (check_Email isEmail s) = []
  \/ field_indices (check_Email isEmail s) = [3].
Proof.
  unfold check_Email. destruct (String.eqb (Email s) ""); [auto |].
  destruct (isEmail (Email s)); auto.
Qed.

(** X8 -- The validation error lists each failing field once, in the
    order of the fields in the struct: the declaration positions of the
    fields named in the error are strictly increasing and below seven, so
    there are at most seven entries. *)
Theorem validation_errors_ordered (isEmail : string -> bool) (s : Student) :
  StronglySorted lt (field_indices (validate isEmail s))
  /\ Forall (fun i => i < 7) (field_indices (validate isEmail s))
  /\ List.length (validate isEmail s) <= 7.
Proof.
  assert (L : List.length (validate isEmail s)
              = List.length (field_indices (validate isEmail s))).
  { unfold field_indices. rewrite length_map. reflexivity. }
  rewrite L. unfold validate, field_indices. rewrite !map_app.
  fold (field_indices (check_Name s)) (field_indices (check_Age s))
    (field_indices (check_Gender s)) (field_indices (check_Email isEmail s))
    (field_indices (check_Phone s)) (field_indices (check_Major s))
    (field_indices (check_Grade s)).
  destruct (required_string_index "Name" (Name s)) as [E1 | E1];
    destruct (check_Age_index s) as [E2 | E2];
    destruct (check_Gender_index s) as [E3 | E3];
    destruct (check_Email_index isEmail s) as [E4 | E4];
    destruct (required_string_index "Phone" (Phone s)) as [E5 | E5];
    destruct (required_string_index "Major" (Major s)) as [E6 | E6];
    destruct (required_string_index "Grade" (Grade s)) as [E7 | E7];
    unfold check_Name, check_Phone, check_Major, check_Grade;
    rewrite E1, E2, E3, E4, E5, E6, E7; simpl;
    (split; [| split]; [repeat constructor | repeat constructor | lia]).
Qed.


(** ** Update *)

Lemma Updates_inr db now student u s' db' :
  Updates db now student u = (inr s', db') -> s' = assign now u student.
Proof.
  unfold Updates.
  destruct (ID student =? 0)%N; [discriminate |].
  destruct (find (target student) (rows db)).
  - destruct (id_taken _ _); [discriminate |].
    destruct (email_taken _ _); [discriminate |].
    intros X; inversion X; reflexivity.
  - intros X; inversion X; reflexivity.
Qed.

Lemma UpdateStudent_ok isEmail db now param body resp db' :
  UpdateStudent isEmail db now param body = (resp, db') ->
  code resp = StatusOK ->
  exists id student b u,
    ParseUint param = Some id /\ First db id = inr student
    /\ body = Some b /\ ShouldBindJSON isEmail (Some b) = inr u
    /\ Updates db now student u = (inr (assign now u student), db')
    /\ resp = JSON StatusOK
                [("message", VString "Student updated successfully");
                 ("data", VStudent (assign now u student))].
Proof.
  unfold UpdateStudent.
  destruct (ParseUint param) as [id |]; [| intros E; inversion E; subst; discriminate].
  destruct (First db id) as [e | student] eqn:F;
    [intros E; inversion E; subst; discriminate |].
  destruct (ShouldBindJSON isEmail body) as [e | u] eqn:B;
    [intros E; inversion E; subst; discriminate |].
  destruct body as [b |]; [| discriminate].
  destruct (Updates db now student u) as [[e | s'] d] eqn:C;
    intros E; inversion E; subst; [discriminate |].
  intros _. pose proof (Updates_inr _ _ _ _ _ _ C) as Es.
  rewrite Es in C |- *.
  exists id, student, b, u. repeat split; auto.
Qed.

Lemma unique_ids_inj l a b :
  unique_ids l = true -> In a l -> In b l -> ID a = ID b -> a = b.
Proof.
  induction l as [| x l IH]; simpl; [tauto |].
  intros U Ia Ib E. apply andb_true_iff in U as [U1 U2].
  apply negb_true_iff in U1.
  destruct Ia as [<- | Ia]; destruct Ib as [<- | Ib]; auto.
  - exfalso. apply (id_taken_false _ _ _ U1 Ib). auto.
  - exfalso. apply (id_taken_false _ _ _ U1 Ia). auto.
Qed.

Lemma assign_bound isEmail now u r :
  validate isEmail u = [] -> DeletedAt u = None ->
  same_fields (assign now u r) u
  /\ UpdatedAt (assign now u r) = now
  /\ CreatedAt (assign now u r)
     = (if (CreatedAt u =? 0)%N then CreatedAt r else CreatedAt u)
  /\ ID (assign now u r) = (if (ID u =? 0)%N then ID r else ID u)
  /\ DeletedAt (assign now u r) = DeletedAt r.
Proof.
  intros V D. apply validate_nil in V as (V1 & V2 & V3 & (V4 & _) & V5 & V6 & V7).
  assert (G : Gender u <> "") by (destruct V3 as [-> | ->]; discriminate).
  unfold same_fields, assign. simpl.
  apply String.eqb_neq in V1, V4, V5, V6, V7, G.
  rewrite V1, V4, V5, V6, V7, G, D.
  destruct (Z.eqb_spec (Age u) 0); [lia |]. repeat split.
Qed.

(** A row of a table with unique keys, with what is before and behind
    it. *)
Lemma row_split l old :
  unique_ids l = true -> In old l ->
  exists l1 l2,
    l = (l1 ++ old :: l2)%list
    /\ NoDup (map ID (l1 ++ old :: l2))
    /\ (forall r, In r (l1 ++ l2) <-> In r l /\ r <> old)
    /\ id_taken (l1 ++ l2) (ID old) = false.
Proof.
  intros U I. pose proof (proj1 (unique_ids_NoDup _) U) as N.
  apply in_split in I as (l1 & l2 & ->). exists l1, l2.
  assert (Out : ~ In (ID old) (map ID (l1 ++ l2))).
  { rewrite map_app in N |- *. simpl in N. exact (NoDup_remove_2 _ _ _ N). }
  split; [reflexivity |]. split; [exact N |]. split.
  - intros r. split.
    + intros Ir. split.
      * apply in_app_or in Ir as [Ir | Ir]; apply in_or_app;
          [left | right; right]; exact Ir.
      * intros ->. apply Out, in_map. exact Ir.
    + intros [Ir Ne]. apply in_app_or in Ir as [Ir | [Ir | Ir]];
        [apply in_or_app; left; exact Ir | congruence
        | apply in_or_app; right; exact Ir].
  - destruct (id_taken (l1 ++ l2) (ID old)) eqn:T; [| reflexivity].
    apply id_taken_map_In in T. contradiction.
Qed.

(** What [Updates] does to a live row of a table with unique keys: it
    checks the new key and the new email against the other rows, and
    stores the assigned row at the place of its key. *)
Lemma Updates_row db now old u l1 l2 :
  rows db = (l1 ++ old :: l2)%list ->
  NoDup (map ID (l1 ++ old :: l2)) ->
  live old = true -> ID old <> 0%N ->
  Updates db now old u
  = if id_taken (l1 ++ l2) (ID (assign now u old))
    then (inl (ErrUniqueConstraint "students.id"), db)
    else if email_taken (l1 ++ l2) (Email (assign now u old))
    then (inl (ErrUniqueConstraint "students.email"), db)
    else (inr (assign now u old),
          mkDB (if (ID (assign now u old) =? ID old)%N
                then (l1 ++ assign now u old :: l2)%list
                else insert_row (assign now u old) (l1 ++ l2)) (seq db)).
Proof.
  intros Er N L NZ. unfold Updates. apply N.eqb_neq in NZ. rewrite NZ, Er.
  destruct (one_target l1 old l2 old (assign now u) N eq_refl L) as (F & O & M).
  rewrite F, O, M. reflexivity.
Qed.

Lemma GetAllStudents_unreadable db :
  readable db = false ->
  GetAllStudents db
  = JSON StatusInternalServerError
      [("error", VString "Failed to fetch students");
       ("message", VError ErrScan)].
Proof.
  intros R. unfold GetAllStudents, Find.
  rewrite (select_total _ live).
  - unfold readable in R. rewrite R. reflexivity.
  - intros r _. simpl. unfold sql. destruct (live r); reflexivity.
Qed.

Lemma unreadable_row db r :
  In r (rows db) -> live r = true -> scans r = false -> readable db = false.
Proof.
  intros I L S. destruct (readable db) eqn:R; [| reflexivity].
  unfold readable in R. rewrite forallb_forall in R.
  specialize (R r I). rewrite L, S in R. discriminate.
Qed.

Lemma scans_wrapped r :
  (2 ^ 63 <= ID r)%N -> (ID r < 2 ^ 64)%N -> scans r = false.
Proof.
  intros Ge Lt. unfold scans. apply Z.leb_gt.
  apply rowid_wrapped; [unfold maxRowid; lia | exact Lt].
Qed.

(** What a 200 of [UpdateStudent] says about the table. *)
Lemma UpdateStudent_stored isEmail db now param body resp db' :
  reachable isEmail db ->
  UpdateStudent isEmail db now param body = (resp, db') ->
  code resp = StatusOK ->
  exists id b u old l1 l2,
    let new := assign now u old in
    ParseUint param = Some id /\ body = Some b
    /\ ShouldBindJSON isEmail (Some b) = inr u
    /\ First db id = inr old /\ ID old = id /\ live old = true
    /\ resp = JSON StatusOK
                [("message", VString "Student updated successfully");
                 ("data", VStudent new)]
    /\ rows db = (l1 ++ old :: l2)%list
    /\ (forall r, In r (l1 ++ l2) <-> In r (rows db) /\ r <> old)
    /\ id_taken (l1 ++ l2) (ID old) = false
    /\ id_taken (l1 ++ l2) (ID new) = false
    /\ rows db' = (if (ID new =? ID old)%N
                   then (l1 ++ new :: l2)%list
                   else insert_row new (l1 ++ l2))
    /\ seq db' = seq db
    /\ consistent db' = true.
Proof.
  intros R Up OK.
  pose proof (reachable_consistent _ _ R) as C.
  assert (C' : consistent db' = true).
  { change db' with (snd (resp, db')). rewrite <- Up.
    apply handlers_keep_consistent. exact C. }
  destruct (UpdateStudent_ok _ _ _ _ _ _ _ Up OK)
    as (id & old & b & u & P & F & -> & B & Us & ->).
  pose proof (First_inr _ _ _ F) as (Io & Eo & Lo).
  pose proof (consistent_nonzero _ _ C Io) as NZ.
  apply consistent_parts in C as (Uid & _ & _).
  destruct (row_split _ _ Uid Io) as (l1 & l2 & Er & N & Rest & Told).
  rewrite (Updates_row _ _ _ _ _ _ Er N Lo NZ) in Us.
  destruct (id_taken (l1 ++ l2) (ID (assign now u old))) eqn:T1; [discriminate |].
  destruct (email_taken (l1 ++ l2) (Email (assign now u old))); [discriminate |].
  inversion Us; subst db'.
  exists id, b, u, old, l1, l2. cbv zeta. simpl rows. simpl seq.
  repeat split; auto; apply Rest; assumption.
Qed.

Lemma UpdateStudent_In isEmail db now param body resp db' :
  reachable isEmail db ->
  UpdateStudent isEmail db now param body = (resp, db') ->
  code resp = StatusOK ->
  forall new, data resp = [new] ->
  In new (rows db')
  /\ (forall r, In r (rows db') -> ID r = ID new -> r = new).
Proof.
  intros R Up OK new D.
  destruct (UpdateStudent_stored _ _ _ _ _ _ _ R Up OK)
    as (id & b & u & old & l1 & l2 & _ & _ & _ & _ & _ & _ & -> & _ & _ & _ & _
        & Er' & _ & C').
  cbv zeta in Er'. simpl in D. injection D as <-.
  assert (I : In (assign now u old) (rows db')).
  { rewrite Er'. destruct (_ =? _)%N.
    - apply in_or_app. right. left. reflexivity.
    - apply insert_row_In. left. reflexivity. }
  split; [exact I |]. intros r Ir E.
  apply consistent_parts in C' as (U' & _ & _).
  exact (unique_ids_inj _ _ _ U' Ir I E).
Qed.

(** How the student of a 200 of [UpdateStudent] is read afterwards. *)
Lemma UpdateStudent_read isEmail db now param body resp db' new :
  reachable isEmail db ->
  UpdateStudent isEmail db now param body = (resp, db') ->
  code resp = StatusOK ->
  data resp = [new] ->
  (forall p, ParseUint p = Some (ID new) ->
     GetStudentByID db' p = JSON StatusOK [("data", VStudent new)])
  /\ ((ID new < 2 ^ 32)%N ->
      GetStudentByID db' (decimal (ID new))
      = JSON StatusOK [("data", VStudent new)])
  /\ ((2 ^ 32 <= ID new)%N ->
      forall p, data (GetStudentByID db' p) <> [new])
  /\ ((2 ^ 63 <= ID new)%N ->
      (rowid (ID new) < 0)%Z
      /\ GetAllStudents db'
         = JSON StatusInternalServerError
             [("error", VString "Failed to fetch students");
              ("message", VError ErrScan)]).
Proof.
  intros R Up OK D.
  destruct (UpdateStudent_In _ _ _ _ _ _ _ R Up OK new D) as (In' & Uq).
  destruct (UpdateStudent_stored _ _ _ _ _ _ _ R Up OK)
    as (id & b & u & old & l1 & l2 & P & _ & B & _ & Eo & Lo & Eresp & _).
  cbv zeta in Eresp. rewrite Eresp in D. simpl in D. injection D as <-.
  pose proof (bound_uint _ _ _ B) as Hu.
  apply ShouldBindJSON_inr in B as [U V].
  assert (Du : DeletedAt u = None) by (rewrite (unmarshal_inr _ _ U); reflexivity).
  destruct (assign_bound isEmail now u old V Du) as (_ & _ & _ & A3 & A4).
  assert (Ln : live (assign now u old) = true).
  { unfold live in *. rewrite A4. exact Lo. }
  assert (H64 : (ID (assign now u old) < 2 ^ 64)%N).
  { rewrite A3. destruct (ID u =? 0)%N; [| exact Hu].
    rewrite Eo. pose proof (ParseUint_lt _ _ P) as Lt.
    change (2 ^ 32)%N with 4294967296%N in Lt.
    change (2 ^ 64)%N with 18446744073709551616%N. lia. }
  assert (G : forall p, ParseUint p = Some (ID (assign now u old)) ->
                GetStudentByID db' p
                = JSON StatusOK [("data", VStudent (assign now u old))]).
  { intros p Pp. unfold GetStudentByID. rewrite Pp.
    rewrite First_found; auto.
    apply scans_small, small_id_fits. exact (ParseUint_lt _ _ Pp). }
  split; [exact G |]. split; [| split].
  - intros Lt. apply G. rewrite (ParseUint_decimal _ H64).
    apply N.ltb_lt in Lt. rewrite Lt. reflexivity.
  - intros Ge p Dp. unfold GetStudentByID in Dp.
    destruct (ParseUint p) as [k |] eqn:Pp; [| discriminate Dp].
    apply ParseUint_lt in Pp.
    destruct (First db' k) as [e | r] eqn:Fk; [discriminate Dp |].
    apply First_inr in Fk as (_ & Ek & _). simpl in Dp.
    injection Dp as Dp. rewrite Dp in Ek. lia.
  - intros Ge. split.
    + apply rowid_wrapped; [unfold maxRowid; lia | exact H64].
    + apply GetAllStudents_unreadable.
      apply (unreadable_row _ _ In' Ln). apply scans_wrapped; assumption.
Qed.

(** X9 -- Update, then get.  In every table the service can reach, when
    [UpdateStudent] answers 200 the student in the answer has the seven
    business fields of the body, [updated_at] set to the current time, and
    the old [id] and [created_at] unless the body gives non-zero ones.  The
    new table holds this student in place of the old one and every other
    row unchanged.  [GetStudentByID] answers 200 with exactly this student
    on every path that parses to its id; when the id is below [2^32] its
    numeral is such a path, when it is [2^32] or more (given in the body)
    no path returns the student, and when it is [2^63] or more the row is
    stored under a negative rowid and [GetAllStudents] answers 500 from
    then on. *)
Theorem update_then_get (isEmail : string -> bool)
  (db : DB) (now : Time) (param : string) (body : option JSONBody)
  (resp : Response) (db' : DB) :
  reachable isEmail db ->
  UpdateStudent isEmail db now param body = (resp, db') ->
  code resp = StatusOK ->
  exists b u old new,
    body = Some b /\ unmarshal b = inr u
    /\ data (GetStudentByID db param) = [old] /\ data resp = [new]
    /\ same_fields new u
    /\ UpdatedAt new = now
    /\ CreatedAt new = (if (CreatedAt u =? 0)%N then CreatedAt old else CreatedAt u)
    /\ ID new = (if (ID u =? 0)%N then ID old else ID u)
    /\ DeletedAt new = None
    /\ (forall r, In r (rows db') <-> r = new \/ (In r (rows db) /\ r <> old))
    /\ (forall p, ParseUint p = Some (ID new) ->
          GetStudentByID db' p = JSON StatusOK [("data", VStudent new)])
    /\ ((ID new < 2 ^ 32)%N ->
        GetStudentByID db' (decimal (ID new))
        = JSON StatusOK [("data", VStudent new)])
    /\ ((2 ^ 32 <= ID new)%N ->
        forall p, data (GetStudentByID db' p) <> [new])
    /\ ((2 ^ 63 <= ID new)%N ->
        (rowid (ID new) < 0)%Z
        /\ GetAllStudents db'
           = JSON StatusInternalServerError
               [("error", VString "Failed to fetch students");
                ("message", VError ErrScan)]).
Proof.
  intros R Up OK.
  destruct (UpdateStudent_stored _ _ _ _ _ _ _ R Up OK)
    as (id & b & u & old & l1 & l2 & P & Eb & B & F & Eo & Lo & Eresp & Er
        & Rest & _ & _ & Er' & _ & _).
  cbv zeta in Eresp, Er'.
  assert (D : data resp = [assign now u old]) by (rewrite Eresp; reflexivity).
  pose proof (UpdateStudent_read _ _ _ _ _ _ _ _ R Up OK D) as Rd.
  subst body.
  apply ShouldBindJSON_inr in B as [U V].
  assert (Du : DeletedAt u = None) by (rewrite (unmarshal_inr _ _ U); reflexivity).
  destruct (assign_bound isEmail now u old V Du) as (SF & A1 & A2 & A3 & A4).
  assert (Dn : DeletedAt (assign now u old) = None).
  { rewrite A4. unfold live in Lo. destruct (DeletedAt old); [discriminate | reflexivity]. }
  exists b, u, old, (assign now u old).
  split; [reflexivity |]. split; [exact U |]. split.
  { unfold GetStudentByID. rewrite P, F. reflexivity. }
  split; [exact D |]. split; [exact SF |].
  split; [exact A1 |]. split; [exact A2 |]. split; [exact A3 |].
  split; [exact Dn |]. split; [| exact Rd].
  intros r. rewrite Er', <- Rest. destruct (_ =? _)%N.
  - rewrite !in_app_iff. simpl. intuition congruence.
  - rewrite insert_row_In. reflexivity.
Qed.

Lemma update_then_get_witness :
  reachable hasAt oneStudent
  /\ UpdateStudent hasAt oneStudent 200%N "1" (Some liSi)
     = (JSON StatusOK
          [("message", VString "Student updated successfully");
           ("data",
            VStudent (mkStudent 1 "Li Si" 22 "女" "ls@example.com"
                        "13900000000" "Math" "2022" 100%N 200%N None))],
        mkDB [mkStudent 1 "Li Si" 22 "女" "ls@example.com" "13900000000"
                "Math" "2022" 100%N 200%N None] 1%N)
  /\ GetStudentByID
       (mkDB [mkStudent 1 "Li Si" 22 "女" "ls@example.com" "13900000000"
                "Math" "2022" 100%N 200%N None] 1%N) (decimal 1)
     = JSON StatusOK
         [("data",
           VStudent (mkStudent 1 "Li Si" 22 "女" "ls@example.com"
                       "13900000000" "Math" "2022" 100%N 200%N None))]
  /\ UpdateStudent hasAt oneStudent 300%N "1"
       (Some (withSystem (Some 9223372036854775808%N) None None zhangSan))
     = (JSON StatusOK
          [("message", VString "Student updated successfully");
           ("data", VStudent wrappedRow)], wrappedStudent)
  /\ (forall p, data (GetStudentByID wrappedStudent p) <> [wrappedRow])
  /\ GetAllStudents wrappedStudent
     = JSON StatusInternalServerError
         [("error", VString "Failed to fetch students");
          ("message", VError ErrScan)].
Proof.
  destruct (update_then_get hasAt oneStudent 200%N "1" (Some liSi) _ _
              oneStudent_reachable (surjective_pairing _) eq_refl)
    as (b & u & old & new & _ & _ & _ & Dn & _ & _ & _ & _ & _ & _ & _ & Gd & _).
  injection Dn as <-.
  destruct (update_then_get hasAt oneStudent 300%N "1"
              (Some (withSystem (Some 9223372036854775808%N) None None zhangSan))
              _ _ oneStudent_reachable (surjective_pairing _) eq_refl)
    as (b2 & u2 & old2 & new2 & _ & _ & _ & Dn2 & _ & _ & _ & _ & _ & _ & _ & _
        & No & Wr).
  injection Dn2 as <-.
  split; [exact oneStudent_reachable |]. split; [reflexivity |].
  split; [apply Gd; reflexivity |]. split; [reflexivity |].
  split; [apply No; vm_compute; discriminate |].
  apply Wr. vm_compute. discriminate.
Defined.


Lemma twoStudents_reachable : reachable hasAt twoStudents.
Proof.
  change twoStudents
    with (snd (CreateStudent hasAt oneStudent 200%N (Some liSi))).
  apply reach_create, oneStudent_reachable.
Defined.


(** X11 -- An update cannot take over another record's email.  When the
    body passes binding and its email is held by a row with a different
    id, live or soft-deleted, [UpdateStudent] answers
    500 "Failed to update student" and the table is returned as it was. *)
Theorem update_email_collision (isEmail : string -> bool)
  (db : DB) (now : Time) (param : string) (id : N) (student : Student)
  (b : JSONBody) (u other : Student) :
  ParseUint param = Some id ->
  First db id = inr student ->
  ShouldBindJSON isEmail (Some b) = inr u ->
  In other (rows db) -> ID other <> id -> Email other = Email u ->
  exists e,
    UpdateStudent isEmail db now param (Some b)
    = (JSON StatusInternalServerError
         [("error", VString "Failed to update student");
          ("message", VError e)], db).
Proof.
  intros P F B Io NEo Eo.
  pose proof (First_inr _ _ _ F) as (I & Eid & L).
  unfold UpdateStudent. rewrite P, F, B.
  destruct (Updates db now student u) as [[e | s'] d] eqn:C.
  - exists e. rewrite (Updates_inl _ _ _ _ _ _ C). reflexivity.
  - exfalso. unfold Updates in C.
    destruct (ID student =? 0)%N; [discriminate |].
    destruct (find (target student) (rows db)) as [r |] eqn:Fd.
    + destruct (id_taken _ _); [discriminate |].
      destruct (email_taken _ _) eqn:T; [discriminate |].
      pose proof (ShouldBindJSON_inr _ _ _ B) as [U V].
      assert (Du : DeletedAt u = None).
      { rewrite (unmarshal_inr _ _ U). reflexivity. }
      destruct (assign_bound isEmail now u r V Du)
        as ((_ & _ & _ & SE & _) & _).
      rewrite SE in T.
      assert (X : email_taken
                    (filter (fun q => negb (target student q)) (rows db))
                    (Email u) = true).
      { apply email_taken_In. exists other. split; [| exact Eo].
        apply filter_In. split; [exact Io |].
        unfold target. rewrite <- Eid in NEo. apply N.eqb_neq in NEo.
        rewrite NEo. reflexivity. }
      congruence.
    + apply (find_none _ _ Fd) in I. unfold target in I.
      rewrite N.eqb_refl, L in I. discriminate.
Qed.

Lemma update_email_collision_witness :
  ParseUint "2" = Some 2%N
  /\ First twoStudents 2%N = inr liSiRow
  /\ In zhangSanRow (rows twoStudents)
  /\ exists e,
       UpdateStudent hasAt twoStudents 300%N "2" (Some zhangSan)
       = (JSON StatusInternalServerError
            [("error", VString "Failed to update student");
             ("message", VError e)], twoStudents).
Proof.
  split; [reflexivity |]. split; [reflexivity |].
  split; [left; reflexivity |].
  apply (update_email_collision hasAt twoStudents 300%N "2" 2%N liSiRow
           zhangSan zhangSanBound zhangSanRow);
    [reflexivity | reflexivity | reflexivity | left; reflexivity
    | discriminate | reflexivity].
Defined.

(** X12 -- An [id] in the body of an update re-keys the record.  In every
    table the service can reach, when [UpdateStudent] answers 200 for a
    body whose [id] is a non-zero number other than the path id, the record
    leaves its place and is stored under the id of the body, at the place
    of that key, the rows staying in key order.  [GetStudentByID] at the
    path id then answers 404; on a path that parses to the new id it
    answers 200 with the updated student.  When the new id is below [2^32]
    its numeral is such a path; when it is [2^32] or more no path returns
    the student, and when it is [2^63] or more (the handler answers 200 all
    the same) the key is stored as a negative rowid and [GetAllStudents]
    answers 500 from then on. *)
Theorem update_rekeys_record (isEmail : string -> bool)
  (db : DB) (now : Time) (param : string) (id k : N) (b : JSONBody)
  (resp : Response) (db' : DB) :
  reachable isEmail db ->
  UpdateStudent isEmail db now param (Some b) = (resp, db') ->
  code resp = StatusOK ->
  ParseUint param = Some id ->
  j_id b = Some k -> k <> 0%N -> k <> id ->
  GetStudentByID db' param
  = JSON StatusNotFound [("error", VString "Student not found")]
  /\ exists new,
       data resp = [new] /\ ID new = k
       /\ (exists l1 old l2,
             rows db = (l1 ++ old :: l2)%list /\ ID old = id
             /\ rows db' = insert_row new (l1 ++ l2))
       /\ sorted_rows (rows db') = true
       /\ (forall p, ParseUint p = Some k ->
             GetStudentByID db' p = JSON StatusOK [("data", VStudent new)])
       /\ ((k < 2 ^ 32)%N ->
           GetStudentByID db' (decimal k)
           = JSON StatusOK [("data", VStudent new)])
       /\ ((2 ^ 32 <= k)%N -> forall p, data (GetStudentByID db' p) <> [new])
       /\ ((2 ^ 63 <= k)%N ->
           (rowid k < 0)%Z
           /\ GetAllStudents db'
              = JSON StatusInternalServerError
                  [("error", VString "Failed to fetch students");
                   ("message", VError ErrScan)]).
Proof.
  intros R Up OK P J NZ NE.
  destruct (UpdateStudent_stored _ _ _ _ _ _ _ R Up OK)
    as (id0 & b1 & u & old & l1 & l2 & P1 & Eb1 & B & F & Eo & Lo & Eresp & Er
        & Rest & Told & _ & Er' & _ & _).
  cbv zeta in Eresp, Er'.
  rewrite P in P1. injection P1 as P1. rewrite <- P1 in Eo. clear P1 F id0.
  injection Eb1 as Eb1. rewrite <- Eb1 in B. clear Eb1 b1.
  assert (D : data resp = [assign now u old]) by (rewrite Eresp; reflexivity).
  pose proof (UpdateStudent_read _ _ _ _ _ _ _ _ R Up OK D) as Rd.
  pose proof (ShouldBindJSON_inr _ _ _ B) as [U V].
  pose proof (unmarshal_system _ _ U) as (Ui & _).
  rewrite J in Ui. simpl in Ui.
  assert (Eid : ID (assign now u old) = k).
  { simpl. rewrite Ui. apply N.eqb_neq in NZ. rewrite NZ. reflexivity. }
  assert (Diff : (ID (assign now u old) =? ID old)%N = false).
  { apply N.eqb_neq. rewrite Eid, Eo. exact NE. }
  rewrite Diff in Er'. rewrite Eid in Rd.
  split.
  - unfold GetStudentByID. rewrite P, First_none; [reflexivity |].
    intros r I Er0. rewrite Er' in I. apply insert_row_In in I as [-> | I].
    + rewrite Eid in Er0. contradiction.
    + exfalso. apply (id_taken_false _ _ _ Told I). congruence.
  - exists (assign now u old). split; [exact D |].
    split; [exact Eid |]. split; [exists l1, old, l2; auto |].
    split; [| exact Rd].
    destruct (reachable_keys isEmail db') as [_ S]; [| exact S].
    change db' with (snd (resp, db')). rewrite <- Up. apply reach_update. exact R.
Qed.

Lemma update_rekeys_record_witness :
  reachable hasAt oneStudent
  /\ code (fst (UpdateStudent hasAt oneStudent 300%N "1"
                  (Some (withSystem (Some 9%N) None None zhangSan)))) = StatusOK
  /\ GetStudentByID
       (snd (UpdateStudent hasAt oneStudent 300%N "1"
               (Some (withSystem (Some 9%N) None None zhangSan)))) "1"
     = JSON StatusNotFound [("error", VString "Student not found")]
  /\ code (GetStudentByID
             (snd (UpdateStudent hasAt oneStudent 300%N "1"
                     (Some (withSystem (Some 9%N) None None zhangSan)))) "9")
     = StatusOK
  /\ UpdateStudent hasAt twoStudents 300%N "1"
       (Some (withSystem (Some 9%N) None None zhangSan))
     = (JSON StatusOK
          [("message", VString "Student updated successfully");
           ("data",
            VStudent (mkStudent 9 "Zhang San" 20 "男" "zs@example.com"
                        "13800000000" "CS" "2023" 100%N 300%N None))],
        mkDB [liSiRow;
              mkStudent 9 "Zhang San" 20 "男" "zs@example.com" "13800000000"
                "CS" "2023" 100%N 300%N None] 2%N)
  /\ UpdateStudent hasAt oneStudent 300%N "1"
       (Some (withSystem (Some 9223372036854775808%N) None None zhangSan))
     = (JSON StatusOK
          [("message", VString "Student updated successfully");
           ("data", VStudent wrappedRow)], wrappedStudent)
  /\ GetAllStudents wrappedStudent
     = JSON StatusInternalServerError
         [("error", VString "Failed to fetch students");
          ("message", VError ErrScan)].
Proof.
  destruct (update_rekeys_record hasAt oneStudent 300%N "1" 1%N 9%N
              (withSystem (Some 9%N) None None zhangSan) _ _
              oneStudent_reachable (surjective_pairing _) eq_refl eq_refl
              eq_refl)
    as (G1 & new & _ & _ & _ & _ & G9 & _); [discriminate | discriminate |].
  destruct (update_rekeys_record hasAt oneStudent 300%N "1" 1%N
              9223372036854775808%N
              (withSystem (Some 9223372036854775808%N) None None zhangSan)
              _ wrappedStudent
              oneStudent_reachable eq_refl eq_refl eq_refl eq_refl)
    as (_ & new2 & _ & _ & _ & _ & _ & _ & _ & Wr); [discriminate | discriminate |].
  split; [exact oneStudent_reachable |].
  split; [reflexivity |]. split; [exact G1 |].
  split; [rewrite (G9 "9" eq_refl); reflexivity |].
  split; [reflexivity |]. split; [reflexivity |].
  apply Wr. vm_compute. discriminate.
Defined.

(** X13 -- A soft-deleted record cannot be updated.  After a successful
    [DeleteStudent], [UpdateStudent] on the same id answers
    404 "Student not found" for every body and at every later time, and
    leaves the table as it is. *)
Theorem update_after_delete_not_found (isEmail : string -> bool)
  (db : DB) (now : Time) (param : string) (resp : Response) (db' : DB) :
  DeleteStudent db now param = (resp, db') ->
  code resp = StatusOK ->
  forall now2 body,
    UpdateStudent isEmail db' now2 param body
    = (JSON StatusNotFound [("error", VString "Student not found")], db').
Proof.
  intros D OK now2 body.
  destruct (DeleteStudent_ok _ _ _ _ _ D OK) as (id & student & P & F & ->).
  apply First_inr in F as (_ & Eid & _).
  unfold UpdateStudent. rewrite P, First_none; [reflexivity |].
  simpl. intros r I E. rewrite <- Eid in E.
  exact (soft_deleted_not_live _ _ _ _ I E).
Qed.

Lemma update_after_delete_not_found_witness :
  DeleteStudent oneStudent 300%N "1"
  = (JSON StatusOK [("message", VString "Student deleted successfully")],
     oneDeleted)
  /\ UpdateStudent hasAt oneDeleted 400%N "1" (Some zhangSan21)
     = (JSON StatusNotFound [("error", VString "Student not found")], oneDeleted).
Proof.
  split; [reflexivity |].
  exact (update_after_delete_not_found hasAt oneStudent 300%N "1" _ _
           eq_refl eq_refl 400%N (Some zhangSan21)).
Defined.

(** ** Delete *)

Lemma filter_live_after_delete now student l :
  filter live
    (map (fun r => if target student r then setDeletedAt (Some now) r else r) l)
  = filter (fun r => negb (ID r =? ID student)%N) (filter live l).
Proof.
  induction l as [| a l IH]; [reflexivity |].
  simpl. destruct (target student a) eqn:T.
  - unfold target in T. apply andb_true_iff in T as [E L].
    simpl. rewrite L. simpl. rewrite E. simpl. exact IH.
  - destruct (live a) eqn:L; simpl; [| exact IH].
    unfold target in T. rewrite L, andb_true_r in T. rewrite T. simpl.
    rewrite IH. reflexivity.
Qed.

(** Marking a row whose key can be read leaves the table as readable as it
    was. *)
Lemma readable_after_delete now student l sq sq' :
  (ID student <= maxRowid)%N ->
  readable
    (mkDB (map (fun r => if target student r then setDeletedAt (Some now) r
                         else r) l) sq')
  = readable (mkDB l sq).
Proof.
  intros Fit. unfold readable. simpl.
  induction l as [| r l IH]; [reflexivity |].
  simpl. rewrite IH. f_equal.
  destruct (target student r) eqn:T; [| reflexivity].
  unfold target in T. apply andb_true_iff in T as [E L].
  apply N.eqb_eq in E. rewrite L. simpl.
  symmetry. apply scans_small. rewrite E. exact Fit.
Qed.

(** X14 -- A successful [DeleteStudent] sets [deleted_at] and nothing else:
    the table keeps its length and its AUTOINCREMENT counter, every row
    keeps its id, its business fields and both timestamps, and the list of
    [GetAllStudents] afterwards is the list before without the students of
    the deleted id. *)
Theorem delete_only_marks (db : DB) (now : Time) (param : string)
  (resp : Response) (db' : DB) :
  DeleteStudent db now param = (resp, db') ->
  code resp = StatusOK ->
  exists id,
    ParseUint param = Some id
    /\ map (setDeletedAt None) (rows db') = map (setDeletedAt None) (rows db)
    /\ seq db' = seq db
    /\ data (GetAllStudents db')
       = filter (fun r => negb (ID r =? id)%N) (data (GetAllStudents db)).
Proof.
  intros D OK.
  destruct (DeleteStudent_ok _ _ _ _ _ D OK) as (id & student & P & F & ->).
  apply First_inr in F as (_ & Eid & _).
  exists id. split; [exact P |]. simpl. split; [| split; [reflexivity |]].
  - rewrite map_map. apply map_ext. intros r.
    destruct (target student r); reflexivity.
  - rewrite !GetAllStudents_data.
    rewrite (readable_after_delete now student (rows db) (seq db) (seq db)).
    + replace (mkDB (rows db) (seq db)) with db by (destruct db; reflexivity).
      destruct (readable db); [| reflexivity].
      simpl. rewrite <- Eid. apply filter_live_after_delete.
    + rewrite Eid. exact (small_id_fits _ (ParseUint_lt _ _ P)).
Qed.

Lemma delete_only_marks_witness :
  code (fst (DeleteStudent twoStudents 300%N "1")) = StatusOK
  /\ exists id,
       ParseUint "1" = Some id
       /\ map (setDeletedAt None) (rows (snd (DeleteStudent twoStudents 300%N "1")))
          = map (setDeletedAt None) (rows twoStudents)
       /\ seq (snd (DeleteStudent twoStudents 300%N "1")) = seq twoStudents
       /\ data (GetAllStudents (snd (DeleteStudent twoStudents 300%N "1")))
          = filter (fun r => negb (ID r =? id)%N) (data (GetAllStudents twoStudents)).
Proof.
  split; [reflexivity |].
  exact (delete_only_marks twoStudents 300%N "1" _ _ (surjective_pairing _) eq_refl).
Defined.

(** ** The answers of a search *)

Lemma filter_live_keeps name major grade l :
  filter (fun r => live r && keeps name major grade r) l
  = filter (keeps name major grade) (filter live l).
Proof.
  induction l as [| r l IH]; [reflexivity |].
  simpl. destruct (live r); simpl; [| exact IH].
  destruct (keeps name major grade r); rewrite IH; reflexivity.
Qed.

(** A statement fails when a condition fails on one of the rows. *)
Lemma select_fails q l r e :
  In r l -> holds q r = inl e -> exists e', select q l = inl e'.
Proof.
  induction l as [| a l IH]; intros I Hr; [destruct I |].
  simpl. destruct I as [-> | I].
  - rewrite Hr. eauto.
  - destruct (IH I Hr) as [e' S]. rewrite S.
    destruct (holds q a) as [e0 | []]; eauto.
    destruct (scans a); eauto.
Qed.

Lemma short_empty value : short value = false -> value <> "".
Proof. intros S ->. discriminate S. Qed.

Lemma LIKE_long text value :
  short value = false ->
  LIKE text ("%" ++ value ++ "%") = inl ErrLikePattern.
Proof.
  unfold short, LIKE. intros S. apply N.leb_gt in S.
  destruct (N.ltb_spec likeLimit (N.of_nat (String.length ("%" ++ value ++ "%"))));
    [reflexivity | lia].
Qed.

Lemma search_query_long name major grade r :
  short name = false \/ (short name = true /\ short major = false
                         /\ (String.eqb name ""
                             || like ("%" ++ name ++ "%") (Name r)) = true) ->
  live r = true ->
  holds (search_query name major grade ++ [sql live])%list r = inl ErrLikePattern.
Proof.
  intros Hl L. unfold search_query, Where.
  destruct Hl as [Sn | (Sn & Sm & Kn)].
  - pose proof (short_empty _ Sn) as NE. apply String.eqb_neq in NE.
    rewrite NE. simpl negb. cbv iota.
    destruct (negb (String.eqb major "")); destruct (negb (String.eqb grade ""));
      simpl app; unfold holds, sql; rewrite L, (LIKE_long _ _ Sn); reflexivity.
  - pose proof (short_empty _ Sm) as NE. apply String.eqb_neq in NE.
    rewrite NE. simpl negb. cbv iota.
    destruct (String.eqb name "") eqn:En; simpl negb; cbv iota;
      destruct (negb (String.eqb grade ""));
      simpl app; unfold holds, sql;
      rewrite L, ?(LIKE_short _ _ Sn), ?(LIKE_long _ _ Sm);
      cbn [orb] in Kn; rewrite ?Kn; reflexivity.
Qed.

(** X15 -- On a table whose live rows can be read back, and for filter
    values whose pattern [%value%] is within the 50000 bytes that LIKE
    accepts, [SearchStudents] answers 200 with a sublist of what
    [GetAllStudents] returns, in the same order: the students that pass
    every non-empty filter, where [name] and [major] are LIKE patterns
    [%value%] and [grade] is compared for equality, byte by byte; [count]
    is the length of [data].  When the pattern of [name] is longer than
    that and the table has a live row, the answer is
    500 "Failed to search students". *)
Theorem search_filters_the_list (db : DB) (name major grade : string) :
  (short name = true -> short major = true -> readable db = true ->
   SearchStudents db name major grade
   = JSON StatusOK
       [("data",
         VStudents (filter (keeps name major grade) (data (GetAllStudents db))));
        ("count",
         VInt (List.length
                 (filter (keeps name major grade) (data (GetAllStudents db)))))]
   /\ (forall r, In r (data (SearchStudents db name major grade)) ->
         In r (data (GetAllStudents db))
         /\ (grade <> "" -> Grade r = grade)))
  /\ (short name = false ->
      (exists r, In r (rows db) /\ live r = true) ->
      exists e,
        SearchStudents db name major grade
        = JSON StatusInternalServerError
            [("error", VString "Failed to search students");
             ("message", VError e)]).
Proof.
  split.
  - intros Sn Sm R.
    assert (E : SearchStudents db name major grade
                = JSON StatusOK
                    [("data",
                      VStudents (filter (keeps name major grade)
                                   (data (GetAllStudents db))));
                     ("count",
                      VInt (List.length
                              (filter (keeps name major grade)
                                 (data (GetAllStudents db)))))]).
    { rewrite (SearchStudents_keep _ _ _ _ Sn Sm R), GetAllStudents_data, R,
        filter_live_keeps. reflexivity. }
    split; [exact E |].
    intros r. rewrite E. simpl.
    intros I. apply filter_In in I as [I K]. split; [exact I |].
    intros NE. unfold keeps in K. apply andb_true_iff in K as [_ K].
    apply String.eqb_neq in NE. rewrite NE in K. simpl in K.
    apply String.eqb_eq. exact K.
  - intros Sn (r & I & L). rewrite SearchStudents_query. unfold Find.
    destruct (select_fails _ _ r ErrLikePattern I
                (search_query_long name major grade r (or_introl Sn) L))
      as [e S].
    exists e. rewrite S. reflexivity.
Qed.

Lemma search_filters_the_list_witness :
  short "a" = true /\ short "" = true /\ readable fourStudents = true
  /\ SearchStudents fourStudents "a" "" "2023"
     = JSON StatusOK [("data", VStudents [alice]); ("count", VInt 1)]
  /\ (forall r, In r (data (SearchStudents fourStudents "a" "" "2023")) ->
        In r (data (GetAllStudents fourStudents))
        /\ ("2023" <> "" -> Grade r = "2023"))
  /\ short (replicate (N.to_nat 49999) "a") = false
  /\ exists e,
       SearchStudents oneStudent (replicate (N.to_nat 49999) "a") "" ""
       = JSON StatusInternalServerError
           [("error", VString "Failed to search students");
            ("message", VError e)].
Proof.
  destruct (search_filters_the_list fourStudents "a" "" "2023") as [Ok _].
  destruct (Ok eq_refl eq_refl eq_refl) as [E Sub].
  assert (Long : short (replicate (N.to_nat 49999) "a") = false)
    by (vm_compute; reflexivity).
  split; [reflexivity |]. split; [reflexivity |]. split; [reflexivity |].
  split; [exact E |]. split; [exact Sub |]. split; [exact Long |].
  apply (proj2 (search_filters_the_list oneStudent
                  (replicate (N.to_nat 49999) "a") "" "") Long).
  exists zhangSanRow. split; [left |]; reflexivity.
Defined.

Lemma like_chars_all_percent p s :
  Forall (fun c => c = 37%N) p -> p <> [] -> like_chars p s = true.
Proof.
  intros F. revert s. induction F as [| c p -> F IH]; intros s NE;
    [contradiction |].
  destruct p as [| d p]; [apply like_chars_percent |].
  rewrite like_chars_star, IH; [reflexivity | discriminate].
Qed.

Lemma chars_all_percent p :
  all_percent p = true ->
  Forall (fun c => c = 37%N) (chars p) /\ (p <> "" -> chars p <> []).
Proof.
  unfold chars. induction p as [| c p IH]; intros A.
  - split; [constructor | intros X; contradiction].
  - simpl in A. apply andb_true_iff in A as [Ac Ap].
    apply Ascii.eqb_eq in Ac. subst c.
    rewrite chars_from_cons. cbv zeta. change (byte "%") with 37%N.
    change ((37 =? 0)%N) with false. change ((37 <? 192)%N) with true.
    cbv iota. split; [| discriminate].
    constructor; [reflexivity | exact (proj1 (IH Ap))].
Qed.

Lemma like_all_percent p s :
  all_percent p = true -> p <> "" -> like p s = true.
Proof.
  intros A NE. destruct (chars_all_percent p A) as [F N].
  unfold like. apply like_chars_all_percent; auto.
Qed.

Lemma all_percent_app a b :
  all_percent a = true -> all_percent b = true -> all_percent (a ++ b) = true.
Proof.
  induction a as [| c a IH]; simpl; [auto |].
  intros A B. apply andb_true_iff in A as [-> A]. simpl. auto.
Qed.

(** X16 -- A filter value made of [%] signs is a wildcard, not a text to
    look for: on a table whose live rows can be read back,
    [SearchStudents] with such a [name] and such a [major], each with a
    pattern within the 50000 bytes that LIKE accepts, returns every live
    student, exactly as [GetAllStudents] does. *)
Theorem search_percent_matches_all (db : DB) (name major : string) :
  all_percent name = true -> all_percent major = true ->
  short name = true -> short major = true -> readable db = true ->
  SearchStudents db name major "" = GetAllStudents db.
Proof.
  intros An Am Sn Sm R.
  rewrite (SearchStudents_keep _ _ _ _ Sn Sm R), (GetAllStudents_readable _ R).
  assert (K : forall r, live r && keeps name major "" r = live r).
  { intros r. unfold keeps.
    rewrite (like_all_percent ("%" ++ name ++ "%") (Name r)),
      (like_all_percent ("%" ++ major ++ "%") (Major r));
      try discriminate; try (apply (all_percent_app "%"); [reflexivity |];
                             apply all_percent_app; auto).
    rewrite !orb_true_r. simpl. apply andb_true_r. }
  rewrite (filter_ext _ _ K). reflexivity.
Qed.

Lemma search_percent_matches_all_witness :
  all_percent "%%" = true /\ all_percent "" = true
  /\ short "%%" = true /\ short "" = true /\ readable fourStudents = true
  /\ SearchStudents fourStudents "%%" "" "" = GetAllStudents fourStudents.
Proof.
  do 5 (split; [reflexivity |]).
  exact (search_percent_matches_all fourStudents "%%" "" eq_refl eq_refl
           eq_refl eq_refl eq_refl).
Defined.

(** *** Case of the filter values *)

Lemma lowerN_idem c : lowerN (lowerN c) = lowerN c.
Proof.
  assert (K : forall x, ((65 <=? x) && (x <=? 90))%N = false -> lowerN x = x).
  { intros x E. unfold lowerN. rewrite E. reflexivity. }
  unfold lowerN at 2 3.
  destruct ((65 <=? c) && (c <=? 90))%N eqn:E.
  - apply K. apply andb_true_iff in E as [A B]. apply N.leb_le in A, B.
    apply andb_false_iff. right. apply N.leb_gt. lia.
  - apply K. exact E.
Qed.

Lemma lowerN_wildcard c :
  (lowerN c =? 37)%N = (c =? 37)%N /\ (lowerN c =? 95)%N = (c =? 95)%N.
Proof.
  unfold lowerN.
  destruct ((65 <=? c) && (c <=? 90))%N eqn:E; [| split; reflexivity].
  apply andb_true_iff in E as [A B]. apply N.leb_le in A, B.
  split; [destruct (N.eqb_spec (c + 32) 37); destruct (N.eqb_spec c 37)
         | destruct (N.eqb_spec (c + 32) 95); destruct (N.eqb_spec c 95)];
    try reflexivity; lia.
Qed.

Lemma eq_char_lowerN c d : eq_char (lowerN c) d = eq_char c d.
Proof.
  apply eq_true_iff_eq. rewrite !eq_char_lower, lowerN_idem. tauto.
Qed.

(** The case of the ASCII letters of a pattern does not matter. *)
Lemma like_chars_lower p s : like_chars (map lowerN p) s = like_chars p s.
Proof.
  revert s. induction p as [| c p IH]; intros s; [reflexivity |].
  change (map lowerN (c :: p)) with (lowerN c :: map lowerN p).
  destruct (lowerN_wildcard c) as [W1 W2].
  destruct (N.eqb_spec c 37) as [-> | N37].
  - change (lowerN 37) with 37%N.
    induction s as [| d s IHs].
    + rewrite !like_chars_star, IH. reflexivity.
    + rewrite (like_chars_star (map lowerN p)), (like_chars_star p), IH, IHs.
      reflexivity.
  - destruct (N.eqb_spec c 95) as [-> | N95].
    + change (lowerN 95) with 95%N. simpl.
      destruct s; [reflexivity | apply IH].
    + apply N.eqb_neq in W1, W2.
      rewrite !like_chars_literal by assumption.
      destruct s as [| d s]; [reflexivity |].
      rewrite eq_char_lowerN, IH. reflexivity.
Qed.

Lemma toLower_cases a :
  toLower a = a \/ ((65 <= byte a <= 90)%N /\ byte (toLower a) = (byte a + 32)%N).
Proof.
  unfold toLower.
  destruct (N.leb_spec 65 (byte a)); simpl; [| auto].
  destruct (N.leb_spec (byte a) 90); simpl; [| auto].
  right. split; [lia |]. apply byte_ascii_of_N. lia.
Qed.

Lemma utf8_fix_lower c : lowerN (utf8_fix c) = utf8_fix c.
Proof.
  pose proof (utf8_fix_high c). unfold lowerN.
  destruct (N.leb_spec 65 (utf8_fix c)); destruct (N.leb_spec (utf8_fix c) 90);
    simpl; try reflexivity; lia.
Qed.

(** Lower-casing the bytes A-Z of a text lower-cases its characters. *)
Lemma chars_from_lower cur s :
  chars_from cur (lower s) = map lowerN (chars_from cur s).
Proof.
  revert cur. induction s as [| a s IH]; intros cur.
  - destruct cur; simpl; [rewrite utf8_fix_lower |]; reflexivity.
  - change (lower (String a s)) with (String (toLower a) (lower s)).
    rewrite !chars_from_cons. cbv zeta.
    pose proof (byte_toLower a) as Bl.
    destruct (toLower_cases a) as [Same | (Rg & Bl')].
    + rewrite Same in *.
      destruct cur as [c |]; [destruct (is_cont a); [apply IH |] |];
        destruct (byte a =? 0)%N; destruct (byte a <? 192)%N; cbn [map];
        rewrite ?IH, ?utf8_fix_lower, <- ?Bl; reflexivity.
    + assert (C1 : is_cont a = false).
      { unfold is_cont. destruct (N.leb_spec 128 (byte a)); [lia | reflexivity]. }
      assert (C2 : is_cont (toLower a) = false).
      { unfold is_cont. rewrite Bl'.
        destruct (N.leb_spec 128 (byte a + 32)); [lia | reflexivity]. }
      assert (Z1 : (byte a =? 0)%N = false) by (apply N.eqb_neq; lia).
      assert (Z2 : (byte (toLower a) =? 0)%N = false)
        by (apply N.eqb_neq; lia).
      assert (L1 : (byte a <? 192)%N = true) by (apply N.ltb_lt; lia).
      assert (L2 : (byte (toLower a) <? 192)%N = true)
        by (apply N.ltb_lt; lia).
      rewrite C1, C2, Z1, Z2, L1, L2, Bl.
      destruct cur as [c |]; cbn [map]; rewrite ?IH, ?utf8_fix_lower;
        reflexivity.
Qed.

Lemma like_lower p s : like (lower p) s = like p s.
Proof.
  unfold like, chars. rewrite chars_from_lower. apply like_chars_lower.
Qed.

Lemma lower_app a b : lower (a ++ b) = lower a ++ lower b.
Proof.
  induction a as [| c a IH]; [reflexivity |]. simpl. rewrite IH. reflexivity.
Qed.

Lemma lower_empty s : String.eqb (lower s) "" = String.eqb s "".
Proof. destruct s; reflexivity. Qed.

Lemma lower_length s : String.length (lower s) = String.length s.
Proof.
  induction s as [| c s IH]; [reflexivity |]. simpl. rewrite IH. reflexivity.
Qed.

Lemma LIKE_lower text value :
  LIKE text ("%" ++ lower value ++ "%") = LIKE text ("%" ++ value ++ "%").
Proof.
  change ("%" ++ lower value ++ "%") with (lower "%" ++ lower value ++ lower "%").
  rewrite <- !lower_app. unfold LIKE. rewrite lower_length, like_lower.
  reflexivity.
Qed.

Lemma select_ext q q' l :
  (forall r, holds q r = holds q' r) -> select q l = select q' l.
Proof.
  intros E. induction l as [| a l IH]; [reflexivity |].
  simpl. rewrite E, IH. reflexivity.
Qed.

Lemma search_query_lower name major grade r :
  holds (search_query (lower name) (lower major) grade ++ [sql live])%list r
  = holds (search_query name major grade ++ [sql live])%list r.
Proof.
  unfold search_query, Where. rewrite !lower_empty.
  destruct (String.eqb name ""); destruct (String.eqb major "");
    destruct (String.eqb grade ""); simpl negb; cbv iota; cbn [List.app];
    unfold holds; rewrite ?LIKE_lower; reflexivity.
Qed.

(** X17 -- The [name] and [major] filters do not distinguish the case of
    ASCII letters: a search gives the same answer when the letters A-Z of
    both filter values are replaced by a-z.  (The [grade] filter is an
    equality and does distinguish case.) *)
Theorem search_ignores_filter_case (db : DB) (name major grade : string) :
  SearchStudents db (lower name) (lower major) grade
  = SearchStudents db name major grade.
Proof.
  rewrite !SearchStudents_query. unfold Find.
  rewrite (select_ext _ _ _ (search_query_lower name major grade)).
  reflexivity.
Qed.

(** ** What every reachable table satisfies *)

Lemma validate_same_fields isEmail a b :
  same_fields a b -> validate isEmail a = validate isEmail b.
Proof.
  intros (E1 & E2 & E3 & E4 & E5 & E6 & E7).
  unfold validate, check_Name, check_Age, check_Gender, check_Email,
    check_Phone, check_Major, check_Grade.
  rewrite E1, E2, E3, E4, E5, E6, E7. reflexivity.
Qed.

Lemma Create_valid isEmail db now s :
  validate isEmail s = [] -> valid_rows isEmail db ->
  valid_rows isEmail (snd (Create db now s)).
Proof.
  intros V Hv.
  destruct (Create db now s) as [[e | s'] d] eqn:C; simpl.
  - rewrite (Create_inl _ _ _ _ _ C). exact Hv.
  - apply Create_inr in C as (Es & -> & _). unfold valid_rows in *. simpl.
    apply Forall_forall. intros r I. apply insert_row_In in I as [-> | I].
    + rewrite <- V. apply validate_same_fields. rewrite Es. repeat split.
    + exact (proj1 (Forall_forall _ _) Hv r I).
Qed.

Lemma Updates_valid isEmail db now student u :
  unique_ids (rows db) = true ->
  validate isEmail u = [] -> DeletedAt u = None -> valid_rows isEmail db ->
  valid_rows isEmail (snd (Updates db now student u)).
Proof.
  intros Uq V D Hv.
  destruct (Updates db now student u) as [[e | s'] d] eqn:C; simpl.
  - rewrite (Updates_inl _ _ _ _ _ _ C). exact Hv.
  - apply (Updates_rows _ _ _ _ _ _ Uq) in C as (_ & [(Er & _) | Hr]).
    + unfold valid_rows. rewrite Er. exact Hv.
    + destruct Hr as (l1 & r & l2 & Er & _ & _ & _ & _ & _ & Er').
      unfold valid_rows in *. rewrite Er in Hv. rewrite Er'.
      assert (Vn : validate isEmail (assign now u r) = []).
      { rewrite <- V. apply validate_same_fields.
        exact (proj1 (assign_bound isEmail now u r V D)). }
      apply Forall_app in Hv as [H1 H2]. inversion H2 as [| ? ? _ H2']; subst.
      destruct (_ =? _)%N.
      * apply Forall_app. split; [exact H1 |]. constructor; assumption.
      * apply Forall_forall. intros q I. apply insert_row_In in I as [-> | I];
          [exact Vn |].
        apply in_app_or in I as [I | I];
          [exact (proj1 (Forall_forall _ _) H1 q I)
          | exact (proj1 (Forall_forall _ _) H2' q I)].
Qed.

Lemma Delete_valid isEmail db now student :
  valid_rows isEmail db -> valid_rows isEmail (snd (Delete db now student)).
Proof.
  intros Hv. unfold Delete. destruct (ID student =? 0)%N; [exact Hv |].
  unfold valid_rows in *. simpl. apply Forall_map. revert Hv.
  apply Forall_impl. intros r Vr.
  destruct (target student r); [| exact Vr].
  rewrite <- Vr. apply validate_same_fields. repeat split.
Qed.

Lemma reachable_valid isEmail db : reachable isEmail db -> valid_rows isEmail db.
Proof.
  induction 1 as [| db now body R IH | db now param body R IH | db now param R IH].
  - constructor.
  - unfold CreateStudent.
    destruct (ShouldBindJSON isEmail body) as [e | s] eqn:B; [exact IH |].
    destruct body as [b |]; [| discriminate].
    apply ShouldBindJSON_inr in B as [_ V].
    pose proof (Create_valid isEmail db now s V IH) as K.
    destruct (Create db now s) as [[e | s'] d]; exact K.
  - unfold UpdateStudent. destruct (ParseUint param); [| exact IH].
    destruct (First db n); [exact IH |].
    destruct (ShouldBindJSON isEmail body) as [e | u] eqn:B; [exact IH |].
    destruct body as [b |]; [| discriminate].
    apply ShouldBindJSON_inr in B as [U V].
    assert (D : DeletedAt u = None) by (rewrite (unmarshal_inr _ _ U); reflexivity).
    pose proof (reachable_consistent _ _ R) as C.
    apply consistent_parts in C as (Uq & _ & _).
    pose proof (Updates_valid isEmail db now s u Uq V D IH) as K.
    destruct (Updates db now s u) as [[e | s'] d]; exact K.
  - unfold DeleteStudent. destruct (ParseUint param); [| exact IH].
    destruct (First db n); [exact IH |].
    pose proof (Delete_valid isEmail db now s IH) as K.
    destruct (Delete db now s) as [[e | []] d]; exact K.
Qed.

(** X18 -- In every table that the handlers can produce from the fresh
    one, no two rows, live or soft-deleted, share an id or an email, no id
    is [0], and every row still passes the binding checks of the model
    (non-empty name, phone, major and grade, age in [1..150], one of the two
    gender labels, an email of email shape).  Every id is a [uint] of 64
    bits, and the rows are stored in the strict order of their rowids, the
    ids read as signed numbers of 64 bits. *)
Theorem reachable_table_invariant (isEmail : string -> bool) (db : DB) :
  reachable isEmail db ->
  NoDup (map ID (rows db))
  /\ NoDup (map Email (rows db))
  /\ Forall (fun r => ID r <> 0%N) (rows db)
  /\ Forall (fun r =>
       Name r <> "" /\ (1 <= Age r <= 150)%Z
       /\ (Gender r = "男" \/ Gender r = "女")
       /\ (Email r <> "" /\ isEmail (Email r) = true)
       /\ Phone r <> "" /\ Major r <> "" /\ Grade r <> "") (rows db)
  /\ Forall (fun r => (ID r < 2 ^ 64)%N) (rows db)
  /\ StronglySorted (fun a b => (rowid (ID a) < rowid (ID b))%Z) (rows db).
Proof.
  intros R.
  pose proof (reachable_consistent _ _ R) as C.
  pose proof (reachable_valid _ _ R) as V.
  destruct (reachable_keys _ _ R) as [U S].
  apply consistent_parts in C as (Uid & Uem & Z).
  split; [apply unique_ids_NoDup; exact Uid |].
  split; [apply unique_emails_NoDup; exact Uem |]. split; [| split; [| split]].
  - apply Forall_forall. intros r I. unfold nonzero_ids in Z.
    rewrite forallb_forall in Z. specialize (Z r I).
    apply negb_true_iff, N.eqb_neq in Z. exact Z.
  - revert V. apply Forall_impl. intros r Vr. apply validate_nil. exact Vr.
  - apply Forall_forall. exact (proj1 (uint_ids_Forall _) U).
  - apply sorted_rows_Sorted. exact S.
Qed.

Lemma reachable_table_invariant_witness :
  reachable hasAt twoStudents
  /\ NoDup (map ID (rows twoStudents))
  /\ NoDup (map Email (rows twoStudents))
  /\ reachable hasAt wrappedStudent
  /\ StronglySorted (fun a b => (rowid (ID a) < rowid (ID b))%Z)
       (rows wrappedStudent).
Proof.
  destruct (reachable_table_invariant hasAt twoStudents twoStudents_reachable)
    as (A & B & _).
  destruct (reachable_table_invariant hasAt wrappedStudent
              wrappedStudent_reachable) as (_ & _ & _ & _ & _ & S).
  split; [exact twoStudents_reachable |]. split; [exact A |].
  split; [exact B |]. split; [exact wrappedStudent_reachable | exact S].
Defined.

(** ** Routing *)

Lemma all_digits_no_slash s : all_digits s = true -> has_slash s = false.
Proof.
  induction s as [| c s IH]; simpl; [reflexivity |].
  destruct (digit c) eqn:D; [| discriminate].
  intros A. rewrite (IH A), orb_false_r.
  destruct (Ascii.eqb_spec c "/"); [subst c; discriminate | reflexivity].
Qed.

Lemma ParseUint_segment param id :
  ParseUint param = Some id ->
  segment param = true /\ String.eqb param "search" = false.
Proof.
  intros P. apply ParseUint_Some in P as (NE & A & _). split.
  - unfold segment. rewrite (all_digits_no_slash _ A).
    apply String.eqb_neq in NE. rewrite NE. reflexivity.
  - destruct (String.eqb_spec param "search"); [subst; discriminate | reflexivity].
Qed.

Lemma SetupRoutes_id method seg :
  segment seg = true ->
  SetupRoutes method ("/api/v1/students/" ++ seg)
  = if String.eqb method "GET" then
      if String.eqb seg "search" then Some hSearchStudents
      else Some (hGetStudentByID seg)
    else if String.eqb method "PUT" then Some (hUpdateStudent seg)
    else if String.eqb method "DELETE" then Some (hDeleteStudent seg)
    else None.
Proof.
  intros S. unfold SetupRoutes.
  change (String.eqb ("/api/v1/students/" ++ seg) "/api/v1/students") with false.
  change (strip_prefix "/api/v1/students/" ("/api/v1/students/" ++ seg))
    with (Some seg).
  cbv iota. rewrite S. reflexivity.
Qed.

(** X19 -- Every path id that parses reaches the id handlers: for such a
    segment [p], [GET /api/v1/students/p] is answered by [GetStudentByID],
    [PUT] by [UpdateStudent] and [DELETE] by [DeleteStudent], each on [p];
    [GET /api/v1/students/search] is answered by [SearchStudents] on the
    query parameters [name], [major] and [grade], and shadows no id,
    because "search" does not parse. *)
Theorem id_routes (isEmail : string -> bool) (db : DB) (now : Time)
  (param : string) (id : N) (q : string -> string) (body : option JSONBody) :
  ParseUint param = Some id ->
  serve isEmail db now (mkRequest "GET" ("/api/v1/students/" ++ param) q body)
  = (Some (mkServed corsHeaders (aJSON (GetStudentByID db param))), db)
  /\ serve isEmail db now (mkRequest "PUT" ("/api/v1/students/" ++ param) q body)
     = (Some (mkServed corsHeaders
                (aJSON (fst (UpdateStudent isEmail db now param body)))),
        snd (UpdateStudent isEmail db now param body))
  /\ serve isEmail db now (mkRequest "DELETE" ("/api/v1/students/" ++ param) q body)
     = (Some (mkServed corsHeaders (aJSON (fst (DeleteStudent db now param)))),
        snd (DeleteStudent db now param))
  /\ serve isEmail db now (mkRequest "GET" "/api/v1/students/search" q body)
     = (Some (mkServed corsHeaders
                (aJSON (SearchStudents db (q "name") (q "major") (q "grade")))),
        db)
  /\ ParseUint "search" = None.
Proof.
  intros P. destruct (ParseUint_segment _ _ P) as [S NS].
  unfold serve. simpl Method. simpl Path. cbv iota.
  change (String.eqb "GET" "OPTIONS") with false.
  change (String.eqb "PUT" "OPTIONS") with false.
  change (String.eqb "DELETE" "OPTIONS") with false. cbv iota.
  rewrite !(SetupRoutes_id _ _ S), NS.
  repeat split; simpl.
  - destruct (UpdateStudent isEmail db now param body); reflexivity.
  - destruct (DeleteStudent db now param); reflexivity.
Qed.

Lemma id_routes_witness :
  ParseUint "2" = Some 2%N
  /\ serve hasAt twoStudents 300%N (getRequest "/api/v1/students/2")
     = (Some (mkServed corsHeaders
                (aJSON (JSON StatusOK [("data", VStudent liSiRow)]))),
        twoStudents).
Proof.
  split; [reflexivity |].
  exact (proj1 (id_routes hasAt twoStudents 300%N "2" 2%N (fun _ => "") None
                  eq_refl)).
Defined.

Lemma SetupRoutes_writers method path h :
  SetupRoutes method path = Some h ->
  match h with
  | hCreateStudent => method = "POST"
  | hUpdateStudent _ => method = "PUT"
  | hDeleteStudent _ => method = "DELETE"
  | _ => True
  end.
Proof.
  unfold SetupRoutes.
  destruct (String.eqb path "/api/v1/students").
  - destruct (String.eqb_spec method "GET");
      [intros E; inversion E; exact I |].
    destruct (String.eqb_spec method "POST");
      [intros E; inversion E; assumption | discriminate].
  - destruct (strip_prefix "/api/v1/students/" path) as [seg |].
    + destruct (segment seg); [| discriminate].
      destruct (String.eqb_spec method "GET").
      * destruct (String.eqb seg "search"); intros E; inversion E; exact I.
      * destruct (String.eqb_spec method "PUT");
          [intros E; inversion E; assumption |].
        destruct (String.eqb_spec method "DELETE");
          [intros E; inversion E; assumption | discriminate].
    + destruct (strip_prefix "/static" path) as [[| c rest] |].
      * destruct (String.eqb method "GET"); [| discriminate].
        destruct (String.eqb path "/"); [intros E; inversion E; exact I |].
        destruct (String.eqb path "/students"); [| discriminate].
        intros E; inversion E; exact I.
      * destruct (Ascii.eqb_spec c "/").
        -- subst c. destruct (_ || _); [| discriminate].
           intros E; inversion E; exact I.
        -- destruct c as [[] [] [] [] [] [] [] []]; try contradiction;
             (destruct (String.eqb method "GET"); [| discriminate];
              destruct (String.eqb path "/"); [intros E; inversion E; exact I |];
              destruct (String.eqb path "/students"); [| discriminate];
              intros E; inversion E; exact I).
      * destruct (String.eqb method "GET"); [| discriminate].
        destruct (String.eqb path "/"); [intros E; inversion E; exact I |].
        destruct (String.eqb path "/students"); [| discriminate].
        intros E; inversion E; exact I.
Qed.

(** X20 -- Only POST, PUT and DELETE can write.  A request with any other
    method leaves the table as it is, whatever its path, query and body;
    an OPTIONS request is answered 204 with the three CORS headers on every
    path without reaching a handler; and every answer that a registered
    route gives carries the three CORS headers. *)
Theorem only_write_methods_write (isEmail : string -> bool)
  (db : DB) (now : Time) (req : Request) :
  (Method req <> "POST" -> Method req <> "PUT" -> Method req <> "DELETE" ->
   snd (serve isEmail db now req) = db)
  /\ (Method req = "OPTIONS" ->
      serve isEmail db now req
      = (Some (mkServed corsHeaders (aStatus 204)), db))
  /\ (forall served,
        fst (serve isEmail db now req) = Some served ->
        Header served = corsHeaders).
Proof.
  split; [| split].
  - intros N1 N2 N3. unfold serve.
    destruct (String.eqb (Method req) "OPTIONS"); [reflexivity |].
    destruct (SetupRoutes (Method req) (Path req)) as [h |] eqn:S;
      [| reflexivity].
    apply SetupRoutes_writers in S.
    destruct h; try reflexivity; contradiction.
  - intros E. unfold serve. rewrite E. reflexivity.
  - intros served. unfold serve.
    destruct (String.eqb (Method req) "OPTIONS");
      [intros E; inversion E; reflexivity |].
    destruct (SetupRoutes (Method req) (Path req)) as [h |]; [| discriminate].
    destruct (run isEmail h db now req). intros E; inversion E; reflexivity.
Qed.

Lemma only_write_methods_write_witness :
  snd (serve hasAt twoStudents 300%N (getRequest "/api/v1/students/1"))
  = twoStudents
  /\ serve hasAt twoStudents 300%N
       (mkRequest "OPTIONS" "/api/v1/students/1" (fun _ => "") None)
     = (Some (mkServed corsHeaders (aStatus 204)), twoStudents).
Proof.
  destruct (only_write_methods_write hasAt twoStudents 300%N
              (getRequest "/api/v1/students/1")) as (A & _).
  destruct (only_write_methods_write hasAt twoStudents 300%N
              (mkRequest "OPTIONS" "/api/v1/students/1" (fun _ => "") None))
    as (_ & B & _).
  split; [apply A; discriminate | apply B; reflexivity].
Defined.

(** X21 -- An id in the body of a create request that some row of the
    table already has, live or soft-deleted, is refused: when the body
    passes binding, [CreateStudent] answers 500 "Failed to create student"
    and the table is returned as it was. *)
Theorem create_with_taken_id (isEmail : string -> bool)
  (db : DB) (now : Time) (b : JSONBody) (s r : Student) :
  ShouldBindJSON isEmail (Some b) = inr s ->
  ID s <> 0%N -> In r (rows db) -> ID r = ID s ->
  exists e,
    CreateStudent isEmail db now (Some b)
    = (JSON StatusInternalServerError
         [("error", VString "Failed to create student");
          ("message", VError e)], db)
    /\ store_error e.
Proof.
  intros B NZ I E.
  rewrite (CreateStudent_bound _ _ _ _ _ B). unfold Create.
  apply N.eqb_neq in NZ. rewrite NZ.
  assert (T : id_taken (rows db) (ID s) = true).
  { unfold id_taken. apply existsb_exists. exists r.
    split; [exact I | apply N.eqb_eq; exact E]. }
  rewrite T. eexists; split; [reflexivity | exact Logic.I].
Qed.

Lemma create_with_taken_id_witness :
  ShouldBindJSON hasAt (Some (withSystem (Some 1%N) None None liSi))
  = inr (setID 1%N liSiBound)
  /\ In (setDeletedAt (Some 300%N) zhangSanRow) (rows oneDeleted)
  /\ exists e,
       CreateStudent hasAt oneDeleted 400%N
         (Some (withSystem (Some 1%N) None None liSi))
       = (JSON StatusInternalServerError
            [("error", VString "Failed to create student");
             ("message", VError e)], oneDeleted)
       /\ store_error e.
Proof.
  split; [reflexivity |]. split; [left; reflexivity |].
  apply (create_with_taken_id hasAt oneDeleted 400%N
           (withSystem (Some 1%N) None None liSi) (setID 1%N liSiBound)
           (setDeletedAt (Some 300%N) zhangSanRow));
    [reflexivity | discriminate | left; reflexivity | reflexivity].
Defined.
